(** * EDClient: the resumable acquisition pipeline of the ECHO data client

    A shallow embedding of [EDClient.py] (request loading, pending-download
    merge, feasibility check, multi-transfer loop, cleanup, database update
    and pending-transaction replay) together with the properties stated
    about them.

    Conventions of the embedding:
    - Python integers are [Z]; Python floats are IEEE binary64 values of the
      Standard Library's [spec_float];
    - a Python exception that the source does not catch is a [Raise] result;
      [SystemExit] is one of them;
    - a piece of element text read through lxml's [.text] (or an attribute
      read through [.get] without default) may be [None]: it is an
      [option string];
    - the log file [EDClog] is a list of written strings. *)

From Stdlib Require Import ZArith List String Ascii Bool Lia.
From Stdlib Require Import Floats.SpecFloat.
From stdpp Require Import base option list strings gmap pretty.

Open Scope string_scope.
Open Scope Z_scope.

(** ** Python prelude *)

Module Py.

(** Exceptions the embedded code can raise and does not always catch. *)
Inductive exn :=
| SystemExit
| AttributeError
| TypeError
| ValueError
| IndexError
| KeyError
| UnboundLocalError
| IOError
(** not a Python exception: the bounded unrolling of a [while] loop of the
    model ran out before the loop ended *)
| FuelExhausted.

(** The result of running a piece of Python: a value or a raised exception. *)
Inductive res (A : Type) :=
| Ret (a : A)
| Raise (e : exn).
Arguments Ret {A} a.
Arguments Raise {A} e.

Definition bind {A B} (r : res A) (k : A -> res B) : res B :=
  match r with
  | Ret a => k a
  | Raise e => Raise e
  end.

(** Reading a local variable: [None] is an unbound local. *)
Definition local {A} (v : option A) : res A :=
  match v with
  | Some a => Ret a
  | None => Raise UnboundLocalError
  end.

(** Dereferencing the result of [find]: [None.attr] is an AttributeError. *)
Definition attr_of {A} (v : option A) : res A :=
  match v with
  | Some a => Ret a
  | None => Raise AttributeError
  end.

(** A string operand of [+]: concatenating [None] is a TypeError. *)
Definition str_of (v : option string) : res string :=
  match v with
  | Some s => Ret s
  | None => Raise TypeError
  end.

(** [len(s)] of a string. *)
Definition len (s : string) : Z := Z.of_nat (String.length s).

(** Characters that [str.strip()] and [int()] treat as white space. *)
Definition is_space (c : ascii) : bool :=
  let n := nat_of_ascii c in
  ((n =? 32) || ((9 <=? n) && (n <=? 13)))%nat.

Definition is_digit (c : ascii) : bool :=
  let n := nat_of_ascii c in
  ((48 <=? n) && (n <=? 57))%nat.

Definition digit_val (c : ascii) : Z := Z.of_nat (nat_of_ascii c) - 48.

Fixpoint lstrip (l : list ascii) : list ascii :=
  match l with
  | c :: l' => if is_space c then lstrip l' else l
  | [] => []
  end.

Definition strip (l : list ascii) : list ascii :=
  rev (lstrip (rev (lstrip l))).

Fixpoint digits_val (acc : Z) (l : list ascii) : option Z :=
  match l with
  | [] => Some acc
  | c :: l' => if is_digit c then digits_val (10 * acc + digit_val c) l' else None
  end.

Definition unsigned_val (l : list ascii) : option Z :=
  match l with
  | [] => None
  | _ :: _ => digits_val 0 l
  end.

(** [int(s)] on a string in base 10: surrounding white space, an optional
    sign, at least one decimal digit; anything else is a ValueError. *)
Definition int (s : string) : res Z :=
  let body :=
    match strip (list_ascii_of_string s) with
    | "-"%char :: l => option_map Z.opp (unsigned_val l)
    | "+"%char :: l => unsigned_val l
    | l => unsigned_val l
    end in
  match body with
  | Some z => Ret z
  | None => Raise ValueError
  end.

(** [int(v)] where [v] may be [None]. *)
Definition int_of (v : option string) : res Z :=
  match v with
  | Some s => int s
  | None => Raise TypeError
  end.

(** How [str.format] and [%s] show a value that is a string or [None]. *)
Definition show (v : option string) : string :=
  match v with
  | Some s => s
  | None => "None"
  end.

(** [str(n)] of an integer. *)
Definition str_int (n : Z) : string := pretty n.

(** [range(a, b)]. *)
Definition range (a b : Z) : list Z := seqZ a (b - a).

(** [min(l)] and [max(l)] of a list of integers; the empty list is a
    ValueError. *)
Definition min (l : list Z) : res Z :=
  match l with
  | [] => Raise ValueError
  | x :: l' => Ret (fold_left Z.min l' x)
  end.

Definition max (l : list Z) : res Z :=
  match l with
  | [] => Raise ValueError
  | x :: l' => Ret (fold_left Z.max l' x)
  end.

(** [l[i]] on a list, with Python's negative indices. *)
Definition getitem {A} (l : list A) (i : Z) : res A :=
  let n := Z.of_nat (length l) in
  let j := if i <? 0 then i + n else i in
  if (j <? 0) || (n <=? j) then Raise IndexError
  else match l !! Z.to_nat j with
       | Some a => Ret a
       | None => Raise IndexError
       end.

(** [l[i] = x] as a functional update. *)
Definition setitem {A} (l : list A) (i : Z) (x : A) : res (list A) :=
  let n := Z.of_nat (length l) in
  let j := if i <? 0 then i + n else i in
  if (j <? 0) || (n <=? j) then Raise IndexError
  else Ret (<[Z.to_nat j := x]> l).

End Py.

Notation "'let*' x ':=' c1 'in' c2" := (Py.bind c1 (fun x => c2))
  (at level 10, x pattern, c1 at level 100, c2 at level 200).

(** ** The proleptic Gregorian calendar of Python's [datetime.date] *)

Module Calendar.

Definition MINYEAR : Z := 1.
Definition MAXYEAR : Z := 9999.

Definition is_leap (y : Z) : bool :=
  (y mod 4 =? 0) && (negb (y mod 100 =? 0) || (y mod 400 =? 0)).

Definition DAYS_IN_MONTH : list Z :=
  [-1; 31; 28; 31; 30; 31; 30; 31; 31; 30; 31; 30; 31].

Definition DAYS_BEFORE_MONTH : list Z :=
  [-1; 0; 31; 59; 90; 120; 151; 181; 212; 243; 273; 304; 334].

Definition days_before_year (y : Z) : Z :=
  let y1 := y - 1 in
  y1 * 365 + y1 / 4 - y1 / 100 + y1 / 400.

Definition days_in_month (y m : Z) : Z :=
  if (m =? 2) && is_leap y then 29
  else nth (Z.to_nat m) DAYS_IN_MONTH 0.

Definition days_before_month (y m : Z) : Z :=
  nth (Z.to_nat m) DAYS_BEFORE_MONTH 0
  + (if (2 <? m) && is_leap y then 1 else 0).

Definition ymd2ord (y m d : Z) : Z :=
  days_before_year y + days_before_month y m + d.

(** A constructed [date] object. *)
Record date := mkdate { year : Z; month : Z; day : Z }.

(** [dt.date(y, m, d)]: a ValueError unless the triple is a real date. *)
Definition valid_date (y m d : Z) : bool :=
  (MINYEAR <=? y) && (y <=? MAXYEAR)
  && (1 <=? m) && (m <=? 12)
  && (1 <=? d) && (d <=? days_in_month y m).

Definition mk (y m d : Z) : Py.res date :=
  if valid_date y m d then Py.Ret (mkdate y m d) else Py.Raise Py.ValueError.

Definition toordinal (t : date) : Z := ymd2ord (year t) (month t) (day t).

(** The day of the year as the source computes it:
    [dt.date(y, m, d).toordinal() - dt.date(y, 1, 1).toordinal() + 1]. *)
Definition day_of_year (y m d : Z) : Py.res Z :=
  let* t := mk y m d in
  let* j := mk y 1 1 in
  Py.Ret (toordinal t - toordinal j + 1).

End Calendar.

(** ** The lxml element tree, as far as the client uses it *)

Module Xml.

#[warnings="-register-all"]
Inductive element :=
| Elem (tag : string) (attrib : list (string * string))
       (text : option string) (children : list element).

Definition tag (e : element) : string :=
  match e with Elem t _ _ _ => t end.
Definition attrib (e : element) : list (string * string) :=
  match e with Elem _ a _ _ => a end.
Definition text (e : element) : option string :=
  match e with Elem _ _ x _ => x end.
Definition children (e : element) : list element :=
  match e with Elem _ _ _ c => c end.

(** [len(e)]: the number of children. *)
Definition len (e : element) : Z := Z.of_nat (length (children e)).

(** [e.get(k)]: [None] when the attribute is absent. *)
Definition get (e : element) (k : string) : option string :=
  snd <$> List.find (fun kv => String.eqb (fst kv) k) (attrib e).

(** [e.get(k, default=d)]. *)
Definition get_default (e : element) (k d : string) : string :=
  default d (get e k).

(** [e.find(t)]: the first child with tag [t]. *)
Definition find (e : element) (t : string) : option element :=
  List.find (fun c => String.eqb (tag c) t) (children e).

(** [e.findall(t)]: the children with tag [t], in document order. *)
Definition findall (e : element) (t : string) : list element :=
  List.filter (fun c => String.eqb (tag c) t) (children e).

(** [e.iter(t)]: [e] and its descendants with tag [t], in document order. *)
Fixpoint descendants (e : element) : list element :=
  match e with
  | Elem _ _ _ cs => e :: flat_map descendants cs
  end.

Definition iter (e : element) (t : string) : list element :=
  List.filter (fun c => String.eqb (tag c) t) (descendants e).

(** [v.find(t)] where [v] is itself the result of a [find]. *)
Definition find_in (v : option element) (t : string) : Py.res (option element) :=
  let* e := Py.attr_of v in Py.Ret (find e t).

(** [v.text] where [v] is the result of a [find]. *)
Definition text_of (v : option element) : Py.res (option string) :=
  let* e := Py.attr_of v in Py.Ret (text e).

End Xml.

(** ** QueryBuilder: [ECHOrequest.loadDataSetQueries] and [ECHOdsQuery] *)

Module QueryBuilder.
Import Xml.

(** The value of [temporal_start_day] / [temporal_end_day]: the initial
    empty string, or the integer a recurring criteria assigned. *)
Inductive dayval :=
| DayUnset
| DayInt (n : Z).

Definition str_day (v : dayval) : string :=
  match v with
  | DayUnset => ""
  | DayInt n => Py.str_int n
  end.

Record ECHOdsQuery := mkQuery {
  snStr : string;
  vStr : string;
  bbStr : string;
  tStr : string;
  w_bound : string;
  s_bound : string;
  e_bound : string;
  n_bound : string
}.

(** [bbox[k]] on the bounding box dictionary. *)
Definition bbox_get (bbox : gmap string string) (k : string) : Py.res string :=
  match bbox !! k with
  | Some v => Py.Ret v
  | None => Py.Raise Py.KeyError
  end.

(** [ECHOdsQuery.__init__]. *)
Definition ECHOdsQuery_init (sname ver : option string)
    (bbox : gmap string string) (tst sdt edt : string) (tsd ted : dayval)
    : Py.res ECHOdsQuery :=
  let* sn := Py.str_of sname in
  let* v := Py.str_of ver in
  let* w := bbox_get bbox "w" in
  let* s := bbox_get bbox "s" in
  let* e := bbox_get bbox "e" in
  let* n := bbox_get bbox "n" in
  let t :=
    if String.eqb tst "static"
    then "&temporal=" ++ sdt ++ "," ++ edt
    else "&temporal=" ++ sdt ++ "," ++ edt ++ ","
         ++ str_day tsd ++ "," ++ str_day ted in
  Py.Ret {| snStr := "?shortName=" ++ sn;
            vStr := "&version=" ++ v;
            bbStr := "&bounding_box=" ++ w ++ "," ++ s ++ "," ++ e ++ "," ++ n;
            tStr := t;
            w_bound := w; s_bound := s; e_bound := e; n_bound := n |}.

Definition getDSqueryStr (q : ECHOdsQuery) : string :=
  snStr q ++ vStr q ++ bbStr q ++ tStr q.
Definition getSpatialstr (q : ECHOdsQuery) : string := bbStr q.
Definition getTemporalStr (q : ECHOdsQuery) : string := tStr q.

(** *** The recurring day-of-year window (lines 350-365) *)

Fixpoint doy_lists (yrs : list Z) (intMonStart intDayStart intMonEnd intDayEnd : Z)
    (temporal_start_list temporal_end_list : list Z)
    : Py.res (list Z * list Z) :=
  match yrs with
  | [] => Py.Ret (temporal_start_list, temporal_end_list)
  | yr :: yrs' =>
      let* sdoy := Calendar.day_of_year yr intMonStart intDayStart in
      let* edoy := Calendar.day_of_year yr intMonEnd intDayEnd in
      doy_lists yrs' intMonStart intDayStart intMonEnd intDayEnd
                (temporal_start_list ++ [sdoy]) (temporal_end_list ++ [edoy])
  end.

Definition recurring_window (yr_start yr_end : Z)
    (intMonStart intDayStart intMonEnd intDayEnd : Z) : Py.res (Z * Z) :=
  let* (temporal_start_list, temporal_end_list) :=
    doy_lists (Py.range yr_start (yr_end + 1))
              intMonStart intDayStart intMonEnd intDayEnd [] [] in
  let* temporal_start_day := Py.min temporal_start_list in
  let* temporal_end_day := Py.max temporal_end_list in
  Py.Ret (temporal_start_day, temporal_end_day).

(** *** Request loading (lines 220-393)

    [loadDataSetQueries] leaves through [return False] after writing one
    message to the log, through an uncaught exception, or through
    [return True] at the end. *)

Inductive flow (A : Type) :=
| Go (a : A)
| ReturnFalse (msg : string)
| Throw (e : Py.exn).
Arguments Go {A} a.
Arguments ReturnFalse {A} msg.
Arguments Throw {A} e.

Definition fbind {A B} (r : flow A) (k : A -> flow B) : flow B :=
  match r with
  | Go a => k a
  | ReturnFalse m => ReturnFalse m
  | Throw e => Throw e
  end.

Definition lift {A} (r : Py.res A) : flow A :=
  match r with
  | Py.Ret a => Go a
  | Py.Raise e => Throw e
  end.

Notation "'let+' x ':=' c1 'in' c2" := (fbind c1 (fun x => c2))
  (at level 10, x pattern, c1 at level 100, c2 at level 200).

(** The local variables of [loadDataSetQueries] that live across loop
    iterations.  The first six are initialised before the loop; the others
    are bound by their first assignment, and [None] is "not yet bound". *)
Record locals := mkLocals {
  bb : gmap string string;
  vinfo : option string;
  sdatetime : string;
  edatetime : string;
  temporal_start_day : dayval;
  temporal_end_day : dayval;
  temporalSearchType : option string;
  yr_start : option string;
  yr_end : option string;
  mon_start : option string;
  day_start : option string;
  tim_start : option string;
  mon_end : option string;
  day_end : option string;
  tim_end : option string
}.

Definition initial_locals : locals :=
  {| bb := ∅; vinfo := Some ""; sdatetime := ""; edatetime := "";
     temporal_start_day := DayUnset; temporal_end_day := DayUnset;
     temporalSearchType := None;
     yr_start := None; yr_end := None;
     mon_start := None; day_start := None; tim_start := None;
     mon_end := None; day_end := None; tim_end := None |}.

Definition set_bb (v : gmap string string) (l : locals) : locals :=
  mkLocals v (vinfo l) (sdatetime l) (edatetime l) (temporal_start_day l)
    (temporal_end_day l) (temporalSearchType l) (yr_start l) (yr_end l)
    (mon_start l) (day_start l) (tim_start l) (mon_end l) (day_end l) (tim_end l).
Definition set_vinfo (v : option string) (l : locals) : locals :=
  mkLocals (bb l) v (sdatetime l) (edatetime l) (temporal_start_day l)
    (temporal_end_day l) (temporalSearchType l) (yr_start l) (yr_end l)
    (mon_start l) (day_start l) (tim_start l) (mon_end l) (day_end l) (tim_end l).
Definition set_sdatetime (v : string) (l : locals) : locals :=
  mkLocals (bb l) (vinfo l) v (edatetime l) (temporal_start_day l)
    (temporal_end_day l) (temporalSearchType l) (yr_start l) (yr_end l)
    (mon_start l) (day_start l) (tim_start l) (mon_end l) (day_end l) (tim_end l).
Definition set_edatetime (v : string) (l : locals) : locals :=
  mkLocals (bb l) (vinfo l) (sdatetime l) v (temporal_start_day l)
    (temporal_end_day l) (temporalSearchType l) (yr_start l) (yr_end l)
    (mon_start l) (day_start l) (tim_start l) (mon_end l) (day_end l) (tim_end l).
Definition set_days (s e : dayval) (l : locals) : locals :=
  mkLocals (bb l) (vinfo l) (sdatetime l) (edatetime l) s e
    (temporalSearchType l) (yr_start l) (yr_end l)
    (mon_start l) (day_start l) (tim_start l) (mon_end l) (day_end l) (tim_end l).
Definition set_type (v : string) (l : locals) : locals :=
  mkLocals (bb l) (vinfo l) (sdatetime l) (edatetime l) (temporal_start_day l)
    (temporal_end_day l) (Some v) (yr_start l) (yr_end l)
    (mon_start l) (day_start l) (tim_start l) (mon_end l) (day_end l) (tim_end l).
Definition set_year (a b : string) (l : locals) : locals :=
  mkLocals (bb l) (vinfo l) (sdatetime l) (edatetime l) (temporal_start_day l)
    (temporal_end_day l) (temporalSearchType l) (Some a) (Some b)
    (mon_start l) (day_start l) (tim_start l) (mon_end l) (day_end l) (tim_end l).
Definition set_start (m d t : string) (l : locals) : locals :=
  mkLocals (bb l) (vinfo l) (sdatetime l) (edatetime l) (temporal_start_day l)
    (temporal_end_day l) (temporalSearchType l) (yr_start l) (yr_end l)
    (Some m) (Some d) (Some t) (mon_end l) (day_end l) (tim_end l).
Definition set_end (m d t : string) (l : locals) : locals :=
  mkLocals (bb l) (vinfo l) (sdatetime l) (edatetime l) (temporal_start_day l)
    (temporal_end_day l) (temporalSearchType l) (yr_start l) (yr_end l)
    (mon_start l) (day_start l) (tim_start l) (Some m) (Some d) (Some t).

(** [int(v)] of a local variable: unbound locals fault before [int] runs. *)
Definition int_local (v : option string) : flow Z :=
  let+ s := lift (Py.local v) in lift (Py.int s).

(** The messages written before each [return False]. *)
Definition MSG_BBOX : string :=
  "\tInvalid bounding box attribute in XML input, (valid are 'w','s','e','n')".
Definition MSG_NO_TYPE : string :=
  "\tMissing temporal search type in XML request file, valid are ('static', 'recurring')".
Definition MSG_STATIC : string :=
  "\tMissing elements in static temporal search criteria".
Definition MSG_YEARS : string :=
  "\tStart year past end year in temporal recurring search criteria".
Definition MSG_START_MONTH : string :=
  "\tInvalid start month in temporal recurring search criteria".
Definition MSG_START_DAY : string :=
  "\tInvalid start day in temporal recurring search criteria".
Definition MSG_END_MONTH : string :=
  "\tInvalid end month in temporal recurring search criteria".
Definition MSG_END_DAY : string :=
  "\tInvalid end day in temporal recurring search criteria".
Definition MSG_MONTHS : string :=
  "\tMonth start past month end in temporal recurring search criteria".
Definition MSG_RECURRING : string :=
  "\tInvalid or missing recurring temporal search criteria".
Definition MSG_TYPE : string :=
  "\tInvalid temporal search type, (valid are 'static', 'recurring')".
Definition MSG_CRITERIA (critname : string) : string :=
  "\tInvalid dataset search criteria (" ++ critname
  ++ ") specified in XML download request file".
Definition MSG_MISSING : string :=
  "\tMissing bounding box, version, or temporal criteria in XML input".

(** The static branch (lines 268-281): the loop over [tcrit], then the
    flag check. *)
Definition static_tcrit (st : locals * (bool * bool)) (tcrit : element)
    : locals * (bool * bool) :=
  let '(l, (stFlag, etFlag)) := st in
  let '(l, stFlag) :=
    if String.eqb (tag tcrit) "startdatetime"
    then (set_sdatetime (get_default tcrit "dtstr" "") l, true)
    else (l, stFlag) in
  let '(l, etFlag) :=
    if String.eqb (tag tcrit) "enddatetime"
    then (set_edatetime (get_default tcrit "dtstr" "") l, true)
    else (l, etFlag) in
  (l, (stFlag, etFlag)).

Definition static_criteria (criteria : element) (l : locals) : flow locals :=
  let '(l, (stFlag, etFlag)) :=
    fold_left static_tcrit (children criteria) (l, (false, false)) in
  if negb (stFlag && etFlag) then ReturnFalse MSG_STATIC else Go l.

(** The recurring branch (lines 283-372). *)
Record rflags := mkFlags { yearFlag : bool; startFlag : bool; endFlag : bool }.

Definition recurring_year (tcrit : element) (l : locals) (f : rflags)
    : flow (locals * rflags) :=
  let ys := get_default tcrit "yr_start" "" in
  let ye := get_default tcrit "yr_end" "" in
  let l := set_year ys ye l in
  if negb (Py.len ys =? 0) && negb (Py.len ye =? 0) then
    let+ a := lift (Py.int ys) in
    let+ b := lift (Py.int ye) in
    if a >? b then ReturnFalse MSG_YEARS
    else Go (l, mkFlags true (startFlag f) (endFlag f))
  else Go (l, f).

Definition recurring_start (tcrit : element) (l : locals) (f : rflags)
    : flow (locals * rflags) :=
  let m := get_default tcrit "mon_start" "" in
  let d := get_default tcrit "day_start" "" in
  let t := get_default tcrit "tim_start" "" in
  let l := set_start m d t l in
  if negb (Py.len m =? 0) && negb (Py.len d =? 0) && negb (Py.len t =? 0) then
    let+ im := lift (Py.int m) in
    if (im <? 1) || (im >? 12) then ReturnFalse MSG_START_MONTH
    else
      let+ id := lift (Py.int d) in
      if (id <? 1) || (id >? 31) then ReturnFalse MSG_START_DAY
      else Go (l, mkFlags (yearFlag f) true (endFlag f))
  else Go (l, f).

Definition recurring_end (tcrit : element) (l : locals) (f : rflags)
    : flow (locals * rflags) :=
  let m := get_default tcrit "mon_end" "" in
  let d := get_default tcrit "day_end" "" in
  let t := get_default tcrit "tim_end" "" in
  let l := set_end m d t l in
  if negb (Py.len m =? 0) && negb (Py.len d =? 0) && negb (Py.len t =? 0) then
    let+ im := lift (Py.int m) in
    if (im <? 1) || (im >? 12) then ReturnFalse MSG_END_MONTH
    else
      let+ id := lift (Py.int d) in
      if (id <? 1) || (id >? 31) then ReturnFalse MSG_END_DAY
      else Go (l, mkFlags (yearFlag f) (startFlag f) true)
  else Go (l, f).

(** One iteration of [for tcrit in criteria] in the recurring branch: three
    consecutive [if]s on the tag. *)
Definition recurring_tcrit (tcrit : element) (st : locals * rflags)
    : flow (locals * rflags) :=
  let+ (l, f) :=
    if String.eqb (tag tcrit) "year" then recurring_year tcrit (fst st) (snd st)
    else Go st in
  let+ (l, f) :=
    if String.eqb (tag tcrit) "start" then recurring_start tcrit l f
    else Go (l, f) in
  if String.eqb (tag tcrit) "end" then recurring_end tcrit l f
  else Go (l, f).

Fixpoint recurring_loop (tcrits : list element) (st : locals * rflags)
    : flow (locals * rflags) :=
  match tcrits with
  | [] => Go st
  | tcrit :: rest =>
      let+ st' := recurring_tcrit tcrit st in recurring_loop rest st'
  end.

Definition recurring_criteria (criteria : element) (l : locals) : flow locals :=
  let+ (l, f) :=
    recurring_loop (children criteria) (l, mkFlags false false false) in
  let+ ms := int_local (mon_start l) in
  let+ me := int_local (mon_end l) in
  if ms >? me then ReturnFalse MSG_MONTHS
  else if negb (yearFlag f && startFlag f && endFlag f)
  then ReturnFalse MSG_RECURRING
  else
    let+ intMonStart := int_local (mon_start l) in
    let+ intDayStart := int_local (day_start l) in
    let+ intMonEnd := int_local (mon_end l) in
    let+ intDayEnd := int_local (day_end l) in
    let+ ys := int_local (yr_start l) in
    let+ ye := int_local (yr_end l) in
    let+ (tsd, ted) :=
      lift (recurring_window ys ye intMonStart intDayStart intMonEnd intDayEnd) in
    let l := set_days (DayInt tsd) (DayInt ted) l in
    let+ yss := lift (Py.local (yr_start l)) in
    let+ ts := lift (Py.local (tim_start l)) in
    let+ yes := lift (Py.local (yr_end l)) in
    let+ te := lift (Py.local (tim_end l)) in
    Go (set_edatetime (yes ++ "-12-31T" ++ te)
          (set_sdatetime (yss ++ "-01-01T" ++ ts) l)).

(** One iteration of [for criteria in dataset].  The flags are
    [(vFlag, bbFlag, tFlag)]. *)
Definition dataset_criteria (criteria : element)
    (st : locals * (bool * bool * bool)) : flow (locals * (bool * bool * bool)) :=
  let '(l, (vFlag, bbFlag, tFlag)) := st in
  let critname := tag criteria in
  if String.eqb critname "boundingbox" then
    match get criteria "w", get criteria "s", get criteria "e", get criteria "n" with
    | Some w, Some s, Some e, Some n =>
        let b := <["n" := n]> (<["e" := e]> (<["s" := s]> (<["w" := w]> (bb l)))) in
        Go (set_bb b l, (vFlag, true, tFlag))
    | _, _, _, _ => ReturnFalse MSG_BBOX
    end
  else if String.eqb critname "version" then
    Go (set_vinfo (get criteria "v") l, (true, bbFlag, tFlag))
  else if String.eqb critname "temporal" then
    let ty := get_default criteria "type" "" in
    let l := set_type ty l in
    if Py.len ty =? 0 then ReturnFalse MSG_NO_TYPE
    else if String.eqb ty "static" then
      let+ l := static_criteria criteria l in Go (l, (vFlag, bbFlag, true))
    else if String.eqb ty "recurring" then
      let+ l := recurring_criteria criteria l in Go (l, (vFlag, bbFlag, true))
    else ReturnFalse MSG_TYPE
  else ReturnFalse (MSG_CRITERIA critname).

Fixpoint criteria_loop (cs : list element) (st : locals * (bool * bool * bool))
    : flow (locals * (bool * bool * bool)) :=
  match cs with
  | [] => Go st
  | c :: rest => let+ st' := dataset_criteria c st in criteria_loop rest st'
  end.

(** One iteration of [for dataset in self.edrRoot]. *)
Definition load_dataset (dataset : element) (st : locals * list ECHOdsQuery)
    : flow (locals * list ECHOdsQuery) :=
  let '(l, qs) := st in
  let shortName := get dataset "shortname" in
  let+ (l, flags) := criteria_loop (children dataset) (l, (false, false, false)) in
  let '(vFlag, bbFlag, tFlag) := flags in
  if negb (bbFlag && vFlag && tFlag) then ReturnFalse MSG_MISSING
  else
    let+ tst := lift (Py.local (temporalSearchType l)) in
    let+ q := lift (ECHOdsQuery_init shortName (vinfo l) (bb l) tst
                      (sdatetime l) (edatetime l)
                      (temporal_start_day l) (temporal_end_day l)) in
    Go (l, (qs ++ [q])%list).

Fixpoint dataset_loop (ds : list element) (st : locals * list ECHOdsQuery)
    : flow (locals * list ECHOdsQuery) :=
  match ds with
  | [] => Go st
  | d :: rest => let+ st' := load_dataset d st in dataset_loop rest st'
  end.

(** [loadDataSetQueries]: [Go qs] is [return True] with [self.dataSetQueries]
    equal to [qs]; [ReturnFalse msg] is [return False] after logging [msg]. *)
Definition loadDataSetQueries (edrRoot : element) : flow (list ECHOdsQuery) :=
  let+ (l, qs) := dataset_loop (children edrRoot) (initial_locals, []) in
  Go qs.

End QueryBuilder.

(** ** The world outside the interpreter

    The file system, the local database, the catalog web service and the
    network are outside the program.  Their answers are given by an
    environment of oracles that see everything that has happened so far
    (the trace); what the program did to them is recorded in that trace. *)

Module Sys.

(** Python floats (IEEE binary64). *)
Definition float : Type := spec_float.
Definition prec : Z := 53.
Definition emax : Z := 1024.
Definition fzero : float := S754_zero false.
Definition fadd (x y : float) : float := SFadd prec emax x y.
Definition fleb (x y : float) : bool := SFleb x y.
Definition fltb (x y : float) : bool := SFltb x y.
(** [float(n)] of an integer. *)
Definition float_of_int (n : Z) : float := binary_normalize prec emax n 0 false.

(** What a path names: a directory with its write permission, or a file
    with its content. *)
Inductive content :=
| XmlDoc (root : Xml.element)
| Bytes.

Inductive node :=
| Dir (writable : bool)
| File (c : content).

(** An action on the outside world, with its answer. *)
Inductive event :=
| DbQuery (q : string) (rows : option nat)
| DbInsert (q : string) (ok : bool)
| FsMakedirs (path : string) (ok : bool)
| FsChmod (path : string) (ok : bool)
| FsOpenR (path : string) (ok : bool)
| FsOpenW (path : string) (ok : bool)
| FsRemove (path : string) (ok : bool)
| WsDataset (url : string)
| WsGranule (url : string).

Record Env := mkEnv {
  (** [cursor.execute] of a select: [None] is a [MySQLdb.Error], [Some n]
      a result of [n] rows *)
  db_rows : list event -> string -> option nat;
  (** [cursor.execute] of an insert: [false] is a [MySQLdb.Error] *)
  db_insert_ok : list event -> string -> bool;
  (** the operating system's verdict on a call *)
  os_makedirs_ok : list event -> string -> bool;
  os_chmod_ok : list event -> string -> bool;
  os_open_r_ok : list event -> string -> bool;
  os_open_w_ok : list event -> string -> bool;
  os_remove_ok : list event -> string -> bool;
  (** the body of the catalog's answer to a dataset query: [None] is a body
      [ET.fromstring] rejects *)
  ws_dataset : list event -> string -> option Xml.element;
  (** the [echo-hits] header and the body of the answer to a granule query *)
  ws_granule : list event -> string -> option string * option Xml.element;
  (** the [k]-th transfer started by the transfer loop: the number of
      further polling rounds it stays in flight, and whether it succeeds *)
  transfer : nat -> nat * bool;
  (** [float(s)], [str(x)] and ['%f' % x] *)
  float_of_str : string -> option float;
  str_float : float -> string;
  fmt_float : float -> string
}.

Record World := mkWorld {
  log : list string;
  trace : list event;
  fs : gmap string node
}.

(** A computation on the world: a value or an uncaught exception, and the
    world it leaves behind. *)
Definition M (A : Type) : Type := World -> Py.res A * World.

Definition ret {A} (a : A) : M A := fun w => (Py.Ret a, w).
Definition raise {A} (e : Py.exn) : M A := fun w => (Py.Raise e, w).
Definition mbind {A B} (c : M A) (k : A -> M B) : M B :=
  fun w =>
    match c w with
    | (Py.Ret a, w') => k a w'
    | (Py.Raise e, w') => (Py.Raise e, w')
    end.
Definition pure {A} (r : Py.res A) : M A := fun w => (r, w).

Definition write (s : string) : M unit :=
  fun w => (Py.Ret tt, mkWorld (log w ++ [s]) (trace w) (fs w)).

Definition emit (e : event) : M unit :=
  fun w => (Py.Ret tt, mkWorld (log w) (trace w ++ [e]) (fs w)).

Definition get_trace : M (list event) := fun w => (Py.Ret (trace w), w).
Definition get_fs : M (gmap string node) := fun w => (Py.Ret (fs w), w).
Definition set_fs (f : gmap string node) : M unit :=
  fun w => (Py.Ret tt, mkWorld (log w) (trace w) f).

End Sys.

Notation "'let!' x ':=' c1 'in' c2" := (Sys.mbind c1 (fun x => c2))
  (at level 10, x pattern, c1 at level 100, c2 at level 200).
Notation "c1 ';;' c2" := (Sys.mbind c1 (fun _ => c2))
  (at level 100, c2 at level 200, right associativity).

Module Os.
Import Sys.

Section WithEnv.
Variable env : Env.

(** [os.access(path, os.F_OK)] and [os.access(path, os.W_OK)]. *)
Definition access_F (path : string) : M bool :=
  let! f := get_fs in ret (bool_decide (is_Some (f !! path))).

Definition access_W (path : string) : M bool :=
  let! f := get_fs in
  ret match f !! path with
      | Some (Dir w) => w
      | Some (File _) => true
      | None => false
      end.

(** [os.makedirs(path, 0o755)]: [false] is an OSError. *)
Definition makedirs (path : string) : M bool :=
  let! t := get_trace in
  let! f := get_fs in
  let ok := os_makedirs_ok env t path && bool_decide (f !! path = None) in
  emit (FsMakedirs path ok) ;;
  (if ok then set_fs (<[path := Dir true]> f) else ret tt) ;;
  ret ok.

(** [os.chmod(path, 0o755)]: [false] is an OSError. *)
Definition chmod (path : string) : M bool :=
  let! t := get_trace in
  let! f := get_fs in
  let ok := os_chmod_ok env t path && bool_decide (is_Some (f !! path)) in
  emit (FsChmod path ok) ;;
  (if ok then
     match f !! path with
     | Some (Dir _) => set_fs (<[path := Dir true]> f)
     | _ => ret tt
     end
   else ret tt) ;;
  ret ok.

(** [open(path, 'r')]: [false] is an IOError. *)
Definition open_r (path : string) : M bool :=
  let! t := get_trace in
  let! f := get_fs in
  let ok := os_open_r_ok env t path && bool_decide (is_Some (f !! path)) in
  emit (FsOpenR path ok) ;;
  ret ok.

(** [open(path, 'w')] (or ['wb']): truncates or creates the file; [false]
    is an IOError. *)
Definition open_w (path : string) : M bool :=
  let! t := get_trace in
  let! f := get_fs in
  let ok := os_open_w_ok env t path in
  emit (FsOpenW path ok) ;;
  (if ok then set_fs (<[path := File Bytes]> f) else ret tt) ;;
  ret ok.

(** [fh.write(text)] followed by [fh.close()] on a file opened by [open_w],
    where [text] is the serialisation of [root]. *)
Definition write_xml (path : string) (root : Xml.element) : M unit :=
  let! f := get_fs in set_fs (<[path := File (XmlDoc root)]> f).

(** [os.remove(path)]: [false] is an OSError. *)
Definition remove (path : string) : M bool :=
  let! t := get_trace in
  let! f := get_fs in
  let ok := os_remove_ok env t path && bool_decide (is_Some (f !! path)) in
  emit (FsRemove path ok) ;;
  (if ok then set_fs (delete path f) else ret tt) ;;
  ret ok.

(** [ET.parse(fh, parser)] on a file opened for reading: [None] is a
    [ParseError]. *)
Definition parse (path : string) : M (option Xml.element) :=
  let! f := get_fs in
  ret match f !! path with
      | Some (File (XmlDoc root)) => Some root
      | _ => None
      end.

End WithEnv.
End Os.

(** ** CatalogModel: collections, granules, polygon points *)

Module Catalog.
Import Sys.

Record ECHOpolypoint := mkPoint {
  latitude : float;
  longitude : float;
  p_dbInsertFailed : bool
}.

(** [ECHOpolypoint.__init__]. *)
Definition ECHOpolypoint_init (lat lon : float) : ECHOpolypoint :=
  mkPoint lat lon false.

Record ECHOgranule := mkGranule {
  egid : option string;
  granuleUR : option string;
  granuleSizeMB : float;
  g_begDateTime : option string;
  g_endDateTime : option string;
  HasPolyPoints : Z;
  polyPoints : list ECHOpolypoint;
  g_w_bound : float;
  g_s_bound : float;
  g_e_bound : float;
  g_n_bound : float;
  localFileName : option string;
  accessURLs : list (option string * option string);
  numDloadTrys : Z;
  g_dbInsertFailed : bool;
  downloadStatus : Z
}.

(** [ECHOgranule.__init__]: the insert flag starts false and the download
    status starts at 0. *)
Definition ECHOgranule_init (gid ur : option string) (sizeMB : float)
    (bdt edt : option string) (ppflag : Z) (ppts : list (float * float))
    (wbnd sbnd ebnd nbnd : float) (aurls : list (option string * option string))
    (lfn : option string) (dltrys : Z) : ECHOgranule :=
  {| egid := gid; granuleUR := ur; granuleSizeMB := sizeMB;
     g_begDateTime := bdt; g_endDateTime := edt;
     HasPolyPoints := ppflag;
     polyPoints := map (fun p => ECHOpolypoint_init (fst p) (snd p)) ppts;
     g_w_bound := wbnd; g_s_bound := sbnd; g_e_bound := ebnd; g_n_bound := nbnd;
     localFileName := lfn; accessURLs := aurls; numDloadTrys := dltrys;
     g_dbInsertFailed := false; downloadStatus := 0 |}.

Definition setnumtrys (nt : Z) (g : ECHOgranule) : ECHOgranule :=
  mkGranule (egid g) (granuleUR g) (granuleSizeMB g) (g_begDateTime g)
    (g_endDateTime g) (HasPolyPoints g) (polyPoints g) (g_w_bound g)
    (g_s_bound g) (g_e_bound g) (g_n_bound g) (localFileName g)
    (accessURLs g) nt (g_dbInsertFailed g) (downloadStatus g).

Definition setLocalFileName (fn : option string) (g : ECHOgranule) : ECHOgranule :=
  mkGranule (egid g) (granuleUR g) (granuleSizeMB g) (g_begDateTime g)
    (g_endDateTime g) (HasPolyPoints g) (polyPoints g) (g_w_bound g)
    (g_s_bound g) (g_e_bound g) (g_n_bound g) fn
    (accessURLs g) (numDloadTrys g) (g_dbInsertFailed g) (downloadStatus g).

Definition setDownloadStatus (dstat : Z) (g : ECHOgranule) : ECHOgranule :=
  mkGranule (egid g) (granuleUR g) (granuleSizeMB g) (g_begDateTime g)
    (g_endDateTime g) (HasPolyPoints g) (polyPoints g) (g_w_bound g)
    (g_s_bound g) (g_e_bound g) (g_n_bound g) (localFileName g)
    (accessURLs g) (numDloadTrys g) (g_dbInsertFailed g) dstat.

Definition p_setInsertFailed (b : bool) (p : ECHOpolypoint) : ECHOpolypoint :=
  mkPoint (latitude p) (longitude p) b.

Definition g_setPolyPoints (pps : list ECHOpolypoint) (g : ECHOgranule) : ECHOgranule :=
  mkGranule (egid g) (granuleUR g) (granuleSizeMB g) (g_begDateTime g)
    (g_endDateTime g) (HasPolyPoints g) pps (g_w_bound g)
    (g_s_bound g) (g_e_bound g) (g_n_bound g) (localFileName g)
    (accessURLs g) (numDloadTrys g) (g_dbInsertFailed g) (downloadStatus g).

Definition g_setInsertFailed (b : bool) (g : ECHOgranule) : ECHOgranule :=
  mkGranule (egid g) (granuleUR g) (granuleSizeMB g) (g_begDateTime g)
    (g_endDateTime g) (HasPolyPoints g) (polyPoints g) (g_w_bound g)
    (g_s_bound g) (g_e_bound g) (g_n_bound g) (localFileName g)
    (accessURLs g) (numDloadTrys g) b (downloadStatus g).

Record ECHOcollection := mkCollection {
  collID : option string;
  shortName : option string;
  archCenter : option string;
  collDesc : option string;
  begDateTime : option string;
  endDateTime : option string;
  doi : option string;
  granContainer : list ECHOgranule;
  numGranules : Z;
  haveFailedDwnlds : bool;
  dbInsertFailed : bool
}.

(** [ECHOcollection.__init__]. *)
Definition ECHOcollection_init (cid csn cac ccd bdt edt d : option string)
    : ECHOcollection :=
  {| collID := cid; shortName := csn; archCenter := cac; collDesc := ccd;
     begDateTime := bdt; endDateTime := edt; doi := d;
     granContainer := []; numGranules := 0;
     haveFailedDwnlds := false; dbInsertFailed := false |}.

Definition setGranContainer (gs : list ECHOgranule) (c : ECHOcollection)
    : ECHOcollection :=
  mkCollection (collID c) (shortName c) (archCenter c) (collDesc c)
    (begDateTime c) (endDateTime c) (doi c) gs (numGranules c)
    (haveFailedDwnlds c) (dbInsertFailed c).

Definition setNumGranules (n : Z) (c : ECHOcollection) : ECHOcollection :=
  mkCollection (collID c) (shortName c) (archCenter c) (collDesc c)
    (begDateTime c) (endDateTime c) (doi c) (granContainer c) n
    (haveFailedDwnlds c) (dbInsertFailed c).

Definition setFailedStatus (b : bool) (c : ECHOcollection) : ECHOcollection :=
  mkCollection (collID c) (shortName c) (archCenter c) (collDesc c)
    (begDateTime c) (endDateTime c) (doi c) (granContainer c) (numGranules c)
    b (dbInsertFailed c).

Definition setInsertFailed (b : bool) (c : ECHOcollection) : ECHOcollection :=
  mkCollection (collID c) (shortName c) (archCenter c) (collDesc c)
    (begDateTime c) (endDateTime c) (doi c) (granContainer c) (numGranules c)
    (haveFailedDwnlds c) b.

Definition getNumGranules (c : ECHOcollection) : Z :=
  Z.of_nat (length (granContainer c)).

(** [getCollSizeMB]: the float sum, from [0.0], in container order. *)
Definition getCollSizeMB (c : ECHOcollection) : float :=
  fold_left (fun cSizeMB g => fadd cSizeMB (granuleSizeMB g)) (granContainer c) fzero.

(** The part of an [ECHOrequest] object the pipeline works on. *)
Record ECHOrequest := mkRequest {
  maxDataFiles : Z;
  dwnloadLimit : Z;
  directoryRoot : string;
  availDiskSpaceMB : float;
  dataSetQueries : list QueryBuilder.ECHOdsQuery;
  numDatasetQueries : Z;
  numCollections : Z;
  pdlfile : string;
  dbFlag : string;
  collContainer : list ECHOcollection
}.

Definition setCollections (cs : list ECHOcollection) (n : Z) (r : ECHOrequest)
    : ECHOrequest :=
  mkRequest (maxDataFiles r) (dwnloadLimit r) (directoryRoot r)
    (availDiskSpaceMB r) (dataSetQueries r) (numDatasetQueries r) n
    (pdlfile r) (dbFlag r) cs.

(** [==] on two values that are a string or [None]. *)
Definition eqb_ostr (a b : option string) : bool := bool_decide (a = b).

(** [inCollections] (lines 603-612). *)
Fixpoint inCollections_from (cs : list ECHOcollection) (cid : option string)
    (index : Z) : Z :=
  match cs with
  | [] => -1
  | c :: cs' =>
      if eqb_ostr (collID c) cid then index
      else inCollections_from cs' cid (index + 1)
  end.

Definition inCollections (r : ECHOrequest) (cid : option string) : Z :=
  inCollections_from (collContainer r) cid 0.

(** [inGranules] (lines 614-626): [index] is set once, before the loop over
    the collections, and is only advanced inside a matching collection. *)
Fixpoint inGranules_gran (gs : list ECHOgranule) (gid : option string)
    (index : Z) : Z + Z :=
  match gs with
  | [] => inr index
  | g :: gs' =>
      if eqb_ostr (egid g) gid then inl index
      else inGranules_gran gs' gid (index + 1)
  end.

Fixpoint inGranules_from (cs : list ECHOcollection) (cid gid : option string)
    (index : Z) : Z :=
  match cs with
  | [] => -1
  | coll :: cs' =>
      if eqb_ostr (collID coll) cid then
        match inGranules_gran (granContainer coll) gid index with
        | inl found => found
        | inr index' => inGranules_from cs' cid gid index'
        end
      else inGranules_from cs' cid gid index
  end.

Definition inGranules (r : ECHOrequest) (cid gid : option string) : Z :=
  inGranules_from (collContainer r) cid gid 0.

End Catalog.

(** ** PendingDownloadStore: [ECHOrequest.loadPendDwnld] (lines 521-601) *)

Module PendingDownload.
Import Sys Catalog Xml.

Section WithEnv.
Variable env : Env.

(** [float(v)]. *)
Definition py_float (v : option string) : Py.res float :=
  match v with
  | None => Py.Raise Py.TypeError
  | Some s =>
      match float_of_str env s with
      | Some x => Py.Ret x
      | None => Py.Raise Py.ValueError
      end
  end.

(** [e.find(t).text]. *)
Definition child_text (e : element) (t : string) : Py.res (option string) :=
  text_of (find e t).

(** [float(e.find(t).text)]. *)
Definition child_float (e : element) (t : string) : Py.res float :=
  let* v := child_text e t in py_float v.

Fixpoint load_points (pps : list element) (polyPoints : list (float * float))
    : Py.res (list (float * float)) :=
  match pps with
  | [] => Py.Ret polyPoints
  | pp :: rest =>
      let* lat := child_float pp "latitude" in
      let* lon := child_float pp "longitude" in
      load_points rest (polyPoints ++ [(lat, lon)])
  end.

(** The fields read from one [granule] element, up to the membership test. *)
Definition read_granule (g : element) : Py.res (option string * ECHOgranule) :=
  let* granID := child_text g "granID" in
  let* trys := child_text g "dwnldtrys" in
  let* n := Py.int_of trys in
  let numDwnldTrys := n + 1 in
  let* granuleUR := child_text g "granuleUR" in
  let* sizeMB := child_float g "sizeMB" in
  let* GbegDateTime := child_text g "begDateTime" in
  let* GendDateTime := child_text g "endDateTime" in
  let* spatial := Py.attr_of (find g "spatial") in
  let* (hasPolyPoints, polyPoints, bounds) :=
    match find spatial "polyPoints" with
    | None =>
        let* w := child_float spatial "w_bound" in
        let* s := child_float spatial "s_bound" in
        let* e := child_float spatial "e_bound" in
        let* n := child_float spatial "n_bound" in
        Py.Ret (0, [], (w, s, e, n))
    | Some ppts =>
        let w := SFopp (float_of_int 180) in
        let s := SFopp (float_of_int 90) in
        let e := float_of_int 180 in
        let n := float_of_int 90 in
        let* pts := load_points (children ppts) [] in
        Py.Ret (1, pts, (w, s, e, n))
    end in
  let '(w_bound, s_bound, e_bound, n_bound) := bounds in
  let* url := child_text g "accessURL" in
  let accessURLs := [(url, Some "NoMimeType")] in
  let* localFileName := child_text g "localFileName" in
  Py.Ret (granID,
          ECHOgranule_init granID granuleUR sizeMB GbegDateTime GendDateTime
            hasPolyPoints polyPoints w_bound s_bound e_bound n_bound
            accessURLs localFileName (numDwnldTrys + 1)).

(** One iteration of [for g in granRoot].  The granule object built by
    [read_granule] already carries [numDwnldTrys + 1], the value both
    branches store. *)
Definition load_granule (collID : option string) (collIndex : Z)
    (r : ECHOrequest) (g : element) : M ECHOrequest :=
  let! (granID, gran) := pure (read_granule g) in
  let granIndex := inGranules r collID granID in
  if granIndex =? -1 then
    let! c := pure (Py.getitem (collContainer r) collIndex) in
    let c' := setGranContainer (granContainer c ++ [gran]) c in
    let! cs := pure (Py.setitem (collContainer r) collIndex c') in
    ret (setCollections cs (numCollections r) r)
  else
    write "ECHOrequest::loadPendDwnld\n" ;;
    write ("\tPending granule " ++ Py.show granID
           ++ " already in granule container\n") ;;
    write "\tIncrementing # of download trys\n" ;;
    let! c := pure (Py.getitem (collContainer r) collIndex) in
    let! old := pure (Py.getitem (granContainer c) granIndex) in
    let! gs := pure (Py.setitem (granContainer c) granIndex
                       (setnumtrys (numDloadTrys gran) old)) in
    let! cs := pure (Py.setitem (collContainer r) collIndex
                       (setGranContainer gs c)) in
    ret (setCollections cs (numCollections r) r).

Fixpoint granules_loop (collID : option string) (collIndex : Z)
    (gs : list element) (r : ECHOrequest) : M ECHOrequest :=
  match gs with
  | [] => ret r
  | g :: rest =>
      let! r' := load_granule collID collIndex r g in
      granules_loop collID collIndex rest r'
  end.

(** One iteration of [for c in pendRoot.findall('collection')]. *)
Definition load_collection (r : ECHOrequest) (c : element) : M ECHOrequest :=
  let! cid := pure (child_text c "collID") in
  let collIndex := inCollections r cid in
  let! (r, collIndex) :=
    if collIndex =? -1 then
      let! sn := pure (child_text c "shortName") in
      let! ac := pure (child_text c "archCenter") in
      let! cd := pure (child_text c "collDesc") in
      let! bdt := pure (child_text c "begDateTime") in
      let! edt := pure (child_text c "endDateTime") in
      let! d := pure (child_text c "doi") in
      let r' := setCollections
                  (collContainer r ++ [ECHOcollection_init cid sn ac cd bdt edt d])
                  (numCollections r + 1) r in
      ret (r', numCollections r' - 1)
    else
      write "ECHOrequest::loadPendDwnld\n" ;;
      write ("\tPending collection " ++ Py.show cid
             ++ " already in collection container\n") ;;
      ret (r, collIndex) in
  match find c "granules" with
  | None => raise Py.TypeError
  | Some granRoot => granules_loop cid collIndex (children granRoot) r
  end.

Fixpoint collections_loop (cs : list element) (r : ECHOrequest) : M ECHOrequest :=
  match cs with
  | [] => ret r
  | c :: rest =>
      let! r' := load_collection r c in collections_loop rest r'
  end.

Definition loadPendDwnld (r : ECHOrequest) : M ECHOrequest :=
  let! t := Os.parse (pdlfile r) in
  match t with
  | None =>
      write "ECHOrequest::loadPendDwnld\n" ;;
      write "\t***INTERNAL ERROR***\n" ;;
      write ("\tCould not parse pending download file (" ++ pdlfile r ++ ")\n") ;;
      raise Py.SystemExit
  | Some pendRoot => collections_loop (findall pendRoot "collection") r
  end.

End WithEnv.
End PendingDownload.

(** ** PersistenceGateway: [ECHOdbHandler] (lines 1607-1780) *)

Module Db.
Import Sys Catalog.

Section WithEnv.
Variable env : Env.

(** [makeDBquery]: [None] after a logged error, else the number of rows
    [fetchall] returns. *)
Definition makeDBquery (queryStr : string) : M (option nat) :=
  let! t := get_trace in
  let rows := db_rows env t queryStr in
  emit (DbQuery queryStr rows) ;;
  match rows with
  | None =>
      write "ECHOdbHandler::makeDBquery\n" ;;
      write "\t***ERROR: DB Query Error: {}\n" ;;
      ret None
  | Some n => ret (Some n)
  end.

(** [not qResults]: [None] and the empty result are false values. *)
Definition no_rows (qResults : option nat) : bool :=
  match qResults with
  | None | Some O => true
  | Some (S _) => false
  end.

(** [makeDBinsert]: commit and [True], or rollback, a logged error and
    [False]. *)
Definition makeDBinsert (sqlStr : string) : M bool :=
  let! t := get_trace in
  let ok := db_insert_ok env t sqlStr in
  emit (DbInsert sqlStr ok) ;;
  if ok then ret true
  else
    write "ECHOdbHandler::makdeDBinsert\n" ;;
    write "\t***ERROR: DB Insert Error: {}\n" ;;
    ret false.

(** The [convert(..., datetime)] argument of the insert methods. *)
Definition convert_datetime (v : option string) : Py.res string :=
  if eqb_ostr v (Some "null") then Py.Ret "convert(null, datetime)"
  else let* s := Py.str_of v in Py.Ret ("convert('" ++ s ++ "',datetime)").

(** The statement [collectionInsert] builds. *)
Definition collection_sql (c : ECHOcollection) : Py.res string :=
  let qStr := "insert into collections (collID,shortName,archCenter,collDesc,begDateTime,endDateTime,doi)" in
  let* cbdstr := convert_datetime (begDateTime c) in
  let* cedstr := convert_datetime (endDateTime c) in
  let* cid := Py.str_of (collID c) in
  let* csn := Py.str_of (shortName c) in
  let* cac := Py.str_of (archCenter c) in
  let* cde := Py.str_of (collDesc c) in
  let* d := Py.str_of (doi c) in
  Py.Ret (qStr ++ " values('" ++ cid ++ "','" ++ csn ++ "','" ++ cac
          ++ "','" ++ cde ++ "'," ++ cbdstr ++ ", " ++ cedstr ++ ", '" ++ d ++ "');").

Definition collectionInsert (c : ECHOcollection) : M bool :=
  write "ECHOdbHandler::collectionInsert\n" ;;
  let! qStr := pure (collection_sql c) in
  let! ok := makeDBinsert qStr in
  if negb ok then
    write ("\tDB Insertion failure for collection " ++ Py.show (collID c) ++ "\n") ;;
    ret false
  else
    write ("\tDB Insertion success for collection " ++ Py.show (collID c) ++ "\n") ;;
    ret true.

(** The statement [granuleInsert] builds. *)
Definition granule_sql (g : ECHOgranule) (cid : option string) : Py.res string :=
  let ppf := if HasPolyPoints g =? 0 then 0 else 1 in
  let qStr := "insert into granules (granID,collID,granuleUR,begDateTime,endDateTime,"
              ++ "hasPolyPoints,w_bound,s_bound,e_bound,n_bound,localFileName)" in
  let* gbdstr := convert_datetime (g_begDateTime g) in
  let* gedstr := convert_datetime (g_endDateTime g) in
  let* gid := Py.str_of (egid g) in
  let* cid := Py.str_of cid in
  let* gur := Py.str_of (granuleUR g) in
  let* glf := Py.str_of (localFileName g) in
  Py.Ret (qStr ++ " values('" ++ gid ++ "','" ++ cid ++ "','" ++ gur
          ++ "'," ++ gbdstr ++ ", " ++ gedstr ++ ", '"
          ++ Py.str_int ppf ++ "',"
          ++ "'" ++ str_float env (g_w_bound g)
          ++ "','" ++ str_float env (g_s_bound g)
          ++ "','" ++ str_float env (g_e_bound g)
          ++ "','" ++ str_float env (g_n_bound g)
          ++ "','" ++ glf ++ "');").

Definition granuleInsert (g : ECHOgranule) (cid : option string) : M bool :=
  write "ECHOdbHandler::granuleInsert\n" ;;
  let! qStr := pure (granule_sql g cid) in
  let! ok := makeDBinsert qStr in
  if negb ok then
    write ("\tDB Insertion failure for granule " ++ Py.show (egid g) ++ "\n") ;;
    ret false
  else
    write ("\tDB Insertion success for granule " ++ Py.show (egid g) ++ "\n") ;;
    ret true.

(** The statement [polypointInsert] builds. *)
Definition polypoint_sql (gid : option string) (lat lon : float) : Py.res string :=
  let* g := Py.str_of gid in
  Py.Ret ("insert into polypoints (granID,latitude,longitude)"
          ++ " values('" ++ g ++ "','" ++ str_float env lat ++ "','"
          ++ str_float env lon ++ "');").

Definition polypointInsert (gid : option string) (lat lon : float) : M bool :=
  write "ECHOdbHandler::polypointInsert\n" ;;
  let! qStr := pure (polypoint_sql gid lat lon) in
  let! ok := makeDBinsert qStr in
  if negb ok then
    write ("\tDB polyPoint insertion failure for granule " ++ Py.show gid ++ "\n") ;;
    ret false
  else
    write ("\tDB polyPoint insertion success for granule " ++ Py.show gid ++ "\n") ;;
    ret true.

(** *** [update] (lines 1732-1780) *)

(** Lines 1752-1755 and 1771-1772: flag every polygon point of a granule. *)
Definition taint_points (g : ECHOgranule) : ECHOgranule :=
  g_setPolyPoints (map (p_setInsertFailed true) (polyPoints g)) g.

Definition taint_granule (g : ECHOgranule) : ECHOgranule :=
  taint_points (g_setInsertFailed true g).

(** Lines 1775-1780: insert the points one by one, flagging the ones whose
    insert fails. *)
Fixpoint update_points (gid : option string) (pps : list ECHOpolypoint)
    : M (list ECHOpolypoint) :=
  match pps with
  | [] => ret []
  | pp :: rest =>
      let! ok := polypointInsert gid (latitude pp) (longitude pp) in
      let pp' := if negb ok then p_setInsertFailed true pp else pp in
      let! rest' := update_points gid rest in
      ret (pp' :: rest')
  end.

(** Lines 1759-1780: one iteration of [for g in c.granContainer]. *)
Definition update_granule (cid : option string) (g : ECHOgranule) : M ECHOgranule :=
  let gid := egid g in
  let! (g, processPolyPoints) :=
    if downloadStatus g =? 1 then
      let! ok := granuleInsert g cid in
      if negb ok then ret (taint_granule g, false) else ret (g, true)
    else ret (g, false) in
  if processPolyPoints && negb (HasPolyPoints g =? 0) then
    let! pps := update_points gid (polyPoints g) in
    ret (g_setPolyPoints pps g)
  else ret g.

Fixpoint update_granules (cid : option string) (gs : list ECHOgranule)
    : M (list ECHOgranule) :=
  match gs with
  | [] => ret []
  | g :: rest =>
      let! g' := update_granule cid g in
      let! rest' := update_granules cid rest in
      ret (g' :: rest')
  end.

(** Lines 1737-1780: one iteration of [for c in ero.collContainer]. *)
Definition update_collection (c : ECHOcollection) : M ECHOcollection :=
  let cid := collID c in
  let! (c, processGranules) :=
    if getNumGranules c >? 0 then
      let qStr := "select shortName from collections where collID = '"
                  ++ Py.show cid ++ "'" in
      let! qResults := makeDBquery qStr in
      if no_rows qResults then
        let! ok := collectionInsert c in
        if negb ok then
          ret (setGranContainer (map taint_granule (granContainer c))
                 (setInsertFailed true c), false)
        else ret (c, true)
      else ret (c, true)
    else ret (c, false) in
  if (processGranules : bool) then
    let! gs := update_granules cid (granContainer c) in
    ret (setGranContainer gs c)
  else ret c.

Fixpoint update_collections (cs : list ECHOcollection) : M (list ECHOcollection) :=
  match cs with
  | [] => ret []
  | c :: rest =>
      let! c' := update_collection c in
      let! rest' := update_collections rest in
      ret (c' :: rest')
  end.

Definition update (ero : ECHOrequest) : M ECHOrequest :=
  let! cs := update_collections (collContainer ero) in
  ret (setCollections cs (numCollections ero) ero).

End WithEnv.
End Db.

(** ** TransferEngine: [ECHOdownloader] (lines 1252-1582) *)

Module Downloader.
Import Sys Catalog.

(** An entry of [granuleQueue]: [(egid, url, filename)]. *)
Record item := mkItem {
  i_egid : option string;
  i_url : string;
  i_filename : string
}.

Record ECHOdownloader := mkDownloader {
  rootDir : string;
  granuleQueue : list item;
  granuleStatus : gmap (option string) Z;
  collPath : option string
}.

Definition setQueue (q : list item) (d : ECHOdownloader) : ECHOdownloader :=
  mkDownloader (rootDir d) q (granuleStatus d) (collPath d).
Definition setStatus (s : gmap (option string) Z) (d : ECHOdownloader)
    : ECHOdownloader :=
  mkDownloader (rootDir d) (granuleQueue d) s (collPath d).
Definition setCollPath (p : string) (d : ECHOdownloader) : ECHOdownloader :=
  mkDownloader (rootDir d) (granuleQueue d) (granuleStatus d) (Some p).

(** The number of transfer handles [multidownload] allocates. *)
Definition concurrent_conns : nat := 10.

Section WithEnv.
Variable env : Env.

(** *** [downloadOk] (lines 1269-1303) *)

Fixpoint totals (cs : list ECHOcollection) (idx : list Z)
    (totalNumGranules : Z) (totalDataSizeMB : float) : Py.res (Z * float) :=
  match idx with
  | [] => Py.Ret (totalNumGranules, totalDataSizeMB)
  | i :: rest =>
      let* c := Py.getitem cs i in
      totals cs rest (totalNumGranules + numGranules c)
             (fadd totalDataSizeMB (getCollSizeMB c))
  end.

Definition downloadOk (ero : ECHOrequest) : M bool :=
  let! (totalNumGranules, totalDataSizeMB) :=
    pure (totals (collContainer ero) (Py.range 0 (numCollections ero)) 0 fzero) in
  write "ECHOdownloader::downloadOk\n" ;;
  write ("\tRequesting " ++ Py.str_int totalNumGranules ++ " granules, at "
         ++ fmt_float env totalDataSizeMB ++ " MB\n") ;;
  if fleb totalDataSizeMB fzero then
    write "ECHOdownloader::downloadOk\n" ;;
    write "\t****WARNING: Total data Size (MB) <= 0.0 (Granule XML issue)\n" ;;
    write "\tNOT ABORTING, BUT CHECK AVAILABLE DISK SPACE!\n" ;;
    ret true
  else if fleb (availDiskSpaceMB ero) totalDataSizeMB then
    write "ECHOdownloader::downloadOk\n" ;;
    write ("\t****ERROR: Total data size (" ++ fmt_float env totalDataSizeMB
           ++ "MB) larger than available disk space ("
           ++ fmt_float env (availDiskSpaceMB ero) ++ "MB)\n") ;;
    ret false
  else if fltb (float_of_int (dwnloadLimit ero)) totalDataSizeMB then
    write "ECHOdownloader::downloadOk\n" ;;
    write ("\t****ERROR: Total data size (" ++ fmt_float env totalDataSizeMB
           ++ "MB) larger than download limit ("
           ++ fmt_float env (float_of_int (dwnloadLimit ero)) ++ "MB)\n") ;;
    write "\tIncrease download limit on command line\n" ;;
    ret false
  else ret true.

(** [ECHOdownloader.__init__] (lines 1253-1267). *)
Definition ECHOdownloader_init (ero : ECHOrequest) : M ECHOdownloader :=
  let d := {| rootDir := directoryRoot ero; granuleQueue := [];
              granuleStatus := ∅; collPath := None |} in
  let! ok := downloadOk ero in
  if negb ok then raise Py.SystemExit else ret d.

(** *** Storage paths (lines 1305-1365) *)

(** The common body of [makeCollPath] and [makeGranPath]; [who] and [who']
    are the names the two error messages start with. *)
Definition make_path (who who' : string) (gp : string) : M bool :=
  let! f := Os.access_F gp in
  let! w := (if f then Os.access_W gp else ret false) in
  if f && w then ret true
  else
    let! f := Os.access_F gp in
    let! made :=
      if negb f then
        let! ok := Os.makedirs env gp in
        if ok then ret true
        else
          write (who ++ "\n") ;;
          write ("\tERROR: Couldn't create directory " ++ gp ++ "\n") ;;
          ret false
      else ret true in
    if negb made then ret false
    else
      let! w := Os.access_W gp in
      if negb w then
        let! ok := Os.chmod env gp in
        if ok then ret true
        else
          write (who' ++ "\n") ;;
          write ("\tERROR: Couldn't make directory " ++ gp ++ " writeable\n") ;;
          ret false
      else ret true.

Definition makeCollPath (archCtr shortName : option string) (d : ECHOdownloader)
    : M (bool * ECHOdownloader) :=
  let! a := pure (Py.str_of archCtr) in
  let! s := pure (Py.str_of shortName) in
  let p := rootDir d ++ "/" ++ a ++ "/" ++ s in
  let d := setCollPath p d in
  let! ok := make_path "ECHOdownloader::makeCollPath" "ECHOdownloader::makeCollPath" p in
  ret (ok, d).

Definition makeGranPath (gp : string) : M bool :=
  make_path "ECHOdownloader::makeGranPath" "ECHOdownloader::makeGanPath" gp.

(** String helpers of the planning step. *)

(** [s[a:b]] for [0 <= a <= b]. *)
Definition slice (s : string) (a b : nat) : string :=
  String.substring a (Nat.min b (String.length s) - Nat.min a (String.length s)) s.

(** [os.path.basename(p)]: what follows the last slash. *)
Fixpoint basename_from (acc : string) (l : list ascii) : string :=
  match l with
  | [] => acc
  | c :: l' =>
      if Ascii.eqb c "/"%char then basename_from "" l'
      else basename_from (acc ++ String c EmptyString) l'
  end.

Definition basename (p : string) : string :=
  basename_from "" (list_ascii_of_string p).

(** ['{0:03d}'.format(n)] for [n >= 0]. *)
Definition fmt_03d (n : Z) : string :=
  let s := Py.str_int n in
  if (String.length s <? 3)%nat
  then String.concat "" (repeat "0" (3 - String.length s)) ++ s
  else s.

(** *** The transfer loop [multidownload] (lines 1479-1562)

    A transfer in flight holds a handle, the item it fetches, the number of
    further polling rounds it needs and its outcome; the last two come from
    the environment when the transfer is started. *)

Record xfer := mkXfer {
  x_handle : nat;
  x_item : item;
  x_remaining : nat;
  x_ok : bool
}.

Record mdstate := mkMd {
  queue : list item;
  freelist : list nat;
  inflight : list xfer;
  status : gmap (option string) Z;
  num_processed : Z;
  started : nat
}.

(** Lines 1511-1520: the body of [while queue and freelist]: take the next
    item and the last free handle, open the local file (unguarded) and
    start the transfer; [rest] is the queue after the [pop(0)]. *)
Definition start (it : item) (rest : list item) (st : mdstate) : M mdstate :=
  let c := List.last (freelist st) O in
  let! ok := Os.open_w env (i_filename it) in
  if negb ok then raise Py.IOError
  else
    let '(dur, good) := transfer env (started st) in
    ret (mkMd rest (removelast (freelist st))
              (inflight st ++ [mkXfer c it dur good])
              (status st) (num_processed st) (S (started st))).

(** Lines 1510-1520: [while queue and freelist]. *)
Fixpoint fill (q : list item) (st : mdstate) : M mdstate :=
  match q with
  | [] => ret (mkMd [] (freelist st) (inflight st) (status st)
                    (num_processed st) (started st))
  | it :: q' =>
      match freelist st with
      | [] => ret (mkMd q (freelist st) (inflight st) (status st)
                        (num_processed st) (started st))
      | _ :: _ => let! st' := start it q' st in fill q' st'
      end
  end.

(** Lines 1522-1549: run the transfers and read the completions.  The
    transfers with no round left complete; [ok_list] is handled before
    [err_list]. *)
Definition finished (x : xfer) : bool := (x_remaining x =? 0)%nat.
Definition tick (x : xfer) : xfer :=
  mkXfer (x_handle x) (x_item x) (Nat.pred (x_remaining x)) (x_ok x).

Definition complete (code : Z) (st : gmap (option string) Z * list nat) (x : xfer)
    : gmap (option string) Z * list nat :=
  (<[i_egid (x_item x) := code]> (fst st), (snd st ++ [x_handle x])%list).

Definition poll (st : mdstate) : mdstate :=
  let done := List.filter finished (inflight st) in
  let ok_list := List.filter x_ok done in
  let err_list := List.filter (fun x => negb (x_ok x)) done in
  let '(s1, f1) := fold_left (complete 1) ok_list (status st, freelist st) in
  let '(s2, f2) := fold_left (complete (-1)) err_list (s1, f1) in
  mkMd (queue st) f2
       (map tick (List.filter (fun x => negb (finished x)) (inflight st)))
       s2
       (num_processed st + Z.of_nat (length ok_list) + Z.of_nat (length err_list))
       (started st).

(** One iteration of [while num_processed < num_urls]. *)
Definition round (st : mdstate) : M mdstate :=
  let! st1 := fill (queue st) st in ret (poll st1).

Fixpoint md_loop (fuel : nat) (num_urls : Z) (st : mdstate) : M mdstate :=
  if num_processed st <? num_urls then
    match fuel with
    | O => raise Py.FuelExhausted
    | S fuel' => let! st' := round st in md_loop fuel' num_urls st'
    end
  else ret st.

Definition md_init (d : ECHOdownloader) : mdstate :=
  mkMd (granuleQueue d) (seq 0 concurrent_conns) [] (granuleStatus d) 0 0.

Definition multidownload (fuel : nat) (d : ECHOdownloader) : M ECHOdownloader :=
  let num_urls := Z.of_nat (length (granuleQueue d)) in
  let! st := md_loop fuel num_urls (md_init d) in
  ret (setStatus (status st) d).

(** *** Planning and reconciliation: [downloadGranules] (lines 1370-1460) *)

Definition set_status (k : option string) (v : Z) (d : ECHOdownloader)
    : ECHOdownloader :=
  setStatus (<[k := v]> (granuleStatus d)) d.

(** Lines 1382-1421: one iteration of [for g in cc.granContainer] when the
    collection path is ready. *)
Definition plan_granule (ero : ECHOrequest) (st : ECHOdownloader)
    (g : ECHOgranule) : M (ECHOgranule * ECHOdownloader) :=
  (if 1 <? Z.of_nat (length (accessURLs g)) then
     write "ECHOdownloader::downloadGranules\n" ;;
     write "\tWARNING: Using URL 1 for granule %s with > 1 access URLs\n"
   else ret tt) ;;
  let! (url, mimeType) := pure (Py.getitem (accessURLs g) 0) in
  let! granuleURL := pure (Py.attr_of url) in
  let filename := basename granuleURL in
  let! bdt := pure (Py.str_of (g_begDateTime g)) in
  let! yyyy := pure (Py.int (slice bdt 0 4)) in
  let! mm := pure (Py.int (slice bdt 5 7)) in
  let! dd := pure (Py.int (slice bdt 8 10)) in
  let! yday := pure (Calendar.day_of_year yyyy mm dd) in
  let ydayStr := fmt_03d yday in
  let! cp := pure (Py.attr_of (collPath st)) in
  let granPath := cp ++ "/" ++ Py.str_int yyyy ++ "/" ++ ydayStr in
  let! ok := makeGranPath granPath in
  if ok then
    let granuleFilename := granPath ++ "/" ++ filename in
    let g := setLocalFileName (Some granuleFilename) g in
    let it := mkItem (egid g) granuleURL granuleFilename in
    if String.eqb (dbFlag ero) "True" then
      let qStr := "select granuleUR from granules where granID = '"
                  ++ Py.show (egid g) ++ "'" in
      let! qResults := Db.makeDBquery env qStr in
      if Db.no_rows qResults
      then ret (g, setQueue (granuleQueue st ++ [it]) st)
      else ret (g, set_status (egid g) 0 st)
    else ret (g, setQueue (granuleQueue st ++ [it]) st)
  else ret (g, set_status (egid g) (-2) st).

Fixpoint plan_granules (ero : ECHOrequest) (st : ECHOdownloader)
    (gs : list ECHOgranule) : M (list ECHOgranule * ECHOdownloader) :=
  match gs with
  | [] => ret ([], st)
  | g :: rest =>
      let! (g', st') := plan_granule ero st g in
      let! (rest', st'') := plan_granules ero st' rest in
      ret (g' :: rest', st'')
  end.

(** Lines 1372-1426: one iteration of [for cc in ero.collContainer]. *)
Definition plan_collection (ero : ECHOrequest) (st : ECHOdownloader)
    (cc : ECHOcollection) : M (ECHOcollection * ECHOdownloader) :=
  if 0 <? Z.of_nat (length (granContainer cc)) then
    let! (ok, st) := makeCollPath (archCenter cc) (shortName cc) st in
    if (ok : bool) then
      let! (gs, st') := plan_granules ero st (granContainer cc) in
      ret (setGranContainer gs cc, st')
    else
      ret (cc, fold_left (fun s g => set_status (egid g) (-2) s)
                         (granContainer cc) st)
  else ret (cc, st).

Fixpoint plan_collections (ero : ECHOrequest) (st : ECHOdownloader)
    (cs : list ECHOcollection) : M (list ECHOcollection * ECHOdownloader) :=
  match cs with
  | [] => ret ([], st)
  | cc :: rest =>
      let! (cc', st') := plan_collection ero st cc in
      let! (rest', st'') := plan_collections ero st' rest in
      ret (cc' :: rest', st'')
  end.

(** Lines 1455-1460: write the status map back on the granules. *)
Fixpoint reconcile_granules (st : ECHOdownloader) (gs : list ECHOgranule)
    (failed : bool) : Py.res (list ECHOgranule * bool) :=
  match gs with
  | [] => Py.Ret ([], failed)
  | g :: rest =>
      match granuleStatus st !! egid g with
      | None => Py.Raise Py.KeyError
      | Some code =>
          let g' := setDownloadStatus code g in
          let failed' := if downloadStatus g' <? 0 then true else failed in
          let* (rest', f) := reconcile_granules st rest failed' in
          Py.Ret (g' :: rest', f)
      end
  end.

Fixpoint reconcile (st : ECHOdownloader) (cs : list ECHOcollection)
    : Py.res (list ECHOcollection) :=
  match cs with
  | [] => Py.Ret []
  | cc :: rest =>
      let* (gs, failed) :=
        reconcile_granules st (granContainer cc) (haveFailedDwnlds cc) in
      let* rest' := reconcile st rest in
      Py.Ret (setFailedStatus failed (setGranContainer gs cc) :: rest')
  end.

Definition downloadGranules (fuel : nat) (ero : ECHOrequest) (st : ECHOdownloader)
    : M (ECHOrequest * ECHOdownloader) :=
  let! (cs, st) := plan_collections ero st (collContainer ero) in
  write "ECHOdownloader::downloadGranules\n" ;;
  write ("\t" ++ Py.str_int (Z.of_nat (length (granuleQueue st)))
         ++ " total granules will be downloaded\n") ;;
  let! st :=
    if 0 <? Z.of_nat (length (granuleQueue st))
    then multidownload fuel st else ret st in
  write "\tFinished multi-download process\n" ;;
  let! cs := pure (reconcile st cs) in
  ret (setCollections cs (numCollections ero) ero, st).

(** *** [cleanup] (lines 1564-1582) *)

Definition cleanup_granule (g : ECHOgranule) : M unit :=
  if downloadStatus g =? -1 then
    let! p := pure (Py.str_of (localFileName g)) in
    let! there := Os.access_F p in
    if there then
      let! ok := Os.remove env p in
      if negb ok then
        write ("\t****WARNING: Download of granule " ++ Py.show (egid g)
               ++ " failed\n") ;;
        write ("\tBut couldn't remove local file " ++ p ++ "\n")
      else
        write ("\t***INFO: Download of granule " ++ Py.show (egid g)
               ++ " failed\n") ;;
        write ("\tRemoved local file " ++ p ++ "\n")
    else ret tt
  else ret tt.

Fixpoint cleanup_granules (gs : list ECHOgranule) : M unit :=
  match gs with
  | [] => ret tt
  | g :: rest => cleanup_granule g ;; cleanup_granules rest
  end.

Fixpoint cleanup_collections (cs : list ECHOcollection) : M unit :=
  match cs with
  | [] => ret tt
  | c :: rest => cleanup_granules (granContainer c) ;; cleanup_collections rest
  end.

Definition cleanup (ero : ECHOrequest) : M unit :=
  write "ECHOdownloader::cleanup\n" ;;
  cleanup_collections (collContainer ero).

End WithEnv.
End Downloader.

(** ** PendingTransactionStore: [ECHOptxHandler] (lines 1783-1974) *)

Module PendingTx.
Import Sys Xml.

Record ECHOptxHandler := mkPtx {
  cpf : string;
  gpf : string;
  ppf : string;
  processC : bool;
  processG : bool;
  processP : bool
}.

(** [ECHOptxHandler.__init__]. *)
Definition ECHOptxHandler_init (c_pending_file g_pending_file p_pending_file : string)
    : ECHOptxHandler :=
  mkPtx c_pending_file g_pending_file p_pending_file false false false.

(** The column lists of [processtx]. *)
Definition FIELDS_C : list string :=
  ["collID"; "shortName"; "archCenter"; "collDesc"; "begDateTime";
   "endDateTime"; "doi"].
Definition FIELDS_G : list string :=
  ["granID"; "collID"; "granuleUR"; "sizeMB"; "begDateTime"; "endDateTime";
   "hasPolyPoints"; "w_bound"; "s_bound"; "e_bound"; "n_bound"; "localFileName"].
Definition FIELDS_P : list string := ["granID"; "latitude"; "longitude"].

(** Lines 1883-1896: the tag and the columns of a transaction type; [None]
    is the internal error that exits. *)
Definition tx_shape (ttype : string) : option (string * list string) :=
  if String.eqb ttype "C" then Some ("collection", FIELDS_C)
  else if String.eqb ttype "G" then Some ("granule", FIELDS_G)
  else if String.eqb ttype "P" then Some ("polypoint", FIELDS_P)
  else None.

(** Lines 1912-1917. *)
Definition insert_head (ttype : string) : string :=
  if String.eqb ttype "C" then "insert into collections ("
  else if String.eqb ttype "G" then "insert into granules ("
  else "insert into polypoints (".

(** Lines 1921-1929: the values of the columns and the column half of the
    statement. *)
Fixpoint read_fields (transaction : element) (fields : list string) (nfields : Z)
    (n : Z) (values : list (option string)) (fStr : string)
    : Py.res (list (option string) * string) :=
  match fields with
  | [] => Py.Ret (values, fStr)
  | f :: rest =>
      let* v := text_of (find transaction f) in
      let fStr := fStr ++ f in
      let fStr := if n <? nfields - 1 then fStr ++ "," else fStr in
      read_fields transaction rest nfields (n + 1) (values ++ [v]) fStr
  end.

(** Lines 1933-1947: the value half of the statement; [fields[n]] is read
    for every value. *)
Fixpoint write_values (fields : list string) (values : list (option string))
    (nvalues : Z) (n : Z) (vStr : string) : Py.res string :=
  match values with
  | [] => Py.Ret vStr
  | v :: rest =>
      let* fn := Py.getitem fields n in
      let* tStr :=
        if String.eqb fn "begDateTime" || String.eqb fn "endDateTime" then
          if Catalog.eqb_ostr v (Some "null") then Py.Ret "convert(null,datetime)"
          else let* s := Py.str_of v in Py.Ret ("convert('" ++ s ++ "',datetime)")
        else let* s := Py.str_of v in Py.Ret ("'" ++ s ++ "'") in
      let tStr := if n <? nvalues - 1 then tStr ++ "," else tStr in
      write_values fields rest nvalues (n + 1) (vStr ++ tStr)
  end.

(** The statement of one pending transaction. *)
Definition tx_sql (ttype : string) (fields : list string) (transaction : element)
    : Py.res string :=
  let fStr := insert_head ttype in
  let* (values, fStr) :=
    read_fields transaction fields (Z.of_nat (length fields)) 0 [] fStr in
  let fStr := fStr ++ ")" in
  let* vStr :=
    write_values fields values (Z.of_nat (length values)) 0 " values(" in
  let vStr := vStr ++ ");" in
  Py.Ret (fStr ++ vStr).

(** The children of [pendRoot], each with the position it was parsed at:
    the position is the identity [pendRoot.remove] goes by. *)
Definition numbered (cs : list element) : list (nat * element) :=
  combine (seq 0 (length cs)) cs.

Definition remove_child (t : nat * element) (cs : list (nat * element))
    : list (nat * element) :=
  List.filter (fun c => negb (fst c =? fst t)%nat) cs.

Definition with_children (root : element) (cs : list (nat * element)) : element :=
  Elem (tag root) (attrib root) (text root) (map snd cs).

Section WithEnv.
Variable env : Env.

(** [havePending] (lines 1798-1806). *)
Definition havePending (h : ECHOptxHandler) : M (bool * ECHOptxHandler) :=
  let! c := Os.access_F (cpf h) in
  let! g := Os.access_F (gpf h) in
  let! p := Os.access_F (ppf h) in
  let h' := mkPtx (cpf h) (gpf h) (ppf h)
              (if c then true else processC h)
              (if g then true else processG h)
              (if p then true else processP h) in
  ret (processC h' || processG h' || processP h', h').

(** [openPending] (lines 1808-1830). *)
Definition open_pending_file (flag : bool) (what path : string) : M unit :=
  if flag then
    let! ok := Os.open_r env path in
    if ok then ret tt
    else
      write ("\tCouldn't open pending " ++ what ++ " transaction file "
             ++ path ++ "\n") ;;
      raise Py.SystemExit
  else ret tt.

Definition openPending (h : ECHOptxHandler) : M unit :=
  write "ECHOptxHandler::openPending\n\tOpening pending transaction file(s)...\n" ;;
  open_pending_file (processC h) "collection" (cpf h) ;;
  open_pending_file (processG h) "granule" (gpf h) ;;
  open_pending_file (processP h) "polypoint" (ppf h).

(** Lines 1911-1974: the loop over [pendRoot.findall(xmltag)].  [txs] is
    what is left of that list, [cur] the current children of [pendRoot]. *)
Fixpoint replay (ttype : string) (fields : list string) (tfn : string)
    (root : element) (txs : list (nat * element)) (cur : list (nat * element))
    : M unit :=
  match txs with
  | [] => ret tt
  | transaction :: rest =>
      let! qStr := pure (tx_sql ttype fields (snd transaction)) in
      write (qStr ++ "\n") ;;
      let! ok := Db.makeDBinsert env qStr in
      if negb ok then
        let! opened := Os.open_w env tfn in
        (if negb opened then
           write "ECHOptxHandler::processtx\n" ;;
           write ("\tCouldn't re-open pending transaction file " ++ tfn ++ "\n")
         else Os.write_xml tfn (with_children root cur)) ;;
        raise Py.SystemExit
      else
        replay ttype fields tfn root rest (remove_child transaction cur)
  end.

(** [processtx] (lines 1881-1974). *)
Definition processtx (ttype : string) (tfn : string) : M unit :=
  match tx_shape ttype with
  | None =>
      write "ECHOptxHandler::processtx\n" ;;
      write ("\t****FATAL: Internal error, invalid transaction type ("
             ++ ttype ++ ")\n") ;;
      raise Py.SystemExit
  | Some (xmltag, fields) =>
      let! parsed := Os.parse tfn in
      match parsed with
      | None =>
          write "ECHOptxHandler::processtx\n" ;;
          write ("\tFATAL: Could not parse pending transaction XML file ("
                 ++ tfn ++ "), problem with XML syntax\n") ;;
          raise Py.SystemExit
      | Some pendRoot =>
          let cur := numbered (children pendRoot) in
          let txs := List.filter (fun c => String.eqb (tag (snd c)) xmltag) cur in
          replay ttype fields tfn pendRoot txs cur
      end
  end.

(** One of the three blocks of [processPending]: replay, then remove the
    file. *)
Definition process_kind (flag : bool) (what ttype tfn : string) : M unit :=
  if flag then
    write ("\tProcessing pending " ++ what ++ " transactions...\n") ;;
    processtx ttype tfn ;;
    let! ok := Os.remove env tfn in
    if negb ok then
      write ("\tProcessed BUT couldn't remove pending file " ++ tfn ++ "\n") ;;
      raise Py.SystemExit
    else
      write ("\tProcessed and removed pending file " ++ tfn ++ "\n")
  else ret tt.

(** [processPending] (lines 1832-1879). *)
Definition processPending (h : ECHOptxHandler) : M unit :=
  write "ECHOptxHandler::processPending\n" ;;
  process_kind (processC h) "collection" "C" (cpf h) ;;
  process_kind (processG h) "granule" "G" (gpf h) ;;
  process_kind (processP h) "polpyPoint" "P" (ppf h).

End WithEnv.
End PendingTx.

(** ** The catalog client and catalog response parsing
       ([ECHOclient], [ECHOcollection.getGranules], [ECHOrequest.getReqData]) *)

Module Client.
Import Sys Catalog Xml.

Definition echoURL : string := "https://api.echo.nasa.gov".
Definition echoCatalogURL : string := echoURL ++ "/catalog-rest/echo_catalog".
Definition echoCollectionURL : string := echoCatalogURL ++ "/datasets".
Definition echoGranuleURL : string := echoCatalogURL ++ "/granules".

(** [ET.Element("results")]. *)
Definition empty_results : element := Elem "results" [] None [].

(** [try: v = ... except AttributeError: v = dflt]. *)
Definition except_attr {A} (r : Py.res A) (dflt : A) : Py.res A :=
  match r with
  | Py.Raise Py.AttributeError => Py.Ret dflt
  | _ => r
  end.

(** [try: v = ... except: v = dflt]. *)
Definition except_any {A} (r : Py.res A) (dflt : A) : A :=
  match r with
  | Py.Ret a => a
  | Py.Raise _ => dflt
  end.

(** [e.find(t1).find(t2)...find(tn)]. *)
Fixpoint path (v : option element) (tags : list string) : Py.res (option element) :=
  match tags with
  | [] => Py.Ret v
  | t :: rest => let* c := find_in v t in path c rest
  end.

(** [e.find(t1)...find(tn).text]. *)
Definition path_text (e : element) (tags : list string) : Py.res (option string) :=
  let* c := path (Some e) tags in text_of c.

(** [resub('[Z]', '', s)]: drop every [Z]. *)
Definition drop_Z (s : string) : string :=
  string_of_list_ascii
    (List.filter (fun c => negb (Ascii.eqb c "Z"%char)) (list_ascii_of_string s)).

Section WithEnv.
Variable env : Env.

(** [makeDatasetQuery] (lines 865-879). *)
Definition makeDatasetQuery (dsQueryStr responseFormat : string) : M element :=
  let queryURL := echoCollectionURL ++ "." ++ responseFormat ++ dsQueryStr in
  let! t := get_trace in
  emit (WsDataset queryURL) ;;
  match ws_dataset env t queryURL with
  | Some respRoot => ret respRoot
  | None =>
      write ">>>>Error: ECHOclient.makeDatasetQuery : XML Syntax Error on dataset query response" ;;
      ret empty_results
  end.

(** [makeGranuleQuery] (lines 881-911); [selfMaxFiles] is [self.maxFiles]. *)
Definition makeGranuleQuery (selfMaxFiles : Z) (echoDSid : option string)
    (boundingBoxStr temporalStr : string) (maxFiles : Z) (responseFormat : string)
    : M element :=
  let queryURL := echoGranuleURL ++ "." ++ responseFormat in
  let! dsid := pure (Py.str_of echoDSid) in
  let queryURL := queryURL ++ "?echo_collection_id[]=" ++ dsid
                  ++ boundingBoxStr ++ temporalStr in
  let queryURL := queryURL ++ "&page_size=" ++ Py.str_int selfMaxFiles in
  let! t := get_trace in
  emit (WsGranule queryURL) ;;
  let '(hits, body) := ws_granule env t queryURL in
  let! h := pure match hits with
                 | None => Py.Raise Py.KeyError
                 | Some s => Py.int s
                 end in
  if h >? maxFiles then
    write "ECHOclient::makeGranuleQuery\n" ;;
    write ("\tYour query (" ++ queryURL ++ ")") ;;
    write ("\tgot " ++ Py.str_int h
           ++ " hits, increase 'resultsize' via command line, or refine download request\n") ;;
    write "\t<Note: forcing 0 collection results because of the volume of hits>\n" ;;
    ret empty_results
  else
    match body with
    | Some respRoot => ret respRoot
    | None =>
        write "ECHOclient::makeGranuleQuery\n" ;;
        write "\t****Error: XML Syntax Error on granule query response" ;;
        ret empty_results
    end.

(** *** [getGranules] (lines 951-1051) *)

Definition child_float (e : element) (t : string) : Py.res float :=
  PendingDownload.child_float env e t.

Fixpoint boundary_points (pts : list element) (polyPoints : list (float * float))
    : Py.res (list (float * float)) :=
  match pts with
  | [] => Py.Ret polyPoints
  | point :: rest =>
      let* pt_longitude := child_float point "PointLongitude" in
      let* pt_latitude := child_float point "PointLatitude" in
      boundary_points rest (polyPoints ++ [(pt_latitude, pt_longitude)])
  end.

(** Lines 959-995: the geometry of one granule record. *)
Definition granule_geometry (egid : option string) (granule : element)
    : M (Z * list (float * float) * (float * float * float * float)) :=
  let w_bound := SFopp (float_of_int 180) in
  let e_bound := float_of_int 180 in
  let s_bound := SFopp (float_of_int 90) in
  let n_bound := float_of_int 90 in
  let! spatialGeometry :=
    pure (path (Some granule)
            ["Granule"; "Spatial"; "HorizontalSpatialDomain"; "Geometry"]) in
  match spatialGeometry with
  | None => ret (0, [], (w_bound, s_bound, e_bound, n_bound))
  | Some geometry =>
      match find geometry "BoundingRectangle" with
      | None =>
          let! boundaryPoints := pure (path (Some geometry) ["GPolygon"; "Boundary"]) in
          match boundaryPoints with
          | None =>
              write "ECHOcollection::getGranules\n" ;;
              write ("\t***FATAL ERROR: Missing bounding rectangle or Polygon points for granule "
                     ++ Py.show egid ++ "\n") ;;
              raise Py.SystemExit
          | Some boundary =>
              let! pts := pure (boundary_points (findall boundary "Point") []) in
              ret (1, pts, (w_bound, s_bound, e_bound, n_bound))
          end
      | Some boundingRect =>
          let! w := pure (child_float boundingRect "WestBoundingCoordinate") in
          let! s := pure (child_float boundingRect "SouthBoundingCoordinate") in
          let! e := pure (child_float boundingRect "EastBoundingCoordinate") in
          let! n := pure (child_float boundingRect "NorthBoundingCoordinate") in
          ret (0, [], (w, s, e, n))
      end
  end.

(** Lines 1007-1027: a date-time of a granule, with its warning. *)
Definition granule_datetime (egid : option string) (granule : element)
    (which warning : string) : M (option string) :=
  match path_text granule ["Granule"; "Temporal"; "RangeDateTime"; which] with
  | Py.Raise Py.AttributeError =>
      write "ECHOcollection:getGranules\n" ;;
      write ("\tWARNING: No " ++ warning ++ " DateTime for Granule " ++ Py.show egid) ;;
      ret (Some "null")
  | Py.Raise e => raise e
  | Py.Ret v => let! s := pure (Py.str_of v) in ret (Some (drop_Z s))
  end.

Definition access_url (child : element) : option string * option string :=
  let thisurl := except_any (text_of (find child "URL")) (Some "Unknown URL") in
  let thismt := except_any (text_of (find child "MimeType")) (Some "Unknown MimeType") in
  (thisurl, thismt).

(** One iteration of [for granule in self.granRoot.findall('result')]. *)
Definition parse_granule (granule : element) : M ECHOgranule :=
  let egid := get granule "echo_granule_id" in
  let! (HasPolyPoints, polyPoints, bounds) := granule_geometry egid granule in
  let '(w_bound, s_bound, e_bound, n_bound) := bounds in
  let! granuleUR :=
    pure (except_attr (path_text granule ["Granule"; "GranuleUR"])
            (Some "NoGranuleUR")) in
  let! granuleSizeMB :=
    pure (except_attr
            (let* v := path_text granule ["Granule"; "DataGranule"; "SizeMBDataGranule"] in
             PendingDownload.py_float env v)
            (S754_zero true)) in
  let! begDateTime := granule_datetime egid granule "BeginningDateTime" "Beginning" in
  let! endDateTime := granule_datetime egid granule "EndingDateTime" "Ending" in
  let! urls := pure (path (Some granule) ["Granule"; "OnlineAccessURLs"]) in
  let! urls := pure (Py.attr_of urls) in
  let accessURLs := map access_url (children urls) in
  ret (ECHOgranule_init egid granuleUR granuleSizeMB begDateTime endDateTime
         HasPolyPoints polyPoints w_bound s_bound e_bound n_bound
         accessURLs (Some "") 1).

Fixpoint parse_granules (results : list element) (c : ECHOcollection)
    : M ECHOcollection :=
  match results with
  | [] => ret c
  | granule :: rest =>
      let! g := parse_granule granule in
      parse_granules rest (setGranContainer (granContainer c ++ [g]) c)
  end.

Definition getGranules (geRoot : element) (c : ECHOcollection) : M ECHOcollection :=
  let c := setNumGranules (len geRoot) c in
  if numGranules c >? 0 then parse_granules (findall geRoot "result") c
  else ret c.

(** *** [getReqData] (lines 419-513) *)

(** Lines 455-476: a date-time of the collection. *)
Definition collection_datetime (result : option element) (which : string)
    : Py.res (option string) :=
  match (let* c := path result ["Collection"; "Temporal"; "RangeDateTime"; which] in
         text_of c) with
  | Py.Raise Py.AttributeError => Py.Ret (Some "null")
  | Py.Raise e => Py.Raise e
  | Py.Ret v => let* s := Py.str_of v in Py.Ret (Some (drop_Z s))
  end.

(** Lines 480-493: the loop over the additional attributes. *)
Fixpoint doi_parts (attrs : list element) (doiname doiauth : option string)
    : Py.res (option string * option string) :=
  match attrs with
  | [] => Py.Ret (doiname, doiauth)
  | attr :: rest =>
      let* attrname := text_of (find attr "Name") in
      let doiname :=
        if eqb_ostr attrname (Some "identifier_product_doi")
        then except_any (text_of (find attr "Value")) (Some "NoDOI")
        else doiname in
      let doiauth :=
        if eqb_ostr attrname (Some "identifier_product_doi_authority")
        then except_any (text_of (find attr "Value")) (Some "NoDOIauth")
        else doiauth in
      doi_parts rest doiname doiauth
  end.

(** Lines 439-499: the collection object of a one-result answer. *)
Definition parse_collection (collElemRoot : element) : Py.res ECHOcollection :=
  let result := find collElemRoot "result" in
  let* r := Py.attr_of result in
  let collID := get r "echo_dataset_id" in
  let* shortName :=
    except_attr (let* c := path result ["Collection"; "ShortName"] in text_of c)
      (Some "NoShortName") in
  let* archCenter :=
    except_attr (let* c := path result ["Collection"; "ArchiveCenter"] in text_of c)
      (Some "NoArchiveCenter") in
  let* collDesc :=
    except_attr (let* c := path result ["Collection"; "Description"] in text_of c)
      (Some "NoDescription") in
  let* begDateTime := collection_datetime result "BeginningDateTime" in
  let* endDateTime := collection_datetime result "EndingDateTime" in
  let* (doiname, doiauth) :=
    doi_parts (iter collElemRoot "AdditionalAttribute")
              (Some "NoDOI") (Some "NoDOIauth") in
  let* a := Py.str_of doiauth in
  let* n := Py.str_of doiname in
  let doi := a ++ "/" ++ n in
  Py.Ret (ECHOcollection_init collID shortName archCenter collDesc
            begDateTime endDateTime (Some doi)).

(** One iteration of [for i in range(self.numDatasetQueries)]. *)
Definition request_dataset (clientMaxFiles : Z) (ero : ECHOrequest) (i : Z)
    : M ECHOrequest :=
  let! q := pure (Py.getitem (dataSetQueries ero) i) in
  let queryStr := QueryBuilder.getDSqueryStr q in
  let! collElemRoot := makeDatasetQuery queryStr "echo10" in
  if (len collElemRoot =? 0) || (len collElemRoot >? 1) then
    write "ECHOrequest::getReqData\n\t***IGNORING REQUEST\n" ;;
    write ("\tYour dataset query: " ++ queryStr ++ " returned "
           ++ Py.str_int (len collElemRoot)
           ++ " results, should be 1, check your query criteria\n") ;;
    write "{collElemRoot}" ;;
    ret ero
  else
    let! c := pure (parse_collection collElemRoot) in
    let cs := (collContainer ero ++ [c])%list in
    let! this := pure (Py.getitem cs (numCollections ero)) in
    let! granElemRoot :=
      makeGranuleQuery clientMaxFiles (collID this)
        (QueryBuilder.getSpatialstr q) (QueryBuilder.getTemporalStr q)
        (maxDataFiles ero) "echo10" in
    let! this := pure (Py.getitem cs (numCollections ero)) in
    let! this' := getGranules granElemRoot this in
    let! cs' := pure (Py.setitem cs (numCollections ero) this') in
    ret (setCollections cs' (numCollections ero + 1) ero).

Fixpoint request_datasets (clientMaxFiles : Z) (idx : list Z) (ero : ECHOrequest)
    : M ECHOrequest :=
  match idx with
  | [] => ret ero
  | i :: rest =>
      let! ero' := request_dataset clientMaxFiles ero i in
      request_datasets clientMaxFiles rest ero'
  end.

Definition getReqData (clientMaxFiles : Z) (ero : ECHOrequest) : M ECHOrequest :=
  request_datasets clientMaxFiles (Py.range 0 (numDatasetQueries ero)) ero.

End WithEnv.
End Client.

(** ** The main program, as far as the properties below need it *)

Module Main.
Import Sys Catalog.

(** [validateRequest], lines 207-210: the accepted download limits. *)
Definition valid_download_limit (dwnloadLimit : Z) : bool :=
  negb ((dwnloadLimit <=? 0) || (dwnloadLimit >? 5120)).

Section WithEnv.
Variable env : Env.

(** [zapPending] (lines 628-638). *)
Definition zapPending (ero : ECHOrequest) : M unit :=
  let! ok := Os.remove env (pdlfile ero) in
  if negb ok then
    write "ECHOrequest::zapPending\n" ;;
    write "\t****SEVERE: Couldn't remove old pending download file\n" ;;
    raise Py.SystemExit
  else ret tt.

(** Lines 2115-2121: pending transactions are replayed first. *)
Definition replay_stage (ero : ECHOrequest) : M unit :=
  let ptxObj := PendingTx.ECHOptxHandler_init "_ptxC.xml" "_ptxG.xml" "_ptxP.xml" in
  if String.eqb (dbFlag ero) "True" then
    let! (pending, ptxObj) := PendingTx.havePending ptxObj in
    if (pending : bool) then
      PendingTx.openPending env ptxObj ;;
      PendingTx.processPending env ptxObj
    else ret tt
  else ret tt.

(** Lines 2146-2149: pending downloads are merged, then their file is
    removed. *)
Definition merge_stage (havePendDwnld : bool) (ero : ECHOrequest) : M ECHOrequest :=
  if String.eqb (dbFlag ero) "True" && havePendDwnld then
    let! ero' := PendingDownload.loadPendDwnld env ero in
    zapPending ero' ;;
    ret ero'
  else ret ero.

(** Lines 2156-2159: the downloader is created (which runs the
    feasibility check), plans and runs the transfers, and sweeps. *)
Definition download_stage (fuel : nat) (ero : ECHOrequest) : M ECHOrequest :=
  let! edloader := Downloader.ECHOdownloader_init env ero in
  let! (ero', edloader') := Downloader.downloadGranules env fuel ero edloader in
  Downloader.cleanup env ero' ;;
  ret ero'.

End WithEnv.
End Main.

(** ** The vocabulary of the properties *)

Module Spec.

(** *** QueryBuilder *)




(** *** The feasibility check *)

Section FeasibilitySpec.
Import Sys Catalog.

(** The total requested size: the float sum of the collection sizes, in
    container order, from 0.0. *)
Definition total_size (cs : list ECHOcollection) : float :=
  fold_left (fun acc c => fadd acc (getCollSizeMB c)) cs fzero.

Definition total_granules (cs : list ECHOcollection) : Z :=
  fold_left (fun acc c => acc + numGranules c) cs 0.

(** A finite float above zero. *)
Definition positive_float (x : float) : bool :=
  match x with
  | S754_finite false _ _ => true
  | _ => false
  end.

End FeasibilitySpec.

(** *** The sweep *)

Section SweepSpec.
Import Sys Catalog.

Definition warn_not_removed (p : string) : string :=
  "\tBut couldn't remove local file " ++ p ++ "\n".

(** [g] is a failed transfer whose local file is [p]. *)
Definition failed_at (p : string) (g : ECHOgranule) : Prop :=
  downloadStatus g = -1 /\ localFileName g = Some p.

(** What a sweep over the granules [gs] may do between two worlds: it only
    appends to the log and the trace, it removes nothing but local files of
    failed transfers, and for each failed transfer whose file existed the
    file is gone or the failed removal is on record. *)
Definition swept (gs : list ECHOgranule) (w w' : World) : Prop :=
  exists l t,
    log w' = (log w ++ l)%list /\ trace w' = (trace w ++ t)%list
    /\ (forall g p, g ∈ gs -> failed_at p g -> is_Some (fs w !! p) ->
          fs w' !! p = None
          \/ (FsRemove p false ∈ t /\ warn_not_removed p ∈ l))
    /\ (forall q, fs w' !! q = fs w !! q
                  \/ (fs w' !! q = None /\ exists g, g ∈ gs /\ failed_at q g)).

(** The granules of a working set. *)
Definition granules_of (ero : ECHOrequest) : list ECHOgranule :=
  concat (map granContainer (collContainer ero)).

End SweepSpec.

(** *** The update pass *)

Section UpdateSpec.
Import Sys Catalog.

(** The select statement [update] asks the store with. *)
Definition select_collection (c : ECHOcollection) : string :=
  "select shortName from collections where collID = '"
  ++ Py.show (collID c) ++ "'".

(** [p'] is the polygon point [p], flagged. *)
Definition flagged_point (p p' : ECHOpolypoint) : Prop :=
  latitude p' = latitude p /\ longitude p' = longitude p
  /\ p_dbInsertFailed p' = true.

(** [g'] is the granule [g], flagged: it has the data of [g] and owns the
    polygon points of [g], one for one and in order, each flagged. *)
Definition flagged_granule (g g' : ECHOgranule) : Prop :=
  egid g' = egid g /\ granuleUR g' = granuleUR g
  /\ granuleSizeMB g' = granuleSizeMB g
  /\ g_begDateTime g' = g_begDateTime g /\ g_endDateTime g' = g_endDateTime g
  /\ HasPolyPoints g' = HasPolyPoints g
  /\ g_w_bound g' = g_w_bound g /\ g_s_bound g' = g_s_bound g
  /\ g_e_bound g' = g_e_bound g /\ g_n_bound g' = g_n_bound g
  /\ localFileName g' = localFileName g /\ accessURLs g' = accessURLs g
  /\ numDloadTrys g' = numDloadTrys g /\ downloadStatus g' = downloadStatus g
  /\ g_dbInsertFailed g' = true
  /\ Forall2 flagged_point (polyPoints g) (polyPoints g').

(** [c'] is the collection [c] after the cascade: flagged, with the data
    of [c], owning the granules of [c], one for one and in order, each
    flagged together with its polygon points. *)
Definition cascaded (c c' : ECHOcollection) : Prop :=
  collID c' = collID c /\ shortName c' = shortName c
  /\ archCenter c' = archCenter c /\ collDesc c' = collDesc c
  /\ begDateTime c' = begDateTime c /\ endDateTime c' = endDateTime c
  /\ doi c' = doi c /\ numGranules c' = numGranules c
  /\ haveFailedDwnlds c' = haveFailedDwnlds c
  /\ dbInsertFailed c' = true
  /\ Forall2 flagged_granule (granContainer c) (granContainer c').

(** The flags of a collection, of its granules and of their polygon
    points. *)
Definition insert_flags (c : ECHOcollection)
    : bool * list (bool * list bool) :=
  (dbInsertFailed c,
   map (fun g => (g_dbInsertFailed g, map p_dbInsertFailed (polyPoints g)))
       (granContainer c)).

End UpdateSpec.

(** *** The replay of pending transactions *)

Section ReplaySpec.
Import Sys Xml PendingTx.
Variable env : Env.

(** The children left after the transactions [done] have been removed. *)
Definition remove_all (done : list (nat * element)) (cur : list (nat * element))
    : list (nat * element) :=
  fold_left (fun cur t => remove_child t cur) done cur.

(** Starting from trace [t], the statements [qs] are inserted one after
    the other and every insert succeeds; [t'] is the trace after them. *)
Inductive insert_run (t : list event) : list string -> list event -> Prop :=
| run_nil : insert_run t [] t
| run_cons q qs t' :
    db_insert_ok env t q = true ->
    insert_run (t ++ [DbInsert q true]) qs t' ->
    insert_run t (q :: qs) t'.

(** The statements of a list of transactions. *)
Definition statements (ttype : string) (fields : list string)
    (txs : list (nat * element)) (qs : list string) : Prop :=
  Forall2 (fun tx q => tx_sql ttype fields (snd tx) = Py.Ret q) txs qs.

(** An event of the replay of the file [tfn] of transaction type [ttype]:
    an insert whose statement starts with the head of that type, or the
    re-opening or the removal of that file. *)
Definition kind_event (ttype tfn : string) (e : event) : Prop :=
  match e with
  | DbInsert q _ => String.prefix (insert_head ttype) q = true
  | FsOpenW p _ | FsRemove p _ => p = tfn
  | _ => False
  end.

(** The file [tfn] was replayed to completion: the trace [t] is one
    successful insert per transaction of the file as it was in [files], in
    order, followed by the removal of the file. *)
Definition completed (ttype xmltag : string) (fields : list string)
    (tfn : string) (files : gmap string node) (t : list event) : Prop :=
  exists root qs,
    files !! tfn = Some (File (XmlDoc root))
    /\ Forall2 (fun e q => tx_sql ttype fields e = Py.Ret q) (findall root xmltag) qs
    /\ t = (map (fun q => DbInsert q true) qs ++ [FsRemove tfn true])%list.

End ReplaySpec.

(** *** The transfer loop *)

Section TransferSpec.
Import Sys Downloader.
Variable env : Env.




(** The polling rounds still to come: one more than its remaining rounds
    for each transfer in flight, and one more than its duration for each
    queued item. *)
Fixpoint queued_rounds (k : nat) (q : list item) : nat :=
  match q with
  | [] => 0
  | _ :: q' => S (fst (transfer env k)) + queued_rounds (S k) q'
  end.

Definition flying_rounds (l : list xfer) : nat :=
  list_sum (map (fun x => S (x_remaining x)) l).

Definition rounds_left (st : mdstate) : nat :=
  (flying_rounds (inflight st) + queued_rounds (started st) (queue st))%nat.

(** The status written for a transfer that succeeded or failed. *)
Definition code (good : bool) : Z := if good then 1 else -1.


End TransferSpec.

(** *** Catalog responses *)

Section CatalogSpec.
Import Sys Catalog Xml Client.

(** The addresses the two queries go to. *)
Definition dataset_url (q : QueryBuilder.ECHOdsQuery) : string :=
  echoCollectionURL ++ "." ++ "echo10" ++ QueryBuilder.getDSqueryStr q.



End CatalogSpec.

End Spec.

(** ** Concrete inputs used by the examples and the instances below *)

Module Examples.
Import Xml Sys Catalog.

(** A request file with one dataset whose recurring criteria are given. *)
Definition bbox_criteria : element :=
  Elem "boundingbox" [("w", "-10"); ("s", "-10"); ("e", "10"); ("n", "10")] None [].
Definition version_criteria : element :=
  Elem "version" [("v", "1")] None [].
Definition year_element : element :=
  Elem "year" [("yr_start", "2019"); ("yr_end", "2020")] None [].
Definition start_element (mon : string) : element :=
  Elem "start" [("mon_start", mon); ("day_start", "1"); ("tim_start", "00:00:00")]
       None [].
Definition end_element : element :=
  Elem "end" [("mon_end", "6"); ("day_end", "30"); ("tim_end", "23:59:59")] None [].
Definition recurring (tcrits : list element) : element :=
  Elem "temporal" [("type", "recurring")] None tcrits.
Definition dataset (temporal : element) : element :=
  Elem "dataset" [("shortname", "MOD04")] None
       [bbox_criteria; version_criteria; temporal].
Definition request (datasets : list element) : element :=
  Elem "data" [("useDB", "True")] None datasets.

Definition complete_criteria : element :=
  recurring [year_element; start_element "3"; end_element].
(** The [end] element is missing. *)
Definition criteria_without_end (mon : string) : element :=
  recurring [year_element; start_element mon].
(** The [end] element has no attributes. *)
Definition criteria_with_empty_end : element :=
  recurring [year_element; start_element "3"; Elem "end" [] None []].

Definition request_complete : element := request [dataset complete_criteria].
Definition request_without_end : element :=
  request [dataset (criteria_without_end "3")].
Definition request_with_empty_end : element :=
  request [dataset criteria_with_empty_end].
(** A complete dataset followed by one without [end], whose start month is
    past the first dataset's end month. *)
Definition request_with_stale_end : element :=
  request [dataset complete_criteria; dataset (criteria_without_end "9")].

End Examples.

Module Examples2.
Import Xml Sys Catalog.

(** An environment in which every call outside succeeds, the database is
    empty, every transfer completes at once and every number reads as 0.0. *)
Definition calm_env : Env :=
  {| db_rows := fun _ _ => Some O;
     db_insert_ok := fun _ _ => true;
     os_makedirs_ok := fun _ _ => true;
     os_chmod_ok := fun _ _ => true;
     os_open_r_ok := fun _ _ => true;
     os_open_w_ok := fun _ _ => true;
     os_remove_ok := fun _ _ => true;
     ws_dataset := fun _ _ => None;
     ws_granule := fun _ _ => (None, None);
     transfer := fun _ => (O, true);
     float_of_str := fun _ => Some fzero;
     str_float := fun _ => "0.0";
     fmt_float := fun _ => "0.000000" |}.

Definition leaf (t v : string) : element := Elem t [] (Some v) [].

(** A granule record of the pending-download file, stored after one try. *)
Definition pending_granule (gid : string) : element :=
  Elem "granule" [] None
    [leaf "granID" gid; leaf "dwnldtrys" "1"; leaf "dwnldstat" "-1";
     leaf "granuleUR" "UR"; leaf "sizeMB" "100.0";
     leaf "begDateTime" "2020-01-01T00:00:00";
     leaf "endDateTime" "2020-01-01T23:59:59";
     Elem "spatial" [] None
       [leaf "w_bound" "-10.0"; leaf "s_bound" "-10.0";
        leaf "e_bound" "10.0"; leaf "n_bound" "10.0"];
     leaf "accessURL" "http://host/data/file.hdf";
     leaf "localFileName" "/data/AC/SN/2020/001/file.hdf"].

Definition pending_collection (gids : list string) : element :=
  Elem "collection" [] None
    [leaf "collID" "C1"; leaf "shortName" "SN"; leaf "archCenter" "AC";
     leaf "collDesc" "a collection"; leaf "begDateTime" "null";
     leaf "endDateTime" "null"; leaf "doi" "NoDOIauth/NoDOI";
     Elem "granules" [] None (map pending_granule gids)].

Definition pending_doc : element :=
  Elem "data" [] None [pending_collection ["G1"; "G2"]].

(** The working set after the catalog query: collection C1 with the fresh
    granule G1 (one try). *)
Definition sized_granule (gid : string) (sizeMB : float) : ECHOgranule :=
  ECHOgranule_init (Some gid) (Some "UR") sizeMB (Some "2020-01-01T00:00:00")
    (Some "2020-01-01T23:59:59") 0 [] fzero fzero fzero fzero
    [(Some ("http://host/data/" ++ gid ++ ".hdf"), Some "text/plain")] (Some "") 1.

Definition fresh_granule (gid : string) : ECHOgranule := sized_granule gid fzero.

Definition collection_C1 (gs : list ECHOgranule) : ECHOcollection :=
  setNumGranules (Z.of_nat (length gs))
    (setGranContainer gs
       (ECHOcollection_init (Some "C1") (Some "SN") (Some "AC")
          (Some "a collection") (Some "null") (Some "null")
          (Some "NoDOIauth/NoDOI"))).

Definition request_of (cs : list ECHOcollection) (avail : float) (limit : Z)
    : ECHOrequest :=
  {| maxDataFiles := 1000; dwnloadLimit := limit; directoryRoot := "/data";
     availDiskSpaceMB := avail; dataSetQueries := []; numDatasetQueries := 0;
     numCollections := Z.of_nat (length cs); pdlfile := "pendingDwnld.xml";
     dbFlag := "True"; collContainer := cs |}.

Definition working_set : ECHOrequest :=
  request_of [collection_C1 [fresh_granule "G1"]] fzero 3072.

(** One collection with G1 of 100 MB and G2 of 50 MB; 100 MB of disk space
    are available and the download limit is 1000 MB. *)
Definition request_150MB : ECHOrequest :=
  request_of [collection_C1 [sized_granule "G1" (float_of_int 100);
                             sized_granule "G2" (float_of_int 50)]]
             (float_of_int 100) 1000.

(** The same collection when the catalog gave no sizes. *)
Definition request_unknown_size : ECHOrequest :=
  request_of [collection_C1 [sized_granule "G1" (S754_zero true);
                             sized_granule "G2" (S754_zero true)]]
             (float_of_int 100) 1000.

Definition world_of (files : gmap string node) : World :=
  {| log := []; trace := []; fs := files |}.

Definition world_with_pending : World :=
  world_of {[ "pendingDwnld.xml" := File (XmlDoc pending_doc) ]}.

(** The granule ids and try counts of a working set, per collection. *)
Definition try_counts (r : ECHOrequest) : list (list (option string * Z)) :=
  map (fun c => map (fun g => (egid g, numDloadTrys g)) (granContainer c))
      (collContainer r).

End Examples2.

Module Examples3.
Import Xml Sys Catalog.
Import Examples2.

(** A granule after the transfers: its status and its local file. *)
Definition transferred (gid : string) (code : Z) (file : string) : ECHOgranule :=
  setDownloadStatus code (setLocalFileName (Some file) (fresh_granule gid)).

Definition file_a : string := "/data/AC/SN/2020/001/a.hdf".
Definition file_b : string := "/data/AC/SN/2020/001/b.hdf".

(** G1 was fetched into [file_a]; the transfer of G2 into [file_b] failed. *)
Definition after_transfers : ECHOrequest :=
  request_of [collection_C1 [transferred "G1" 1 file_a;
                             transferred "G2" (-1) file_b]] fzero 3072.

(** G1 and G2 have the same file name and day: both were transferred into
    [file_a]; G1 succeeded, G2 failed. *)
Definition after_transfers_shared : ECHOrequest :=
  request_of [collection_C1 [transferred "G1" 1 file_a;
                             transferred "G2" (-1) file_a]] fzero 3072.

Definition world_with_files : World :=
  world_of {[ file_a := File Bytes; file_b := File Bytes ]}.

End Examples3.

Module Examples4.
Import Xml Sys Catalog.
Import Examples2.

(** A store that answers every select with no row and refuses every
    insert. *)
Definition refusing_env : Env :=
  mkEnv (fun _ _ => Some O) (fun _ _ => false)
        (os_makedirs_ok calm_env) (os_chmod_ok calm_env)
        (os_open_r_ok calm_env) (os_open_w_ok calm_env) (os_remove_ok calm_env)
        (ws_dataset calm_env) (ws_granule calm_env) (transfer calm_env)
        (float_of_str calm_env) (str_float calm_env) (fmt_float calm_env).

(** A fetched granule with a polygon of two points. *)
Definition polygon_granule (gid : string) : ECHOgranule :=
  setDownloadStatus 1
    (ECHOgranule_init (Some gid) (Some "UR") fzero (Some "2020-01-01T00:00:00")
       (Some "2020-01-01T23:59:59") 1
       [(float_of_int 1, float_of_int 2); (float_of_int 3, float_of_int 4)]
       (SFopp (float_of_int 180)) (SFopp (float_of_int 90))
       (float_of_int 180) (float_of_int 90)
       [(Some "http://host/data/p.hdf", Some "text/plain")]
       (Some "/data/AC/SN/2020/001/p.hdf") 1).

Definition collection_with_polygon : ECHOcollection :=
  collection_C1 [polygon_granule "G1"; Examples3.transferred "G2" 1 Examples3.file_a].

Definition collection_with_polygon_sql : string :=
  "insert into collections (collID,shortName,archCenter,collDesc,begDateTime,endDateTime,doi) values('C1','SN','AC','a collection',convert(null, datetime), convert(null, datetime), 'NoDOIauth/NoDOI');".

End Examples4.

Module Examples5.
Import Xml Sys Catalog PendingTx.
Import Examples2.

(** A pending granule transaction, as [makeGelement] writes it. *)
Definition granule_tx (gid : string) : element :=
  Elem "granule" [] None
    [leaf "granID" gid; leaf "collID" "C1"; leaf "granuleUR" "UR";
     leaf "sizeMB" "100.0"; leaf "begDateTime" "2020-01-01T00:00:00";
     leaf "endDateTime" "null"; leaf "hasPolyPoints" "0";
     leaf "w_bound" "-10.0"; leaf "s_bound" "-10.0";
     leaf "e_bound" "10.0"; leaf "n_bound" "10.0";
     leaf "localFileName" "/data/AC/SN/2020/001/file.hdf"].

Definition polypoint_tx : element :=
  Elem "polypoint" [] None
    [leaf "granID" "G1"; leaf "latitude" "1.0"; leaf "longitude" "2.0"].

Definition collection_tx : element :=
  Elem "collection" [] None
    [leaf "collID" "C1"; leaf "shortName" "SN"; leaf "archCenter" "AC";
     leaf "collDesc" "a collection"; leaf "begDateTime" "null";
     leaf "endDateTime" "null"; leaf "doi" "NoDOIauth/NoDOI"].

Definition tx_doc (txs : list element) : element := Elem "data" [] None txs.

(** The statement of [granule_tx "G1"]. *)
Definition granule_tx_sql : string :=
  "insert into granules (granID,collID,granuleUR,sizeMB,begDateTime,endDateTime,hasPolyPoints,w_bound,s_bound,e_bound,n_bound,localFileName) values('G1','C1','UR','100.0',convert('2020-01-01T00:00:00',datetime),convert(null,datetime),'0','-10.0','-10.0','10.0','10.0','/data/AC/SN/2020/001/file.hdf');".

Definition collection_tx_sql : string :=
  "insert into collections (collID,shortName,archCenter,collDesc,begDateTime,endDateTime,doi) values('C1','SN','AC','a collection',convert(null,datetime),convert(null,datetime),'NoDOIauth/NoDOI');".

Definition polypoint_tx_sql : string :=
  "insert into polypoints (granID,latitude,longitude) values('G1','1.0','2.0');".

(** A granule file with one transaction and a polygon point file. *)
Definition world_granule_pending : World :=
  world_of {[ "_ptxG.xml" := File (XmlDoc (tx_doc [granule_tx "G1"]));
              "_ptxP.xml" := File (XmlDoc (tx_doc [polypoint_tx])) ]}.

(** The three files, one transaction each. *)
Definition world_all_pending : World :=
  world_of {[ "_ptxC.xml" := File (XmlDoc (tx_doc [collection_tx]));
              "_ptxG.xml" := File (XmlDoc (tx_doc [granule_tx "G1"]));
              "_ptxP.xml" := File (XmlDoc (tx_doc [polypoint_tx])) ]}.

(** The handler of the main program after [havePending] in these worlds. *)
Definition handler (c g p : bool) : ECHOptxHandler :=
  mkPtx "_ptxC.xml" "_ptxG.xml" "_ptxP.xml" c g p.

End Examples5.

Module Examples6.
Import Xml Sys Catalog Downloader.
Import Examples2.

(** Transfers that take 0, 1 or 2 further rounds; every other one fails. *)
Definition uneven_env : Env :=
  mkEnv (db_rows calm_env) (db_insert_ok calm_env)
        (os_makedirs_ok calm_env) (os_chmod_ok calm_env)
        (os_open_r_ok calm_env) (os_open_w_ok calm_env) (os_remove_ok calm_env)
        (ws_dataset calm_env) (ws_granule calm_env)
        (fun k => ((k mod 3)%nat, Nat.even k))
        (float_of_str calm_env) (str_float calm_env) (fmt_float calm_env).

Definition queued (k : nat) : item :=
  mkItem (Some ("G" ++ pretty k)) ("http://host/data/" ++ pretty k ++ ".hdf")
         ("/data/AC/SN/2020/001/" ++ pretty k ++ ".hdf").

(** A downloader with twelve queued items, two more than there are
    handles. *)
Definition twelve : ECHOdownloader :=
  {| rootDir := "/data"; granuleQueue := map queued (seq 0 12);
     granuleStatus := ∅; collPath := Some "/data/AC/SN" |}.

End Examples6.

Module Examples7.
Import Xml Sys Catalog.
Import Examples2.

(** The query of the complete request of [Examples]. *)
Definition query_MOD04 : QueryBuilder.ECHOdsQuery :=
  {| QueryBuilder.snStr := "?shortName=MOD04";
     QueryBuilder.vStr := "&version=1";
     QueryBuilder.bbStr := "&bounding_box=-10,-10,10,10";
     QueryBuilder.tStr := "&temporal=2020-01-01T00:00:00,2020-01-31T23:59:59";
     QueryBuilder.w_bound := "-10"; QueryBuilder.s_bound := "-10";
     QueryBuilder.e_bound := "10"; QueryBuilder.n_bound := "10" |}.

(** A request object with the same query twice and nothing fetched yet. *)
Definition two_queries : ECHOrequest :=
  {| maxDataFiles := 1000; dwnloadLimit := 3072; directoryRoot := "/data";
     availDiskSpaceMB := fzero;
     dataSetQueries := [query_MOD04; query_MOD04]; numDatasetQueries := 2;
     numCollections := 0; pdlfile := "pendingDwnld.xml";
     dbFlag := "True"; collContainer := [] |}.

(** A dataset answer with one collection. *)
Definition one_collection : element :=
  Elem "results" [] None
    [Elem "result" [("echo_dataset_id", "C1")] None
       [Elem "Collection" [] None
          [leaf "ShortName" "SN"; leaf "ArchiveCenter" "AC";
           leaf "Description" "a collection"]]].




(** A catalog that reports 5000 hits for every granule query. *)
Definition crowded_env : Env :=
  mkEnv (db_rows calm_env) (db_insert_ok calm_env)
        (os_makedirs_ok calm_env) (os_chmod_ok calm_env)
        (os_open_r_ok calm_env) (os_open_w_ok calm_env) (os_remove_ok calm_env)
        (fun _ _ => Some one_collection)
        (fun _ _ => (Some "5000", None))
        (transfer calm_env)
        (float_of_str calm_env) (str_float calm_env) (fmt_float calm_env).

(** A dataset answer that parses but holds an error report, not a result,
    and a catalog that gives it to every dataset query. *)
Definition error_report : element :=
  Elem "errors" [] None [Elem "error" [] None []].

Definition erring_env : Env :=
  mkEnv (db_rows calm_env) (db_insert_ok calm_env)
        (os_makedirs_ok calm_env) (os_chmod_ok calm_env)
        (os_open_r_ok calm_env) (os_open_w_ok calm_env) (os_remove_ok calm_env)
        (fun _ _ => Some error_report)
        (ws_granule calm_env)
        (transfer calm_env)
        (float_of_str calm_env) (str_float calm_env) (fmt_float calm_env).

(** A granule record whose geometry is a point: neither a bounding
    rectangle nor a polygon. *)
Definition geometry_with_point : element :=
  Elem "Geometry" [] None [Elem "Point" [] None []].

Definition granule_with_point : element :=
  Elem "result" [("echo_granule_id", "G1")] None
    [Elem "Granule" [] None
       [leaf "GranuleUR" "UR";
        Elem "Spatial" [] None
          [Elem "HorizontalSpatialDomain" [] None [geometry_with_point]];
        Elem "OnlineAccessURLs" [] None
          [Elem "OnlineAccessURL" [] None [leaf "URL" "http://host/data/file.hdf"]]]].

(** A catalog that knows the collection but sends no [echo-hits] header
    with its granule answers, and one whose granule answer holds that
    record. *)
Definition headerless_env : Env :=
  mkEnv (db_rows calm_env) (db_insert_ok calm_env)
        (os_makedirs_ok calm_env) (os_chmod_ok calm_env)
        (os_open_r_ok calm_env) (os_open_w_ok calm_env) (os_remove_ok calm_env)
        (fun _ _ => Some one_collection)
        (fun _ _ => (None, Some (Elem "results" [] None [])))
        (transfer calm_env)
        (float_of_str calm_env) (str_float calm_env) (fmt_float calm_env).

Definition pointed_env : Env :=
  mkEnv (db_rows calm_env) (db_insert_ok calm_env)
        (os_makedirs_ok calm_env) (os_chmod_ok calm_env)
        (os_open_r_ok calm_env) (os_open_w_ok calm_env) (os_remove_ok calm_env)
        (fun _ _ => Some one_collection)
        (fun _ _ => (Some "1", Some (Elem "results" [] None [granule_with_point])))
        (transfer calm_env)
        (float_of_str calm_env) (str_float calm_env) (fmt_float calm_env).

End Examples7.

(** * The rest of the pipeline: request validation and the saving of
      pending work *)

(** ** Further answers of the operating system and of lxml *)

Module Host.
Import Sys.

Record Host := mkHost {
  (** [open(path, "a")]: [false] is an IOError *)
  os_open_a_ok : list event -> string -> bool;
  (** [fh.write(text)] on an open file: [false] is an IOError *)
  os_write_ok : list event -> string -> bool;
  (** [os.statvfs(path)]: [None] is an OSError, else [(f_bavail, f_frsize)] *)
  os_statvfs : string -> option (Z * Z);
  (** [ET.tostring(root, pretty_print=True)] *)
  tostring : Xml.element -> string;
  (** what a file holds once a document is written after bytes the model
      knows nothing about *)
  bytes_then : Xml.element -> content
}.

(** Float division. *)
Definition fdiv (x y : float) : float := SFdiv prec emax x y.

(** What lxml reads back from the text it wrote for an element: an element
    written with the empty string as text is read back without text.  (The
    indentation that pretty printing puts into elements with children is
    left out: the client reads the text of leaves only.) *)
Definition blank (v : option string) : option string :=
  match v with
  | Some "" => None
  | _ => v
  end.

Fixpoint reparsed (e : Xml.element) : Xml.element :=
  match e with
  | Xml.Elem t a x cs => Xml.Elem t a (blank x) (map reparsed cs)
  end.

Section WithHost.
Variable host : Host.

(** [open(path, "a")]: [None] is an IOError; [Some fresh] is an open file,
    which was created by the call when [fresh] is true.  A directory cannot
    be opened.  The trace records it as an open for writing. *)
Definition open_a (path : string) : M (option bool) :=
  let! t := get_trace in
  let! f := get_fs in
  let ok := match f !! path with
            | Some (Dir _) => false
            | _ => os_open_a_ok host t path
            end in
  emit (FsOpenW path ok) ;;
  if ok then
    match f !! path with
    | None => set_fs (<[path := File Bytes]> f) ;; ret (Some true)
    | Some _ => ret (Some false)
    end
  else ret None.

(** [fh.write(text)] on a file opened by [open_a], where [text] is the
    serialisation of [root]; [false] is an IOError.  A file created by the
    open holds the document as a parser reads it back; after a document
    that was already there the file is no document any more (two documents
    in a row are not one). *)
Definition write_appended (path : string) (fresh : bool) (root : Xml.element)
    : M bool :=
  let! t := get_trace in
  if os_write_ok host t path then
    let! f := get_fs in
    let c := if fresh then XmlDoc (reparsed root)
             else match f !! path with
                  | Some (File (XmlDoc _)) => Bytes
                  | _ => bytes_then host root
                  end in
    set_fs (<[path := File c]> f) ;; ret true
  else ret false.

(** [fh.write(text)] on a file opened by [Os.open_w] (which emptied it):
    the file holds the document as a parser reads it back. *)
Definition write_truncated (path : string) (root : Xml.element) : M bool :=
  let! t := get_trace in
  if os_write_ok host t path then Os.write_xml path (reparsed root) ;; ret true
  else ret false.

End WithHost.
End Host.

(** ** Request validation: [ECHOrequest.__init__], [validateRequest],
       [setDiskSpaceAvail] (lines 109-218 and 395-411) *)

Module Request.
Import Sys Catalog Xml Host.

Definition setValidated (flag root : string) (r : ECHOrequest) : ECHOrequest :=
  mkRequest (maxDataFiles r) (dwnloadLimit r) root
    (availDiskSpaceMB r) (dataSetQueries r) (numDatasetQueries r)
    (numCollections r) (pdlfile r) flag (collContainer r).

Definition setAvail (x : float) (r : ECHOrequest) : ECHOrequest :=
  mkRequest (maxDataFiles r) (dwnloadLimit r) (directoryRoot r)
    x (dataSetQueries r) (numDatasetQueries r)
    (numCollections r) (pdlfile r) (dbFlag r) (collContainer r).

Definition setQueries (qs : list QueryBuilder.ECHOdsQuery) (r : ECHOrequest)
    : ECHOrequest :=
  mkRequest (maxDataFiles r) (dwnloadLimit r) (directoryRoot r)
    (availDiskSpaceMB r) qs (Z.of_nat (length qs))
    (numCollections r) (pdlfile r) (dbFlag r) (collContainer r).

Definition MSG_OPEN (f : string) : string :=
  "\tCould not open ECHO Download Query File: " ++ f.
Definition MSG_PARSE (f : string) : string :=
  "\tCould not parse download request file (" ++ f ++ ") please check XML syntax\n".
Definition MSG_EMPTY : string :=
  "\tDownload XML request file has no dataset specifications\n".
Definition MSG_FLAG : string := "\tuseDB flag not set to True or False, check\n".
Definition MSG_DBROOT : string := "\tMissing DB directory root in XML request file\n".
Definition MSG_DATAROOT : string :=
  "\tMissing DATA directory root in XML request file\n".
Definition MSG_NO_DIR : string :=
  "\tDirectory root path in XML request file does not exist\n".
Definition MSG_NO_WRITE (d : string) : string :=
  "\tYou do not have permission to write to " ++ d ++ "\n".
Definition MSG_RESULT_SIZE (n : Z) : string :=
  "\tInvalid result set size (" ++ Py.str_int n ++ "), should be >= 1 and <= 2000\n".
Definition MSG_DOWNLOAD_SIZE (n : Z) : string :=
  "\tInvalid download size (" ++ Py.str_int n ++ "), should be > 0 and <= 5120\n".
Definition MSG_NO_SPACE : string := "\tCouldn't determine available disk space\n".

Section WithEnv.
Variable env : Env.
Variable host : Host.

(** [setDiskSpaceAvail] (lines 395-411):
    [st.f_bavail * st.f_frsize / math.pow(1024, 2)]. *)
Definition setDiskSpaceAvail (r : ECHOrequest) : M (bool * ECHOrequest) :=
  match os_statvfs host (directoryRoot r) with
  | None =>
      write "ECHOrequest::setDiskSpaceAvail\n" ;;
      write "\t***ERROR: Couldn't run statvfs on directory root\n" ;;
      ret (false, r)
  | Some (f_bavail, f_frsize) =>
      ret (true, setAvail (fdiv (float_of_int (f_bavail * f_frsize))
                                (float_of_int (1024 ^ 2))) r)
  end.

(** [validateRequest] (lines 148-218).  [None] is [return False], after
    which the constructor exits and the object is never used; [Some] is
    [return True] with the object and [self.edrRoot]. *)
Definition validateRequest (xmlConfigFile : string) (r : ECHOrequest)
    : M (option (ECHOrequest * element)) :=
  write "ECHOrequest::validateRequest\n" ;;
  let! opened := Os.open_r env xmlConfigFile in
  if negb opened then write (MSG_OPEN xmlConfigFile) ;; ret None
  else
    let! parsed := Os.parse xmlConfigFile in
    match parsed with
    | None => write (MSG_PARSE xmlConfigFile) ;; ret None
    | Some edrRoot =>
        if len edrRoot =? 0 then write MSG_EMPTY ;; ret None
        else
          let flag := get_default edrRoot "useDB" "" in
          if negb (String.eqb flag "True") && negb (String.eqb flag "False")
          then write MSG_FLAG ;; ret None
          else
            let root :=
              if String.eqb flag "True"
              then get_default edrRoot "dbRoot" ""
              else get_default edrRoot "dataRoot" "" in
            if Py.len root =? 0 then
              write (if String.eqb flag "True" then MSG_DBROOT else MSG_DATAROOT) ;;
              ret None
            else
              let r := setValidated flag root r in
              let! there := Os.access_F root in
              if negb there then write MSG_NO_DIR ;; ret None
              else
                let! writable := Os.access_W root in
                if negb writable then write (MSG_NO_WRITE root) ;; ret None
                else if (maxDataFiles r <? 1) || (maxDataFiles r >? 2000) then
                  write (MSG_RESULT_SIZE (maxDataFiles r)) ;; ret None
                else if (dwnloadLimit r <=? 0) || (dwnloadLimit r >? 5120) then
                  write (MSG_DOWNLOAD_SIZE (dwnloadLimit r)) ;; ret None
                else
                  let! (ok, r) := setDiskSpaceAvail r in
                  if negb ok then write MSG_NO_SPACE ;; ret None
                  else
                    write "\tRequest valid, continuing\n" ;;
                    ret (Some (r, edrRoot))
    end.

(** [loadDataSetQueries] with its log lines: [None] is [return False]. *)
Definition load_queries (edrRoot : element)
    : M (option (list QueryBuilder.ECHOdsQuery)) :=
  write "ECHOrequest::loadDataSetQueries\n" ;;
  match QueryBuilder.loadDataSetQueries edrRoot with
  | QueryBuilder.Go qs => write "\tSuccessful.\n" ;; ret (Some qs)
  | QueryBuilder.ReturnFalse msg => write msg ;; ret None
  | QueryBuilder.Throw e => raise e
  end.

(** [ECHOrequest.__init__] (lines 109-146): the object and
    [self.havePendDwnld]. *)
Definition ECHOrequest_init (xmlConfigFile : string) (maxFiles dwnLoadLimit : Z)
    : M (ECHOrequest * bool) :=
  let r := {| maxDataFiles := maxFiles; dwnloadLimit := dwnLoadLimit;
              directoryRoot := ""; availDiskSpaceMB := fzero;
              dataSetQueries := []; numDatasetQueries := 0;
              numCollections := 0; pdlfile := "pendingDwnld.xml";
              dbFlag := ""; collContainer := [] |} in
  let! there := Os.access_F (pdlfile r) in
  let! havePendDwnld :=
    if there then
      let! ok := Os.open_r env (pdlfile r) in
      if ok then ret true
      else
        write "ECHOrequest::__init__\n" ;;
        write "\t***WARNING: Pending download file exists but\n" ;;
        write ("\t***couldn't open file for reading " ++ pdlfile r ++ "\n") ;;
        ret false
    else ret false in
  let! v := validateRequest xmlConfigFile r in
  match v with
  | None => raise Py.SystemExit
  | Some (r, edrRoot) =>
      let! qs := load_queries edrRoot in
      match qs with
      | None => raise Py.SystemExit
      | Some qs =>
          let! (ok, r) := setDiskSpaceAvail (setQueries qs r) in
          if negb ok then raise Py.SystemExit else ret (r, havePendDwnld)
      end
  end.

End WithEnv.
End Request.

(** ** PendingDownloadStore: [ECHOrequest.savePending] (lines 640-747) *)

Module PendingSave.
Import Sys Catalog Xml Host.

(** [ET.SubElement(parent, t)] followed by [.text = v].  (The texts of a
    working set were read by lxml from a document, or are put together
    from such texts, so lxml takes them as the text of an element.) *)
Definition leaf (t : string) (v : option string) : element := Elem t [] v [].

Section WithEnv.
Variable env : Env.
Variable host : Host.

(** The target [lat, lon] of [for lat, lon in ppts]: [ppts] is
    [g.getPolyPoints()], a list of [ECHOpolypoint] objects, and the class
    defines no iteration, so unpacking one is a TypeError. *)
Definition unpack_point (p : ECHOpolypoint) : Py.res (float * float) :=
  Py.Raise Py.TypeError.

(** Lines 695-700. *)
Fixpoint polyPoint_elements (ppts : list ECHOpolypoint) (acc : list element)
    : Py.res (list element) :=
  match ppts with
  | [] => Py.Ret acc
  | p :: rest =>
      let* (lat, lon) := unpack_point p in
      let pp := Elem "polyPoint" [] None
                  [leaf "latitude" (Some (str_float env lat));
                   leaf "longitude" (Some (str_float env lon))] in
      polyPoint_elements rest (acc ++ [pp])
  end.

(** Lines 691-709. *)
Definition spatial_element (g : ECHOgranule) : Py.res element :=
  if negb (HasPolyPoints g =? 0) then
    let* pps := polyPoint_elements (polyPoints g) [] in
    Py.Ret (Elem "spatial" [] None [Elem "polyPoints" [] None pps])
  else
    Py.Ret (Elem "spatial" [] None
              [leaf "w_bound" (Some (str_float env (g_w_bound g)));
               leaf "s_bound" (Some (str_float env (g_s_bound g)));
               leaf "e_bound" (Some (str_float env (g_e_bound g)));
               leaf "n_bound" (Some (str_float env (g_n_bound g)))]).

(** Lines 676-714: the element of one granule. *)
Definition granule_element (g : ECHOgranule) : Py.res element :=
  let* gran_spatial := spatial_element g in
  let* (granuleURL, mimeType) := Py.getitem (accessURLs g) 0 in
  Py.Ret (Elem "granule" [] None
            [leaf "granID" (egid g);
             leaf "dwnldtrys" (Some (Py.str_int (numDloadTrys g)));
             leaf "dwnldstat" (Some (Py.str_int (downloadStatus g)));
             leaf "granuleUR" (granuleUR g);
             leaf "sizeMB" (Some (str_float env (granuleSizeMB g)));
             leaf "begDateTime" (g_begDateTime g);
             leaf "endDateTime" (g_endDateTime g);
             gran_spatial;
             leaf "accessURL" granuleURL;
             leaf "localFileName" (localFileName g)]).

(** Lines 674-675: [for g in c.granContainer], keeping the granules whose
    status is below zero. *)
Fixpoint granule_elements (gs : list ECHOgranule) (acc : list element)
    : Py.res (list element) :=
  match gs with
  | [] => Py.Ret acc
  | g :: rest =>
      if downloadStatus g <? 0 then
        let* gran := granule_element g in
        granule_elements rest (acc ++ [gran])
      else granule_elements rest acc
  end.

(** Lines 657-673: the element of one collection. *)
Definition collection_element (c : ECHOcollection) : Py.res element :=
  let* grans := granule_elements (granContainer c) [] in
  Py.Ret (Elem "collection" [] None
            [leaf "collID" (collID c);
             leaf "shortName" (shortName c);
             leaf "archCenter" (archCenter c);
             leaf "collDesc" (collDesc c);
             leaf "begDateTime" (begDateTime c);
             leaf "endDateTime" (endDateTime c);
             leaf "doi" (doi c);
             Elem "granules" [] None grans]).

(** Lines 652-653: [for c in self.collContainer], keeping the collections
    with failed downloads. *)
Fixpoint collection_elements (cs : list ECHOcollection) (acc : list element)
    : Py.res (list element) :=
  match cs with
  | [] => Py.Ret acc
  | c :: rest =>
      if haveFailedDwnlds c then
        let* coll := collection_element c in
        collection_elements rest (acc ++ [coll])
      else collection_elements rest acc
  end.

Definition MSG_REOPEN (f : string) : string :=
  "\t****SEVERE: Couldn't reopen pending download file for writing " ++ f ++ "\n".
Definition MSG_WRITE (f : string) : string :=
  "\t****SEVERE: Failed to write to pending download file " ++ f ++ "\n".

(** [savePending]. *)
Definition savePending (ero : ECHOrequest) : M unit :=
  let haveNewPending := existsb haveFailedDwnlds (collContainer ero) in
  if haveNewPending then
    let! colls := pure (collection_elements (collContainer ero) []) in
    let xmlroot := Elem "data" [] None colls in
    write "ECHOrequest::savePending\n" ;;
    write "\tAttempting to save pending download information...\n" ;;
    let! opened := Os.open_w env (pdlfile ero) in
    let! pendingFileOk :=
      if negb opened then write (MSG_REOPEN (pdlfile ero)) ;; ret false
      else
        let! written := write_truncated host (pdlfile ero) xmlroot in
        if negb written then write (MSG_WRITE (pdlfile ero)) ;; ret false
        else ret true in
    if negb pendingFileOk then
      write "\t****SEVERE: Writing pending download data to log file instead\n" ;;
      write "\t****SEVERE: You must manually delete old pending download file\n" ;;
      write "\t****SEVERE: and populate new file with XML data that follows.\n" ;;
      write (tostring host xmlroot)
    else write "\tSuccessful.\n"
  else ret tt.

End WithEnv.
End PendingSave.

(** ** PendingTransactionStore: [ECHOptxHandler.savePendTx] and the
       elements it writes (lines 1976-2076) *)

Module PendingTxSave.
Import Sys Catalog Xml Host PendingTx.

Definition leaf (t : string) (v : option string) : element := Elem t [] v [].

(** [ET.Element("data")]. *)
Definition data_root : element := Elem "data" [] None [].

(** [ET.SubElement(root, ...)] once the new child is complete. *)
Definition append_child (root child : element) : element :=
  Elem (tag root) (attrib root) (text root) (children root ++ [child]).

Section WithEnv.
Variable env : Env.
Variable host : Host.

(** [makeCelement] (lines 2025-2040): the element, and its addition to
    the root. *)
Definition Celement (cobj : ECHOcollection) : element :=
  Elem "collection" [] None
    [leaf "collID" (collID cobj);
     leaf "shortName" (shortName cobj);
     leaf "archCenter" (archCenter cobj);
     leaf "collDesc" (collDesc cobj);
     leaf "begDateTime" (begDateTime cobj);
     leaf "endDateTime" (endDateTime cobj);
     leaf "doi" (doi cobj)].

Definition makeCelement (cobj : ECHOcollection) (croot : element) : element :=
  append_child croot (Celement cobj).

(** [makeGelement] (lines 2042-2067): [endDateTime] is created before
    [hasPolyPoints] and filled after it. *)
Definition Gelement (gobj : ECHOgranule) (cid : option string) : element :=
  Elem "granule" [] None
    [leaf "granID" (egid gobj);
     leaf "collID" cid;
     leaf "granuleUR" (granuleUR gobj);
     leaf "sizeMB" (Some (str_float env (granuleSizeMB gobj)));
     leaf "begDateTime" (g_begDateTime gobj);
     leaf "endDateTime" (g_endDateTime gobj);
     leaf "hasPolyPoints" (Some (Py.str_int (HasPolyPoints gobj)));
     leaf "w_bound" (Some (str_float env (g_w_bound gobj)));
     leaf "s_bound" (Some (str_float env (g_s_bound gobj)));
     leaf "e_bound" (Some (str_float env (g_e_bound gobj)));
     leaf "n_bound" (Some (str_float env (g_n_bound gobj)));
     leaf "localFileName" (localFileName gobj)].

Definition makeGelement (gobj : ECHOgranule) (cid : option string)
    (groot : element) : element :=
  append_child groot (Gelement gobj cid).

(** [makePelement] (lines 2069-2076). *)
Definition Pelement (pobj : ECHOpolypoint) (gid : option string) : element :=
  Elem "polypoint" [] None
    [leaf "granID" gid;
     leaf "latitude" (Some (str_float env (latitude pobj)));
     leaf "longitude" (Some (str_float env (longitude pobj)))].

Definition makePelement (pobj : ECHOpolypoint) (gid : option string)
    (proot : element) : element :=
  append_child proot (Pelement pobj gid).

(** Lines 1994-1996: [for p in g.polyPoints]. *)
Definition save_point (gid : option string) (proot : element)
    (p : ECHOpolypoint) : element :=
  if p_dbInsertFailed p then makePelement p gid proot else proot.

(** Lines 1990-1996: one iteration of [for g in c.granContainer]; the
    roots are [(gxmlroot, pxmlroot)]. *)
Definition save_granule (cid : option string) (roots : element * element)
    (g : ECHOgranule) : element * element :=
  let gid := egid g in
  let groot := if g_dbInsertFailed g then makeGelement g cid (fst roots)
               else fst roots in
  (groot, fold_left (save_point gid) (polyPoints g) (snd roots)).

(** Lines 1986-1996: one iteration of [for c in ero.collContainer]; the
    roots are [(cxmlroot, (gxmlroot, pxmlroot))]. *)
Definition save_collection (roots : element * (element * element))
    (c : ECHOcollection) : element * (element * element) :=
  let cid := collID c in
  let croot := if dbInsertFailed c then makeCelement c (fst roots)
               else fst roots in
  (croot, fold_left (save_granule cid) (granContainer c) (snd roots)).

(** [writePendingTx] (lines 2007-2023). *)
Definition writePendingTx (fname : string) (xmlroot : element) : M unit :=
  write "ECHOptxHandler::writePendingTx\n" ;;
  let! opened := open_a host fname in
  match opened with
  | None =>
      write ("\tFailed to open pending transaction file " ++ fname ++ "\n") ;;
      raise Py.SystemExit
  | Some fresh =>
      let! written := write_appended host fname fresh xmlroot in
      if negb written then
        write ("\tFailed to write to pending transaction file " ++ fname ++ "\n") ;;
        raise Py.SystemExit
      else write ("\tWrote pending transaction file " ++ fname ++ "\n")
  end.

(** [savePendTx] (lines 1976-2005). *)
Definition savePendTx (h : ECHOptxHandler) (ero : ECHOrequest) : M unit :=
  let '(cxmlroot, (gxmlroot, pxmlroot)) :=
    fold_left save_collection (collContainer ero)
              (data_root, (data_root, data_root)) in
  (if len cxmlroot >? 0 then writePendingTx (cpf h) cxmlroot else ret tt) ;;
  (if len gxmlroot >? 0 then writePendingTx (gpf h) gxmlroot else ret tt) ;;
  (if len pxmlroot >? 0 then writePendingTx (ppf h) pxmlroot else ret tt).

End WithEnv.
End PendingTxSave.

(** ** The last stage of the main program (lines 2165-2168) *)

Module MainSave.
Import Sys Catalog.

Section WithEnv.
Variable env : Env.
Variable host : Host.Host.

(** Failed downloads are saved, the database is updated, and the inserts
    that failed are saved. *)
Definition save_stage (ptxObj : PendingTx.ECHOptxHandler) (ero : ECHOrequest)
    : M ECHOrequest :=
  if String.eqb (dbFlag ero) "True" then
    PendingSave.savePending env host ero ;;
    let! ero' := Db.update env ero in
    PendingTxSave.savePendTx env host ptxObj ero' ;;
    ret ero'
  else ret ero.

End WithEnv.
End MainSave.

(** ** The vocabulary of the further properties *)

Module Spec2.

Section LookupSpec.
Import Sys Catalog.

(** The granules [inGranules] walks through for the collection id [cid]:
    those of every collection with that id, in container order. *)
Definition matching_granules (r : ECHOrequest) (cid : option string)
    : list ECHOgranule :=
  flat_map granContainer
    (List.filter (fun c => eqb_ostr (collID c) cid) (collContainer r)).

End LookupSpec.

Section MergeSpec.
Import Sys Catalog.

(** The collection counter agrees with the container. *)
Definition counted (r : ECHOrequest) : Prop :=
  numCollections r = Z.of_nat (length (collContainer r)).

(** [l'] keeps the entries of [l] in place, each related by [R] to what it
    was, and may hold more entries after them. *)
Definition kept_as {A} (R : A -> A -> Prop) (l l' : list A) : Prop :=
  exists kept new, l' = (kept ++ new)%list /\ Forall2 R l kept.

(** [g'] is [g] but for the try count. *)
Definition retried (g g' : ECHOgranule) : Prop :=
  g' = setnumtrys (numDloadTrys g') g.

(** [c'] is [c] but for its granules, which are kept in place up to their
    try counts, with possibly more granules after them. *)
Definition grown (c c' : ECHOcollection) : Prop :=
  c' = setGranContainer (granContainer c') c
  /\ kept_as retried (granContainer c) (granContainer c').

End MergeSpec.

Section LoaderSpec.
Import Xml QueryBuilder.

(** What the loader insists on for a dataset: a [shortname] attribute,
    criteria of the three kinds only, at least one of each, the four
    sides on every bounding box and one of the two search types on every
    temporal criteria. *)
Definition known_criteria (c : element) : Prop :=
  (tag c = "boundingbox"
   /\ is_Some (get c "w") /\ is_Some (get c "s")
   /\ is_Some (get c "e") /\ is_Some (get c "n"))
  \/ tag c = "version"
  \/ (tag c = "temporal"
      /\ (get c "type" = Some "static" \/ get c "type" = Some "recurring")).

Definition complete_dataset (d : element) : Prop :=
  is_Some (get d "shortname")
  /\ Forall known_criteria (children d)
  /\ Exists (fun c => tag c = "boundingbox") (children d)
  /\ Exists (fun c => tag c = "version" /\ is_Some (get c "v")) (children d)
  /\ Exists (fun c => tag c = "temporal") (children d).

(** A dataset with a static temporal criteria, in the order bounding box,
    version, temporal. *)
Record static_spec := mkStatic {
  st_shortname : string;
  st_version : string;
  st_w : string; st_s : string; st_e : string; st_n : string;
  st_start : string;
  st_end : string
}.

Definition static_dataset (attrs : list (string * string)) (version : element)
    (x : static_spec) : element :=
  Elem "dataset" attrs None
    [Elem "boundingbox" [("w", st_w x); ("s", st_s x); ("e", st_e x); ("n", st_n x)]
          None [];
     version;
     Elem "temporal" [("type", "static")] None
       [Elem "startdatetime" [("dtstr", st_start x)] None [];
        Elem "enddatetime" [("dtstr", st_end x)] None []]].

Definition static_request (x : static_spec) : element :=
  static_dataset [("shortname", st_shortname x)]
                 (Elem "version" [("v", st_version x)] None []) x.

(** The query string the catalog is asked with for such a dataset. *)
Definition static_query_string (x : static_spec) : string :=
  "?shortName=" ++ st_shortname x ++ "&version=" ++ st_version x
  ++ "&bounding_box=" ++ st_w x ++ "," ++ st_s x ++ "," ++ st_e x ++ "," ++ st_n x
  ++ "&temporal=" ++ st_start x ++ "," ++ st_end x.

End LoaderSpec.

Section RequestSpec.
Import Sys Catalog Xml.

(** The path is there and can be written to. *)
Definition writable_path (files : gmap string node) (p : string) : Prop :=
  match files !! p with
  | Some (Dir w) => w = true
  | Some (File _) => True
  | None => False
  end.

(** The attribute of the root that names the directory root. *)
Definition root_attribute (flag : string) : string :=
  if String.eqb flag "True" then "dbRoot" else "dataRoot".

(** The free space in MB, as [setDiskSpaceAvail] computes it. *)
Definition free_MB (f_bavail f_frsize : Z) : float :=
  Host.fdiv (float_of_int (f_bavail * f_frsize)) (float_of_int 1048576).

End RequestSpec.

Section DownloadSpec.
Import Sys Catalog.

(** [g'] is [g] but for its local file name and its download status. *)
Definition placed (g g' : ECHOgranule) : Prop :=
  g' = setLocalFileName (localFileName g')
         (setDownloadStatus (downloadStatus g') g).

(** A granule of the list has a status below zero. *)
Definition some_failed (gs : list ECHOgranule) : bool :=
  existsb (fun g => downloadStatus g <? 0) gs.

End DownloadSpec.

Section UpdateSpec2.
Import Sys.

(** No insert of the events failed. *)
Definition no_failed_insert (t : list event) : Prop :=
  forall q, DbInsert q false ∉ t.

End UpdateSpec2.

Section SavedDownloadSpec.
Import Sys Catalog Xml Host PendingSave.
Variable env : Env.

(** A granule is saved as a pending download. *)
Definition failing (g : ECHOgranule) : bool := downloadStatus g <? 0.

(** A granule with polygon points. *)
Definition with_polygon (g : ECHOgranule) : Prop :=
  HasPolyPoints g <> 0 /\ polyPoints g <> [].

(** The first access URL of a granule. *)
Definition first_url (g : ECHOgranule) : option string :=
  match accessURLs g with
  | (u, _) :: _ => u
  | [] => None
  end.

(** What [savePending] writes for a granule with a bounding rectangle and
    for a collection of such granules. *)
Definition saved_granule (g : ECHOgranule) : element :=
  Elem "granule" [] None
    [leaf "granID" (egid g);
     leaf "dwnldtrys" (Some (Py.str_int (numDloadTrys g)));
     leaf "dwnldstat" (Some (Py.str_int (downloadStatus g)));
     leaf "granuleUR" (granuleUR g);
     leaf "sizeMB" (Some (str_float env (granuleSizeMB g)));
     leaf "begDateTime" (g_begDateTime g);
     leaf "endDateTime" (g_endDateTime g);
     Elem "spatial" [] None
       [leaf "w_bound" (Some (str_float env (g_w_bound g)));
        leaf "s_bound" (Some (str_float env (g_s_bound g)));
        leaf "e_bound" (Some (str_float env (g_e_bound g)));
        leaf "n_bound" (Some (str_float env (g_n_bound g)))];
     leaf "accessURL" (first_url g);
     leaf "localFileName" (localFileName g)].

Definition saved_collection (c : ECHOcollection) : element :=
  Elem "collection" [] None
    [leaf "collID" (collID c);
     leaf "shortName" (shortName c);
     leaf "archCenter" (archCenter c);
     leaf "collDesc" (collDesc c);
     leaf "begDateTime" (begDateTime c);
     leaf "endDateTime" (endDateTime c);
     leaf "doi" (doi c);
     Elem "granules" [] None
       (map saved_granule (List.filter failing (granContainer c)))].

(** The document of the failed downloads of a working set. *)
Definition saved_downloads (cs : list ECHOcollection) : element :=
  Elem "data" [] None (map saved_collection (List.filter haveFailedDwnlds cs)).

(** What [loadPendDwnld] makes of a saved granule and of a saved
    collection in a later run, where [rt x] is [float(str(x))]: the texts
    come back (an empty text as None), the numbers come back through
    [str] and [float], the try count is two more, the first access URL is
    the only one, and flags, status and granule count start afresh. *)
Definition restored_granule (rt : float -> float) (g : ECHOgranule) : ECHOgranule :=
  ECHOgranule_init (blank (egid g)) (blank (granuleUR g)) (rt (granuleSizeMB g))
    (blank (g_begDateTime g)) (blank (g_endDateTime g)) 0 []
    (rt (g_w_bound g)) (rt (g_s_bound g)) (rt (g_e_bound g)) (rt (g_n_bound g))
    [(blank (first_url g), Some "NoMimeType")]
    (blank (localFileName g)) (numDloadTrys g + 2).

Definition restored_collection (rt : float -> float) (c : ECHOcollection)
    : ECHOcollection :=
  setGranContainer
    (map (restored_granule rt) (List.filter failing (granContainer c)))
    (ECHOcollection_init (blank (collID c)) (blank (shortName c))
       (blank (archCenter c)) (blank (collDesc c)) (blank (begDateTime c))
       (blank (endDateTime c)) (blank (doi c))).

(** The failed downloads can be written and read back one by one: no
    granule to save has polygon points, each has an access URL, and the
    ids are distinct as they are read back. *)
Definition savable_granule (g : ECHOgranule) : Prop :=
  HasPolyPoints g = 0 /\ accessURLs g <> [].

Definition savable_collection (c : ECHOcollection) : Prop :=
  Forall savable_granule (List.filter failing (granContainer c))
  /\ NoDup (map (fun g => blank (egid g)) (List.filter failing (granContainer c))).

Definition savable (cs : list ECHOcollection) : Prop :=
  Forall savable_collection (List.filter haveFailedDwnlds cs)
  /\ NoDup (map (fun c => blank (collID c)) (List.filter haveFailedDwnlds cs)).

End SavedDownloadSpec.

Section SavedTxSpec.
Import Sys Catalog Xml Host PendingTxSave.
Variable env : Env.

(** The transactions [savePendTx] captures, per kind, in the order of the
    working set. *)
Definition pending_C (cs : list ECHOcollection) : list element :=
  map Celement (List.filter dbInsertFailed cs).

Definition pending_G (cs : list ECHOcollection) : list element :=
  flat_map (fun c => map (fun g => Gelement env g (collID c))
                         (List.filter g_dbInsertFailed (granContainer c))) cs.

Definition pending_P (cs : list ECHOcollection) : list element :=
  flat_map (fun c =>
    flat_map (fun g => map (fun p => Pelement env p (egid g))
                           (List.filter p_dbInsertFailed (polyPoints g)))
             (granContainer c)) cs.

(** A root with more children after its own. *)
Definition add_children (r : element) (l : list element) : element :=
  Elem (tag r) (attrib r) (text r) (children r ++ l).

(** What the file of a queue is after [savePendTx] when it was absent
    before: still absent for an empty queue, else the document of the
    queue as a parser reads it back. *)
Definition queue_file (txs : list element) : option node :=
  match txs with
  | [] => None
  | _ :: _ => Some (File (XmlDoc (reparsed (Elem "data" [] None txs))))
  end.

End SavedTxSpec.

End Spec2.

Module Examples8.
Import Xml Sys Catalog Host.
Import Examples2.

(** A host on which every call succeeds; 2000 blocks of 1 MB are free. *)
Definition calm_host : Host :=
  {| os_open_a_ok := fun _ _ => true;
     os_write_ok := fun _ _ => true;
     os_statvfs := fun _ => Some (2000, 1048576);
     tostring := fun _ => "<data/>";
     bytes_then := fun _ => Bytes |}.

(** A request file that needs no database, and a world that holds it and
    the data directory. *)
Definition request_file : element :=
  Elem "data" [("useDB", "False"); ("dataRoot", "/data")] None
    [Examples.dataset Examples.complete_criteria].

Definition world_with_request : World :=
  world_of {[ "request.xml" := File (XmlDoc request_file);
              "/data" := Dir true ]}.

(** The request object before validation, with the limits of the command
    line. *)
Definition unvalidated : ECHOrequest :=
  {| maxDataFiles := 1000; dwnloadLimit := 3072; directoryRoot := "";
     availDiskSpaceMB := fzero; dataSetQueries := []; numDatasetQueries := 0;
     numCollections := 0; pdlfile := "pendingDwnld.xml";
     dbFlag := ""; collContainer := [] |}.

(** A granule transaction without the element of the collection id, and a
    granule file that holds it after a complete one. *)
Definition granule_tx_without_collection : element :=
  Elem "granule" [] None [leaf "granID" "G2"].

Definition world_malformed_queue : World :=
  world_of {[ "_ptxG.xml" :=
                File (XmlDoc (Examples5.tx_doc
                                [Examples5.granule_tx "G1";
                                 granule_tx_without_collection])) ]}.

(** The granule file [savePendTx] leaves for a granule that was never
    planned for download: its local file name is the empty string. *)
Definition unplanned_tx : element :=
  reparsed (PendingTxSave.Gelement calm_env (fresh_granule "G1") (Some "C1")).

Definition world_unplanned_queue : World :=
  world_of {[ "_ptxG.xml" := File (XmlDoc (Examples5.tx_doc [unplanned_tx])) ]}.

(** A working set in which every insert failed. *)
Definition refused_set : ECHOrequest :=
  request_of
    [setInsertFailed true
       (setGranContainer
          (map Db.taint_granule (granContainer Examples4.collection_with_polygon))
          Examples4.collection_with_polygon)] fzero 3072.

(** The downloader before the first granule is planned. *)
Definition new_downloader : Downloader.ECHOdownloader :=
  {| Downloader.rootDir := "/data"; Downloader.granuleQueue := [];
     Downloader.granuleStatus := ∅; Downloader.collPath := None |}.

(** The working set after the transfers, with the collection flagged:
    the transfer of G2 failed. *)
Definition failed_set : ECHOrequest :=
  request_of
    [setFailedStatus true
       (collection_C1 [Examples3.transferred "G1" 1 Examples3.file_a;
                       Examples3.transferred "G2" (-1) Examples3.file_b])]
    fzero 3072.

(** The same when the granule that failed has a polygon. *)
Definition failed_polygon_granule : ECHOgranule :=
  setDownloadStatus (-1) (Examples4.polygon_granule "G1").

Definition failed_polygon_set : ECHOrequest :=
  request_of [setFailedStatus true (collection_C1 [failed_polygon_granule])]
    fzero 3072.

End Examples8.

(** * Properties *)

(** ** QueryBuilder: the recurring day-of-year window *)

Section RecurringWindow.
Import QueryBuilder Spec.
Open Scope Z_scope.









(** *** The recurring branch of the loader *)









End RecurringWindow.

Section RecurringWindowInstances.
Import QueryBuilder Spec.


Example recurring_window_2019_2020 :
  recurring_window 2019 2020 3 1 6 30 = Py.Ret (60, 182).
Proof. reflexivity. Qed.


(** On a complete request the window reaches the query string. *)
Example load_complete_request :
  loadDataSetQueries Examples.request_complete
  = Go [ {| snStr := "?shortName=MOD04";
            vStr := "&version=1";
            bbStr := "&bounding_box=-10,-10,10,10";
            tStr := "&temporal=2019-01-01T00:00:00,2020-12-31T23:59:59,60,182";
            w_bound := "-10"; s_bound := "-10"; e_bound := "10"; n_bound := "10" |} ].
Proof. vm_compute. reflexivity. Qed.

(** C10.  There are requests with a recurring criteria that has a [year]
    element and no [end] element, or an [end] element without attributes,
    for which loading does not return a validation failure: the month
    comparison of line 326 reads [mon_end], which is unbound (the load
    raises UnboundLocalError), empty (the load raises ValueError), or left
    over from the previous dataset (the load reports that the start month
    is past the end month, which the dataset never gave). *)
Theorem missing_end_element_not_validated :
  (Xml.find (Examples.criteria_without_end "3") "year" <> None
   /\ Xml.find (Examples.criteria_without_end "3") "end" = None
   /\ loadDataSetQueries Examples.request_without_end = Throw Py.UnboundLocalError)
  /\ (Xml.find Examples.criteria_with_empty_end "year" <> None
      /\ (exists e, Xml.find Examples.criteria_with_empty_end "end" = Some e
                    /\ Xml.attrib e = [])
      /\ loadDataSetQueries Examples.request_with_empty_end = Throw Py.ValueError)
  /\ (Xml.find (Examples.criteria_without_end "9") "year" <> None
      /\ Xml.find (Examples.criteria_without_end "9") "end" = None
      /\ loadDataSetQueries Examples.request_with_stale_end = ReturnFalse MSG_MONTHS).
Proof.
  repeat split; try discriminate; try (vm_compute; reflexivity).
  eexists. split; reflexivity.
Qed.

End RecurringWindowInstances.

(** ** PendingDownloadStore: the try count of a merged granule *)

Section PendingMerge.
Import Sys Catalog PendingDownload.

(** What [read_granule] stores as try count is the stored count plus 2:
    [numDwnldTrys] is the stored count plus 1 (line 561), and both branches
    of the merge pass [numDwnldTrys + 1] (lines 596 and 601). *)
Lemma read_granule_try_count env g gid gran n t :
  child_text g "dwnldtrys" = Py.Ret t ->
  Py.int_of t = Py.Ret n ->
  read_granule env g = Py.Ret (gid, gran) ->
  numDloadTrys gran = n + 2.
Proof.
  intros Ht Hn. unfold read_granule.
  destruct (child_text g "granID") as [gid'|]; [simpl|discriminate].
  rewrite Ht. simpl. rewrite Hn. simpl.
  repeat match goal with
  | |- context [Py.bind ?r _] =>
      destruct r as [?|?] eqn:?; simpl; [|discriminate]
  | |- context [match Xml.find ?e ?t with _ => _ end] =>
      destruct (Xml.find e t); simpl
  | |- context [let '(_, _) := ?p in _] => destruct p; simpl
  end.
  all: try discriminate.
  all: intros [= <- <-]; simpl; lia.
Qed.

(** C2 (the code differs).  A pending record that stores try count 1 for
    G1, which is already in the working set, and for G2, which is new:
    after the merge there is one G1 and one G2, and both carry try count 3,
    not 2. *)
Theorem merge_adds_two_to_try_count :
  exists ero' w',
    loadPendDwnld Examples2.calm_env Examples2.working_set
                  Examples2.world_with_pending
    = (Py.Ret ero', w')
    /\ Examples2.try_counts Examples2.working_set = [[(Some "G1", 1)]]
    /\ Examples2.try_counts ero' = [[(Some "G1", 3); (Some "G2", 3)]].
Proof.
  eexists _, _. split; [vm_compute; reflexivity|]. split; reflexivity.
Qed.

End PendingMerge.

(** ** The feasibility check [downloadOk] *)

Section Feasibility.
Import Sys Catalog Downloader Spec.

Lemma getitem_drop {A} (l : list A) (k : nat) (x : A) (rest : list A) :
  drop k l = x :: rest -> Py.getitem l (Z.of_nat k) = Py.Ret x.
Proof.
  intros Hd. unfold Py.getitem.
  assert (Hk : l !! k = Some x).
  { rewrite <- (Nat.add_0_r k), <- lookup_drop, Hd. done. }
  pose proof (lookup_lt_Some _ _ _ Hk) as Hlt.
  replace (Z.of_nat k <? 0) with false by lia.
  replace ((Z.of_nat k <? 0) || (Z.of_nat (length l) <=? Z.of_nat k)) with false.
  2:{ symmetry. apply orb_false_intro; lia. }
  rewrite Nat2Z.id, Hk. done.
Qed.

Lemma totals_drop cs k n x :
  (k <= length cs)%nat ->
  totals cs (seqZ (Z.of_nat k) (Z.of_nat (length cs - k))) n x
  = Py.Ret (fold_left (fun acc c => acc + numGranules c) (drop k cs) n,
            fold_left (fun acc c => fadd acc (getCollSizeMB c)) (drop k cs) x).
Proof.
  remember (length cs - k)%nat as m eqn:Hm.
  revert k n x Hm. induction m as [|m IH]; intros k n x Hm Hk.
  - rewrite drop_ge by lia. done.
  - destruct (drop k cs) as [|c rest] eqn:Hd.
    { apply (f_equal length) in Hd. rewrite length_drop in Hd. simpl in Hd. lia. }
    replace (Z.of_nat (S m)) with (Z.succ (Z.of_nat m)) by lia.
    rewrite seqZ_cons by lia. simpl.
    rewrite (getitem_drop _ _ _ _ Hd). simpl.
    replace (Z.succ (Z.of_nat k)) with (Z.of_nat (S k)) by lia.
    replace (Z.pred (Z.succ (Z.of_nat m))) with (Z.of_nat m) by lia.
    rewrite IH by lia.
    assert (Hd' : drop (S k) cs = rest).
    { replace (S k) with (k + 1)%nat by lia. by rewrite <- drop_drop, Hd. }
    by rewrite Hd'.
Qed.

Lemma totals_all ero :
  numCollections ero = Z.of_nat (length (collContainer ero)) ->
  totals (collContainer ero) (Py.range 0 (numCollections ero)) 0 fzero
  = Py.Ret (total_granules (collContainer ero), total_size (collContainer ero)).
Proof.
  intros ->. unfold Py.range.
  pose proof (totals_drop (collContainer ero) 0 0 fzero) as H.
  rewrite Nat.sub_0_r in H. simpl in H.
  rewrite Z.sub_0_r. apply H. lia.
Qed.

(** Comparisons with zero only look at the sign. *)
Lemma positive_above a x :
  fleb fzero a = true -> fltb a x = true -> fleb x fzero = false /\ fleb a x = true.
Proof.
  unfold fleb, fltb, SFleb, SFltb, fzero.
  destruct a as [sa|sa| |sa ma ea], x as [sx|sx| |sx mx ex]; simpl;
    try destruct sa; try destruct sx; simpl; try discriminate; auto.
  all: intros _; destruct (ea ?= ex); try discriminate; auto;
       destruct (Pos.compare_cont Eq ma mx); try discriminate; auto.
Qed.

(** Every accepted download limit converts to a positive float. *)
Lemma limit_positive_table :
  forallb (fun n => positive_float (float_of_int n)) (seqZ 1 5120) = true.
Proof. vm_compute. reflexivity. Qed.

Lemma limit_positive n :
  Main.valid_download_limit n = true -> positive_float (float_of_int n) = true.
Proof.
  unfold Main.valid_download_limit. intros Hv.
  apply negb_true_iff, orb_false_elim in Hv as [H1 H2].
  pose proof limit_positive_table as Ht.
  rewrite forallb_forall in Ht. apply Ht.
  apply list_elem_of_In, elem_of_seqZ. lia.
Qed.

Lemma above_positive a x :
  positive_float a = true -> fltb a x = true -> fleb x fzero = false.
Proof.
  unfold fleb, fltb, SFleb, SFltb, fzero, positive_float.
  destruct a as [sa|sa| |sa ma ea]; try discriminate.
  destruct sa; try discriminate. intros _.
  destruct x as [sx|sx| |sx mx ex]; simpl; try destruct sx; simpl;
    try discriminate; auto.
Qed.

(** C4.  With a non-negative available space and an accepted download
    limit, and [numCollections] counting the collections: when the total
    requested size exceeds the available space or the download limit,
    [downloadOk] returns [False], the downloader's constructor raises
    SystemExit, and the download stage ends there without any action on
    the file system, the database or the network; when the total is at
    most 0, [downloadOk] writes its warning and returns [True]. *)
Theorem downloadOk_rejects_and_accepts env ero w fuel :
  numCollections ero = Z.of_nat (length (collContainer ero)) ->
  fleb fzero (availDiskSpaceMB ero) = true ->
  Main.valid_download_limit (dwnloadLimit ero) = true ->
  let total := total_size (collContainer ero) in
  (fltb (availDiskSpaceMB ero) total = true
   \/ fltb (float_of_int (dwnloadLimit ero)) total = true ->
   exists w',
     downloadOk env ero w = (Py.Ret false, w')
     /\ Main.download_stage env fuel ero w = (Py.Raise Py.SystemExit, w')
     /\ fs w' = fs w /\ trace w' = trace w)
  /\ (fleb total fzero = true ->
      exists w',
        downloadOk env ero w = (Py.Ret true, w')
        /\ "\t****WARNING: Total data Size (MB) <= 0.0 (Granule XML issue)\n" ∈ log w'
        /\ fs w' = fs w /\ trace w' = trace w).
Proof.
  intros Hn Havail Hlimit total.
  assert (Hstage : forall w',
    downloadOk env ero w = (Py.Ret false, w') ->
    Main.download_stage env fuel ero w = (Py.Raise Py.SystemExit, w')).
  { intros w' Hok. unfold Main.download_stage, ECHOdownloader_init, mbind.
    rewrite Hok. reflexivity. }
  unfold downloadOk. rewrite (totals_all _ Hn). fold total. split.
  - intros Hexceeds.
    assert (Hpos : fleb total fzero = false).
    { destruct Hexceeds as [H|H].
      - by apply (positive_above _ _ Havail).
      - by apply (above_positive _ _ (limit_positive _ Hlimit)). }
    cbv [mbind pure write ret]. simpl. rewrite Hpos.
    destruct (fleb (availDiskSpaceMB ero) total) eqn:Hspace.
    + eexists. split; [reflexivity|]. split; [|split; reflexivity].
      apply Hstage. unfold downloadOk. rewrite (totals_all _ Hn). fold total.
      cbv [mbind pure write ret]. simpl. rewrite Hpos, Hspace. reflexivity.
    + destruct Hexceeds as [H|H].
      { apply (positive_above _ _ Havail) in H as [_ H]. congruence. }
      rewrite H.
      eexists. split; [reflexivity|]. split; [|split; reflexivity].
      apply Hstage. unfold downloadOk. rewrite (totals_all _ Hn). fold total.
      cbv [mbind pure write ret]. simpl. rewrite Hpos, Hspace, H. reflexivity.
  - intros Hle. cbv [mbind pure write ret]. simpl. rewrite Hle.
    eexists. split; [reflexivity|]. simpl. split; [|split; reflexivity].
    rewrite !elem_of_app. left. right. left.
Qed.

(** Instance of [downloadOk_rejects_and_accepts]: 150 MB requested with
    100 MB available is rejected; a request without size metadata is
    accepted. *)
Lemma downloadOk_rejects_and_accepts_witness :
  (exists w',
     downloadOk Examples2.calm_env Examples2.request_150MB (Examples2.world_of ∅)
     = (Py.Ret false, w')
     /\ Main.download_stage Examples2.calm_env 0 Examples2.request_150MB
          (Examples2.world_of ∅)
        = (Py.Raise Py.SystemExit, w')
     /\ fs w' = ∅ /\ trace w' = [])
  /\ (exists w',
        downloadOk Examples2.calm_env Examples2.request_unknown_size
                   (Examples2.world_of ∅)
        = (Py.Ret true, w')
        /\ "\t****WARNING: Total data Size (MB) <= 0.0 (Granule XML issue)\n" ∈ log w'
        /\ fs w' = ∅ /\ trace w' = []).
Proof.
  split.
  - apply (proj1 (downloadOk_rejects_and_accepts Examples2.calm_env
                    Examples2.request_150MB (Examples2.world_of ∅) 0%nat
                    eq_refl eq_refl eq_refl)).
    left. vm_compute. reflexivity.
  - apply (proj2 (downloadOk_rejects_and_accepts Examples2.calm_env
                    Examples2.request_unknown_size (Examples2.world_of ∅) 0%nat
                    eq_refl eq_refl eq_refl)).
    vm_compute. reflexivity.
Defined.

Example total_of_request_150MB :
  total_size (collContainer Examples2.request_150MB) = float_of_int 150.
Proof. vm_compute. reflexivity. Qed.

End Feasibility.

(** ** The sweep of failed downloads: [cleanup] *)

Section Sweep.
Import Sys Catalog Downloader Spec.
Variable env : Env.

Lemma cleanup_granule_swept g w :
  (downloadStatus g = -1 -> is_Some (localFileName g)) ->
  exists w', cleanup_granule env g w = (Py.Ret tt, w') /\ swept [g] w w'.
Proof.
  intros Hname. unfold cleanup_granule.
  destruct (downloadStatus g =? -1) eqn:Hst.
  2:{ exists w. split; [done|]. exists [], []. rewrite !app_nil_r.
      repeat split; auto.
      intros g' p Hg' [Hf _]. apply list_elem_of_singleton in Hg' as ->. lia. }
  apply Z.eqb_eq in Hst. destruct (Hname Hst) as [p Hp].
  rewrite Hp. cbv [mbind pure Py.str_of Os.access_F get_fs ret].
  destruct (bool_decide (is_Some (fs w !! p))) eqn:Hthere.
  2:{ exists w. split; [done|]. exists [], []. rewrite !app_nil_r.
      repeat split; auto.
      intros g' q Hg' [_ Hq] Hsome. apply list_elem_of_singleton in Hg' as ->.
      rewrite Hp in Hq. injection Hq as <-.
      apply bool_decide_eq_false in Hthere. done. }
  cbv [Os.remove mbind get_trace get_fs emit set_fs ret write]. simpl.
  rewrite Hthere, andb_true_r.
  destruct (os_remove_ok env (trace w) p) eqn:Hok; simpl.
  - eexists. split; [reflexivity|]. eexists _, _. simpl.
    split; [by rewrite <- app_assoc|]. split; [done|]. split.
    + intros g' q Hg' [_ Hq] _. apply list_elem_of_singleton in Hg' as ->.
      rewrite Hp in Hq. injection Hq as <-. left. apply lookup_delete_eq.
    + intros q. destruct (decide (q = p)) as [->|Hne].
      * right. split; [apply lookup_delete_eq|].
        exists g. split; [by left|done].
      * left. by apply lookup_delete_ne.
  - eexists. split; [reflexivity|]. eexists _, _. simpl.
    split; [by rewrite <- app_assoc|]. split; [done|]. split.
    + intros g' q Hg' [_ Hq] _. apply list_elem_of_singleton in Hg' as ->.
      rewrite Hp in Hq. injection Hq as <-. right. split.
      * by left.
      * right. by left.
    + intros q. by left.
Qed.

Lemma swept_trans gs1 gs2 w w1 w2 :
  swept gs1 w w1 -> swept gs2 w1 w2 -> swept (gs1 ++ gs2) w w2.
Proof.
  intros (l1 & t1 & Hl1 & Ht1 & Hdel1 & Hfr1) (l2 & t2 & Hl2 & Ht2 & Hdel2 & Hfr2).
  exists (l1 ++ l2)%list, (t1 ++ t2)%list.
  split; [by rewrite Hl2, Hl1, app_assoc|].
  split; [by rewrite Ht2, Ht1, app_assoc|]. split.
  - intros g p Hg Hf Hsome. apply elem_of_app in Hg as [Hg|Hg].
    + destruct (Hdel1 g p Hg Hf Hsome) as [Hgone|[Hev Hw]].
      * left. destruct (Hfr2 p) as [Heq|[Hn _]]; [by rewrite Heq|done].
      * right. split; apply elem_of_app; by left.
    + destruct (Hfr1 p) as [Heq|[Hn _]].
      * rewrite <- Heq in Hsome.
        destruct (Hdel2 g p Hg Hf Hsome) as [Hgone|[Hev Hw]]; [by left|].
        right. split; apply elem_of_app; by right.
      * left. destruct (Hfr2 p) as [Heq|[Hn' _]]; [by rewrite Heq|done].
  - intros q. destruct (Hfr2 q) as [Heq2|[Hn2 (g & Hg & Hf)]].
    + destruct (Hfr1 q) as [Heq1|[Hn1 (g & Hg & Hf)]].
      * left. by rewrite Heq2.
      * right. split; [by rewrite Heq2|]. exists g. split; [|done].
        apply elem_of_app. by left.
    + right. split; [done|]. exists g. split; [|done].
      apply elem_of_app. by right.
Qed.

Lemma swept_nil w : swept [] w w.
Proof.
  exists [], []. rewrite !app_nil_r. repeat split; auto.
  intros g p Hg. by apply elem_of_nil in Hg.
Qed.

Lemma cleanup_granules_swept gs w :
  (forall g, g ∈ gs -> downloadStatus g = -1 -> is_Some (localFileName g)) ->
  exists w', cleanup_granules env gs w = (Py.Ret tt, w') /\ swept gs w w'.
Proof.
  revert w. induction gs as [|g gs IH]; intros w Hnames; simpl.
  - exists w. split; [done|apply swept_nil].
  - destruct (cleanup_granule_swept g w) as (w1 & Hrun1 & Hsw1).
    { apply Hnames. by left. }
    destruct (IH w1) as (w2 & Hrun2 & Hsw2).
    { intros g' Hg'. apply Hnames. by right. }
    exists w2. unfold mbind. rewrite Hrun1. split; [done|].
    apply (swept_trans [g] gs _ _ _ Hsw1 Hsw2).
Qed.

Lemma cleanup_collections_swept cs w :
  (forall c g, c ∈ cs -> g ∈ granContainer c ->
     downloadStatus g = -1 -> is_Some (localFileName g)) ->
  exists w', cleanup_collections env cs w = (Py.Ret tt, w')
             /\ swept (concat (map granContainer cs)) w w'.
Proof.
  revert w. induction cs as [|c cs IH]; intros w Hnames; simpl.
  - exists w. split; [done|apply swept_nil].
  - destruct (cleanup_granules_swept (granContainer c) w) as (w1 & Hrun1 & Hsw1).
    { intros g. apply Hnames. by left. }
    destruct (IH w1) as (w2 & Hrun2 & Hsw2).
    { intros c' g' Hc'. apply Hnames. by right. }
    exists w2. unfold mbind. rewrite Hrun1. split; [done|].
    apply (swept_trans _ _ _ _ _ Hsw1 Hsw2).
Qed.

Lemma elem_of_granules_of ero g :
  g ∈ granules_of ero <-> exists c, c ∈ collContainer ero /\ g ∈ granContainer c.
Proof.
  unfold granules_of. rewrite list_elem_of_In, in_concat. split.
  - intros (gs & Hgs & Hg). apply in_map_iff in Hgs as (c & <- & Hc).
    exists c. by rewrite !list_elem_of_In.
  - intros (c & Hc & Hg). exists (granContainer c).
    rewrite !list_elem_of_In in *. split; [|done]. by apply in_map.
Qed.

(** C9 (amended).  When every granule with status -1 has a local file name
    (the planning step gave it one), [cleanup] returns and: the local file
    of every granule with status -1 that existed is gone, or its failed
    removal is in the trace and in the log; every path that is not the
    local file of a granule with status -1 is left as it was, and so is
    the local file of every granule with status 1 unless the same path is
    also the local file of a granule with status -1. *)
Theorem cleanup_sweeps_failed_only ero w :
  (forall g, g ∈ granules_of ero -> downloadStatus g = -1 ->
             is_Some (localFileName g)) ->
  exists w' t l,
    cleanup env ero w = (Py.Ret tt, w')
    /\ trace w' = (trace w ++ t)%list
    /\ log w' = (log w ++ l)%list
    /\ (forall g p, g ∈ granules_of ero -> downloadStatus g = -1 ->
          localFileName g = Some p -> is_Some (fs w !! p) ->
          fs w' !! p = None
          \/ (FsRemove p false ∈ t /\ warn_not_removed p ∈ l))
    /\ (forall q, (forall g, g ∈ granules_of ero -> downloadStatus g = -1 ->
                     localFileName g <> Some q) ->
          fs w' !! q = fs w !! q)
    /\ (forall g q, g ∈ granules_of ero -> downloadStatus g = 1 ->
          localFileName g = Some q ->
          (forall g', g' ∈ granules_of ero -> downloadStatus g' = -1 ->
                      localFileName g' <> Some q) ->
          fs w' !! q = fs w !! q).
Proof.
  intros Hnames. unfold cleanup, mbind, write.
  set (w0 := {| log := (log w ++ ["ECHOdownloader::cleanup\n"])%list;
                trace := trace w; fs := fs w |}).
  destruct (cleanup_collections_swept (collContainer ero) w0)
    as (w' & Hrun & l & t & Hl & Ht & Hdel & Hfr).
  { intros c g Hc Hg. apply Hnames, elem_of_granules_of. by exists c. }
  exists w', t, ("ECHOdownloader::cleanup\n" :: l). rewrite Hrun.
  split; [done|]. split; [done|].
  split; [rewrite Hl; simpl; by rewrite <- app_assoc|].
  assert (Hframe : forall q,
    (forall g, g ∈ granules_of ero -> downloadStatus g = -1 ->
               localFileName g <> Some q) ->
    fs w' !! q = fs w !! q).
  { intros q Hnone. destruct (Hfr q) as [Heq|[_ (g & Hg & Hst & Hq)]]; [done|].
    by destruct (Hnone g Hg Hst). }
  split; [|split].
  - intros g p Hg Hst Hp Hsome.
    destruct (Hdel g p Hg (conj Hst Hp) Hsome) as [Hgone|[Hev Hw]]; [by left|].
    right. split; [done|by right].
  - exact Hframe.
  - intros g q _ _ _. apply Hframe.
Qed.

End Sweep.

Section SweepInstances.
Import Sys Catalog Downloader Spec.
Import Examples2 Examples3.

(** Instance of [cleanup_sweeps_failed_only]: G1 fetched into [file_a], G2
    failed into [file_b]. *)
Lemma cleanup_sweeps_failed_only_witness :
  exists w' t l,
    cleanup calm_env after_transfers world_with_files = (Py.Ret tt, w')
    /\ trace w' = (trace world_with_files ++ t)%list
    /\ log w' = (log world_with_files ++ l)%list
    /\ (forall g p, g ∈ granules_of after_transfers -> downloadStatus g = -1 ->
          localFileName g = Some p -> is_Some (fs world_with_files !! p) ->
          fs w' !! p = None
          \/ (FsRemove p false ∈ t /\ warn_not_removed p ∈ l))
    /\ (forall q, (forall g, g ∈ granules_of after_transfers ->
                     downloadStatus g = -1 -> localFileName g <> Some q) ->
          fs w' !! q = fs world_with_files !! q)
    /\ (forall g q, g ∈ granules_of after_transfers -> downloadStatus g = 1 ->
          localFileName g = Some q ->
          (forall g', g' ∈ granules_of after_transfers -> downloadStatus g' = -1 ->
                      localFileName g' <> Some q) ->
          fs w' !! q = fs world_with_files !! q).
Proof.
  apply (cleanup_sweeps_failed_only calm_env after_transfers world_with_files).
  intros g Hg _. apply list_elem_of_In in Hg. simpl in Hg.
  destruct Hg as [<-|[<-|[]]]; eexists; reflexivity.
Defined.

Example cleanup_after_transfers :
  exists w',
    cleanup calm_env after_transfers world_with_files = (Py.Ret tt, w')
    /\ fs w' !! file_a = Some (File Bytes)
    /\ fs w' !! file_b = None.
Proof. eexists. split; [vm_compute; reflexivity|]. split; reflexivity. Qed.

(** The specification has the local file of every granule with status 1
    left untouched.  When a granule with status -1 has the same local file,
    the sweep removes it. *)
Lemma cleanup_removes_shared_file :
  exists g w',
    g ∈ granules_of after_transfers_shared
    /\ downloadStatus g = 1
    /\ localFileName g = Some file_a
    /\ fs world_with_files !! file_a = Some (File Bytes)
    /\ cleanup calm_env after_transfers_shared world_with_files = (Py.Ret tt, w')
    /\ fs w' !! file_a = None.
Proof.
  exists (transferred "G1" 1 file_a). eexists.
  split; [left|]. split; [reflexivity|]. split; [reflexivity|].
  split; [reflexivity|]. split; [vm_compute; reflexivity|]. reflexivity.
Qed.

End SweepInstances.

(** ** PersistenceGateway: a failed collection insert *)

Section UpdateCascade.
Import Sys Catalog Db Spec.
Variable env : Env.

(** The pass over [pre ++ c :: post] is the pass over [pre], then the
    iteration for [c], then the pass over [post]. *)
Lemma update_collections_app pre c post w :
  update_collections env (pre ++ c :: post) w
  = mbind (update_collections env pre) (fun pre' =>
      mbind (update_collection env c) (fun c' =>
        mbind (update_collections env post) (fun post' =>
          ret (pre' ++ c' :: post')%list))) w.
Proof.
  revert w. induction pre as [|a pre IH]; intros w; simpl.
  - cbv [mbind ret].
    destruct (update_collection env c w) as [[c'|e] w1]; [|done].
    destruct (update_collections env post w1) as [[post'|e] w2]; done.
  - cbv [mbind ret].
    destruct (update_collection env a w) as [[a'|e] w1]; [|done].
    rewrite IH. cbv [mbind ret].
    destruct (update_collections env pre w1) as [[pre'|e] w2]; [|done].
    destruct (update_collection env c w2) as [[c'|e] w3]; [|done].
    destruct (update_collections env post w3) as [[post'|e] w4]; done.
Qed.

(** The cascade of lines 1750-1755, told without the functions of the
    model: every granule comes back flagged with its data, and every
    polygon point it owns comes back flagged. *)
Lemma taint_granule_flagged g : flagged_granule g (taint_granule g).
Proof.
  unfold flagged_granule. repeat (split; [reflexivity|]). simpl.
  apply Forall2_fmap_r, Forall_Forall2_diag, Forall_forall.
  intros p _. by repeat split.
Qed.

Lemma cascade_cascaded c :
  cascaded c (setGranContainer (map taint_granule (granContainer c))
                (setInsertFailed true c)).
Proof.
  unfold cascaded. repeat (split; [reflexivity|]). simpl.
  apply Forall2_fmap_r, Forall_Forall2_diag, Forall_forall.
  intros g _. apply taint_granule_flagged.
Qed.

(** C6.  When the update pass reaches a collection [c] with at least one
    granule, the store answers the select with no row (or fails on it) and
    the collection insert fails, then the iteration for [c] does exactly
    these two store operations and no other: no granule or polygon point
    of [c] is inserted.  The collection that comes out of the iteration
    is [c] with [dbInsertFailed] set; it owns the granules of [c], one for
    one and in order, each with [dbInsertFailed] set and nothing else
    changed; and each of them owns the polygon points of its granule, one
    for one and in order, each with [dbInsertFailed] set and its
    coordinates unchanged.  The pass goes on with the collections after
    [c]. *)
Theorem collection_insert_failure_cascades pre c post w pre' w1 rows sql :
  update_collections env pre w = (Py.Ret pre', w1) ->
  0 < getNumGranules c ->
  rows = db_rows env (trace w1) (select_collection c) ->
  no_rows rows = true ->
  collection_sql c = Py.Ret sql ->
  db_insert_ok env (trace w1 ++ [DbQuery (select_collection c) rows]) sql = false ->
  exists c' w2,
    update_collection env c w1 = (Py.Ret c', w2)
    /\ trace w2 = (trace w1 ++ [DbQuery (select_collection c) rows;
                                DbInsert sql false])%list
    /\ fs w2 = fs w1
    /\ cascaded c c'
    /\ update_collections env (pre ++ c :: post) w
       = (let '(r, w3) := update_collections env post w2 in
          (match r with
           | Py.Ret post' => Py.Ret (pre' ++ c' :: post')%list
           | Py.Raise e => Py.Raise e
           end, w3)).
Proof.
  intros Hpre Hn Hrows Hnone Hsql Hins.
  set (c' := setGranContainer (map taint_granule (granContainer c))
               (setInsertFailed true c)).
  assert (Hiter : exists w2,
    update_collection env c w1 = (Py.Ret c', w2)
    /\ trace w2 = (trace w1 ++ [DbQuery (select_collection c) rows;
                                DbInsert sql false])%list
    /\ fs w2 = fs w1).
  { unfold update_collection.
    replace (getNumGranules c >? 0) with true by lia.
    fold (select_collection c).
    unfold makeDBquery, collectionInsert, makeDBinsert.
    cbv [mbind get_trace emit write ret pure]. simpl.
    rewrite <- Hrows.
    destruct rows as [[|n]|]; try discriminate; simpl;
      rewrite Hsql; simpl; rewrite Hins; simpl;
      (eexists; split; [reflexivity|]; simpl; split; [|done]);
      by rewrite <- app_assoc. }
  destruct Hiter as (w2 & Hrun & Htrace & Hfs).
  exists c', w2. split; [done|]. split; [done|]. split; [done|].
  split; [apply cascade_cascaded|].
  rewrite update_collections_app. unfold mbind. rewrite Hpre, Hrun.
  destruct (update_collections env post w2) as [[post'|e] w3]; done.
Qed.

End UpdateCascade.

Section UpdateCascadeInstances.
Import Sys Catalog Db Spec.
Import Examples2 Examples4.

(** Instance of [collection_insert_failure_cascades]: a working set of one
    collection with two fetched granules, the first with a polygon of two
    points, against a store that refuses every insert. *)
Lemma collection_insert_failure_cascades_witness :
  exists c' w2,
    update_collection refusing_env collection_with_polygon (world_of ∅)
    = (Py.Ret c', w2)
    /\ trace w2
       = [DbQuery (select_collection collection_with_polygon) (Some O);
          DbInsert collection_with_polygon_sql false]
    /\ fs w2 = ∅
    /\ cascaded collection_with_polygon c'
    /\ update_collections refusing_env ([] ++ collection_with_polygon :: []) (world_of ∅)
       = (let '(r, w3) := update_collections refusing_env [] w2 in
          (match r with
           | Py.Ret post' => Py.Ret ([] ++ c' :: post')%list
           | Py.Raise e => Py.Raise e
           end, w3)).
Proof.
  apply (collection_insert_failure_cascades refusing_env
           [] collection_with_polygon [] (world_of ∅) [] (world_of ∅)
           (Some O) collection_with_polygon_sql); reflexivity.
Defined.

(** On that run the collection, both granules and both polygon points
    come back flagged, where none was flagged before. *)
Example cascade_flags_every_point :
  insert_flags collection_with_polygon = (false, [(false, [false; false]); (false, [])])
  /\ exists c' w2,
       update_collection refusing_env collection_with_polygon (world_of ∅)
       = (Py.Ret c', w2)
       /\ insert_flags c' = (true, [(true, [true; true]); (true, [])])
       /\ length (trace w2) = 2%nat.
Proof.
  split; [reflexivity|].
  eexists _, _. split; [vm_compute; reflexivity|]. split; reflexivity.
Qed.

(** Against a store that accepts every insert the same collection gets its
    granules and polygon points inserted. *)
Example update_inserts_children :
  exists ero' w',
    update calm_env (request_of [collection_with_polygon] fzero 3072) (world_of ∅)
    = (Py.Ret ero', w')
    /\ length (trace w') = 6%nat
    /\ map dbInsertFailed (collContainer ero') = [false].
Proof. eexists _, _. split; [vm_compute; reflexivity|]. split; reflexivity. Qed.

End UpdateCascadeInstances.

(** ** PendingTransactionStore: replay *)

Section ReplayLemmas.
Import Sys Xml PendingTx Spec.
Variable env : Env.

(** *** Statements and their heads *)

Lemma string_app_cons x (a b : string) :
  (String x a ++ b)%string = String x (a ++ b)%string.
Proof. reflexivity. Qed.

Lemma string_app_nil_r (a : string) : (a ++ "")%string = a.
Proof.
  induction a as [|x a IH]; [done|]. rewrite string_app_cons. by f_equal.
Qed.

Lemma string_app_assoc (a b c : string) : ((a ++ b) ++ c = a ++ (b ++ c))%string.
Proof.
  induction a as [|x a IH]; [done|]. rewrite !string_app_cons. by f_equal.
Qed.

Lemma prefix_app (a b : string) : String.prefix a (a ++ b) = true.
Proof.
  induction a as [|x a IH].
  - change ("" ++ b)%string with b. by destruct b.
  - rewrite string_app_cons. cbn [String.prefix].
    destruct (ascii_dec x x); [done|congruence].
Qed.

Lemma prefix_comparable (a b q : string) :
  String.prefix a q = true -> String.prefix b q = true ->
  String.prefix a b = true \/ String.prefix b a = true.
Proof.
  revert b q. induction a as [|x a IH]; intros b q Ha Hb.
  { left. by destruct b. }
  destruct b as [|y b]; [by right|].
  destruct q as [|z q]; [done|]. cbn [String.prefix] in *.
  destruct (ascii_dec x z) as [->|]; [|done].
  destruct (ascii_dec y z) as [->|]; [|done].
  destruct (ascii_dec z z); [|congruence]. by apply (IH b q).
Qed.

Lemma read_fields_extends transaction fields nfields n values fStr values' fStr' :
  read_fields transaction fields nfields n values fStr = Py.Ret (values', fStr') ->
  exists s, fStr' = (fStr ++ s)%string.
Proof.
  revert n values fStr. induction fields as [|f fields IH]; intros n values fStr; simpl.
  - intros [= <- <-]. exists "". by rewrite string_app_nil_r.
  - destruct (text_of (find transaction f)) as [v|]; simpl; [|done].
    intros H. apply IH in H as [s ->].
    destruct (n <? nfields - 1); eexists; rewrite !string_app_assoc; reflexivity.
Qed.

(** A statement built for transaction type [ttype] starts with the head
    of that type. *)
Lemma tx_sql_head ttype fields transaction q :
  tx_sql ttype fields transaction = Py.Ret q ->
  String.prefix (insert_head ttype) q = true.
Proof.
  unfold tx_sql.
  destruct (read_fields _ _ _ _ _ _) as [[values fStr]|] eqn:Hread; simpl; [|done].
  apply read_fields_extends in Hread as [s ->].
  destruct (write_values _ _ _ _ _) as [vStr|]; simpl; [|done].
  intros [= <-]. rewrite !string_app_assoc. apply prefix_app.
Qed.

(** *** The children of the root and their removal *)

Lemma numbered_fst cs : map fst (numbered cs) = seq 0 (length cs).
Proof.
  unfold numbered. generalize 0%nat.
  induction cs as [|c cs IH]; intros k; simpl; [done|]. by rewrite IH.
Qed.

Lemma numbered_snd cs : map snd (numbered cs) = cs.
Proof.
  unfold numbered. generalize 0%nat.
  induction cs as [|c cs IH]; intros k; simpl; [done|]. by rewrite IH.
Qed.

Lemma numbered_NoDup cs : NoDup (map fst (numbered cs)).
Proof. rewrite numbered_fst. apply NoDup_seq. Qed.

Lemma remove_child_absent t cur :
  fst t ∉ map fst cur -> remove_child t cur = cur.
Proof.
  induction cur as [|c cur IH]; simpl; intros Hnot; [done|].
  apply not_elem_of_cons in Hnot as [Hne Hnot].
  replace (fst c =? fst t)%nat with false by (symmetry; apply Nat.eqb_neq; congruence).
  simpl. by rewrite IH.
Qed.

(** Removing the first transaction left leaves the other transactions, in
    order, and keeps the positions distinct. *)
Lemma remove_child_head (P : nat * element -> bool) cur t txs :
  NoDup (map fst cur) ->
  List.filter P cur = t :: txs ->
  List.filter P (remove_child t cur) = txs
  /\ NoDup (map fst (remove_child t cur)).
Proof.
  induction cur as [|c cur IH]; simpl; intros Hnd Hf; [done|].
  apply NoDup_cons in Hnd as [Hc Hnd].
  destruct (P c) eqn:HP.
  - injection Hf as -> Hf. rewrite Nat.eqb_refl. simpl.
    rewrite remove_child_absent by done. done.
  - destruct (IH Hnd Hf) as [IH1 IH2].
    assert (Hin : t ∈ cur).
    { apply list_elem_of_In. eapply (proj1 (filter_In P t cur)).
      rewrite Hf. by left. }
    assert (Hne : fst c <> fst t).
    { intros Heq. apply Hc. rewrite Heq. by apply list_elem_of_fmap_2. }
    replace (fst c =? fst t)%nat with false by (symmetry; by apply Nat.eqb_neq).
    simpl. rewrite HP. split; [done|].
    apply NoDup_cons. split; [|done].
    intros Hc'. apply Hc. unfold remove_child in Hc'.
    apply list_elem_of_fmap in Hc' as (x & -> & Hx).
    apply list_elem_of_In, filter_In in Hx as [Hx _].
    apply list_elem_of_fmap_2. by apply list_elem_of_In.
Qed.

Lemma remove_all_filter (P : nat * element -> bool) done rest cur :
  NoDup (map fst cur) ->
  List.filter P cur = (done ++ rest)%list ->
  List.filter P (remove_all done cur) = rest.
Proof.
  revert cur. induction done as [|t done IH]; intros cur Hnd Hf; simpl; [done|].
  destruct (remove_child_head P cur t (done ++ rest) Hnd Hf) as [Hf' Hnd'].
  by apply IH.
Qed.

Lemma filter_numbered (xmltag : string) cs :
  map snd (List.filter (fun c => String.eqb (tag (snd c)) xmltag) (numbered cs))
  = List.filter (fun c => String.eqb (tag c) xmltag) cs.
Proof.
  unfold numbered. generalize 0%nat.
  induction cs as [|c cs IH]; intros k; simpl; [done|].
  destruct (String.eqb (tag c) xmltag); simpl; by rewrite IH.
Qed.

Lemma filter_map_snd (xmltag : string) (cur : list (nat * element)) :
  List.filter (fun c => String.eqb (tag c) xmltag) (map snd cur)
  = map snd (List.filter (fun c => String.eqb (tag (snd c)) xmltag) cur).
Proof.
  induction cur as [|c cur IH]; simpl; [done|].
  destruct (String.eqb (tag (snd c)) xmltag); simpl; by rewrite IH.
Qed.

(** *** Runs of inserts *)

Lemma insert_run_trace t qs t' :
  insert_run env t qs t' -> t' = (t ++ map (fun q => DbInsert q true) qs)%list.
Proof.
  induction 1 as [|t q qs t' Hok Hrun IH]; simpl; [by rewrite app_nil_r|].
  by rewrite IH, <- app_assoc.
Qed.

(** *** One iteration of the replay loop *)

Lemma replay_step_ok ttype fields tfn root tx rest cur w q :
  tx_sql ttype fields (snd tx) = Py.Ret q ->
  db_insert_ok env (trace w) q = true ->
  replay env ttype fields tfn root (tx :: rest) cur w
  = replay env ttype fields tfn root rest (remove_child tx cur)
      (mkWorld (log w ++ [q ++ "\n"]) (trace w ++ [DbInsert q true]) (fs w)).
Proof.
  intros Hq Hok. simpl. rewrite Hq.
  cbv [mbind pure write Db.makeDBinsert get_trace emit ret]. simpl.
  rewrite Hok. reflexivity.
Qed.

Lemma replay_step_fail ttype fields tfn root tx rest cur w q :
  tx_sql ttype fields (snd tx) = Py.Ret q ->
  db_insert_ok env (trace w) q = false ->
  exists l,
    replay env ttype fields tfn root (tx :: rest) cur w
    = (Py.Raise Py.SystemExit,
       let opened := os_open_w_ok env (trace w ++ [DbInsert q false]) tfn in
       mkWorld (log w ++ l)
         (trace w ++ [DbInsert q false; FsOpenW tfn opened])
         (if opened
          then <[tfn := File (XmlDoc (with_children root cur))]> (fs w)
          else fs w)).
Proof.
  intros Hq Hok. simpl. rewrite Hq.
  cbv [mbind pure write Db.makeDBinsert get_trace emit ret Os.open_w get_fs
       set_fs Os.write_xml raise]. simpl.
  rewrite Hok. simpl.
  destruct (os_open_w_ok env (trace w ++ [DbInsert q false]) tfn); simpl.
  - eexists. rewrite insert_insert_eq, <- !app_assoc. simpl. reflexivity.
  - eexists. rewrite <- !app_assoc. simpl. reflexivity.
Qed.

Lemma replay_step_raise ttype fields tfn root tx rest cur w e :
  tx_sql ttype fields (snd tx) = Py.Raise e ->
  replay env ttype fields tfn root (tx :: rest) cur w = (Py.Raise e, w).
Proof. intros Hq. simpl. rewrite Hq. reflexivity. Qed.

(** *** The whole loop *)

(** Every transaction is inserted: the loop returns, the trace holds the
    inserts and the files are as before. *)
Lemma replay_all ttype fields tfn root txs cur w qs t' :
  statements ttype fields txs qs ->
  insert_run env (trace w) qs t' ->
  exists l,
    replay env ttype fields tfn root txs cur w
    = (Py.Ret tt, mkWorld (log w ++ l) t' (fs w)).
Proof.
  intros Hst. revert cur w t'.
  induction Hst as [|tx q txs qs Hq Hst IH]; intros cur w t' Hrun.
  - inversion Hrun; subst. exists []. rewrite app_nil_r. by destruct w.
  - inversion Hrun as [|? ? ? Hok Hrun']; subst.
    rewrite (replay_step_ok _ _ _ _ _ _ _ _ _ Hq Hok).
    destruct (IH (remove_child tx cur)
                (mkWorld (log w ++ [q ++ "\n"]) (trace w ++ [DbInsert q true]) (fs w))
                t' Hrun') as [l Hl].
    rewrite Hl. simpl. eexists. by rewrite <- app_assoc.
Qed.

(** The transactions [done] are inserted and the insert of the next one
    fails: the loop exits, and when the file could be re-opened it holds
    the root without the children of [done]. *)
Lemma replay_until_failure ttype fields tfn root done bad rest cur w qs t1 q :
  statements ttype fields done qs ->
  insert_run env (trace w) qs t1 ->
  tx_sql ttype fields (snd bad) = Py.Ret q ->
  db_insert_ok env t1 q = false ->
  exists l,
    replay env ttype fields tfn root (done ++ bad :: rest) cur w
    = (Py.Raise Py.SystemExit,
       let opened := os_open_w_ok env (t1 ++ [DbInsert q false]) tfn in
       mkWorld (log w ++ l)
         (t1 ++ [DbInsert q false; FsOpenW tfn opened])
         (if opened
          then <[tfn := File (XmlDoc (with_children root (remove_all done cur)))]> (fs w)
          else fs w)).
Proof.
  intros Hst. revert cur w t1.
  induction Hst as [|tx q0 txs qs Hq0 Hst IH]; intros cur w t1 Hrun Hq Hfail.
  - inversion Hrun; subst. cbn [app remove_all fold_left].
    apply (replay_step_fail _ _ _ _ _ _ _ _ _ Hq Hfail).
  - inversion Hrun as [|? ? ? Hok Hrun']; subst. cbn [app remove_all fold_left].
    rewrite (replay_step_ok _ _ _ _ _ _ _ _ _ Hq0 Hok).
    destruct (IH (remove_child tx cur)
                (mkWorld (log w ++ [q0 ++ "\n"]) (trace w ++ [DbInsert q0 true]) (fs w))
                t1 Hrun' Hq Hfail) as [l Hl].
    rewrite Hl. simpl. eexists. by rewrite <- app_assoc.
Qed.

End ReplayLemmas.

Section ReplayFailure.
Import Sys Xml PendingTx Spec.
Variable env : Env.

Lemma map_split_at {A B} (f : A -> B) (l : list A) l1 x l2 :
  map f l = (l1 ++ x :: l2)%list ->
  exists l1' x' l2',
    l = (l1' ++ x' :: l2')%list /\ map f l1' = l1 /\ f x' = x /\ map f l2' = l2.
Proof.
  intros H. apply map_eq_app in H as (l1' & r & -> & H1 & H2).
  apply map_eq_cons in H2 as (x' & l2' & -> & Hx & H2).
  by exists l1', x', l2'.
Qed.

Lemma statements_map ttype fields (txs : list (nat * element)) qs :
  Forall2 (fun e q => tx_sql ttype fields e = Py.Ret q) (map snd txs) qs ->
  statements ttype fields txs qs.
Proof.
  revert qs. induction txs as [|tx txs IH]; intros qs H; inversion H; subst.
  - constructor.
  - constructor; [done|]. by apply IH.
Qed.

(** [processtx] on a well-formed file is the replay loop on its
    transactions. *)
Lemma processtx_unfold ttype xmltag fields tfn w root :
  tx_shape ttype = Some (xmltag, fields) ->
  fs w !! tfn = Some (File (XmlDoc root)) ->
  processtx env ttype tfn w
  = replay env ttype fields tfn root
      (List.filter (fun c => String.eqb (tag (snd c)) xmltag)
                   (numbered (children root)))
      (numbered (children root)) w.
Proof.
  intros Hshape Hfile. unfold processtx. rewrite Hshape.
  cbv [mbind Os.parse get_fs ret]. by rewrite Hfile.
Qed.

(** The replay of one file up to its first failing insert. *)
Lemma processtx_first_failure ttype xmltag fields tfn w root done bad rest qs t1 q :
  tx_shape ttype = Some (xmltag, fields) ->
  fs w !! tfn = Some (File (XmlDoc root)) ->
  findall root xmltag = (done ++ bad :: rest)%list ->
  Forall2 (fun e q => tx_sql ttype fields e = Py.Ret q) done qs ->
  insert_run env (trace w) qs t1 ->
  tx_sql ttype fields bad = Py.Ret q ->
  db_insert_ok env t1 q = false ->
  os_open_w_ok env (t1 ++ [DbInsert q false]) tfn = true ->
  exists l root',
    processtx env ttype tfn w
    = (Py.Raise Py.SystemExit,
       mkWorld (log w ++ l) (t1 ++ [DbInsert q false; FsOpenW tfn true])
               (<[tfn := File (XmlDoc root')]> (fs w)))
    /\ findall root' xmltag = bad :: rest
    /\ tag root' = tag root /\ attrib root' = attrib root.
Proof.
  intros Hshape Hfile Hsplit Hst Hrun Hq Hfail Hopen.
  rewrite (processtx_unfold _ _ _ _ _ _ Hshape Hfile).
  set (cur := numbered (children root)).
  set (P := fun c : nat * element => String.eqb (tag (snd c)) xmltag).
  assert (Hsnd : map snd (List.filter P cur) = (done ++ bad :: rest)%list).
  { unfold P, cur. by rewrite filter_numbered. }
  apply map_split_at in Hsnd as (done' & bad' & rest' & Hf & Hd & Hb & Hr).
  subst done bad rest. rewrite Hf.
  destruct (replay_until_failure env ttype fields tfn root done' bad' rest' cur w
              qs t1 q (statements_map _ _ _ _ Hst) Hrun Hq Hfail) as [l Hl].
  rewrite Hl, Hopen. exists l, (with_children root (remove_all done' cur)).
  split; [done|]. split; [|done].
  unfold findall, with_children. cbn [children]. rewrite filter_map_snd.
  fold P. rewrite (remove_all_filter P done' (bad' :: rest') cur); [done| |done].
  apply numbered_NoDup.
Qed.

(** The replay of one file whose inserts all succeed, and its removal. *)
Lemma process_kind_success what ttype xmltag fields tfn w root qs t' :
  tx_shape ttype = Some (xmltag, fields) ->
  fs w !! tfn = Some (File (XmlDoc root)) ->
  Forall2 (fun e q => tx_sql ttype fields e = Py.Ret q) (findall root xmltag) qs ->
  insert_run env (trace w) qs t' ->
  os_remove_ok env t' tfn = true ->
  exists l,
    process_kind env true what ttype tfn w
    = (Py.Ret tt, mkWorld (log w ++ l) (t' ++ [FsRemove tfn true])
                          (delete tfn (fs w))).
Proof.
  intros Hshape Hfile Hst Hrun Hrm. unfold process_kind.
  cbv [mbind write]. cbn [log trace fs].
  set (w0 := mkWorld _ _ _).
  assert (Hfile0 : fs w0 !! tfn = Some (File (XmlDoc root))) by done.
  rewrite (processtx_unfold _ _ _ _ _ _ Hshape Hfile0).
  unfold findall in Hst. rewrite <- filter_numbered in Hst.
  destruct (replay_all env ttype fields tfn root _ (numbered (children root)) w0
              qs t' (statements_map _ _ _ _ Hst) Hrun) as [l Hl].
  rewrite Hl. cbv [Os.remove mbind get_trace get_fs emit set_fs ret].
  subst w0. cbn [log trace fs].
  rewrite Hrm, bool_decide_eq_true_2 by (rewrite Hfile; eauto).
  cbv [andb negb write raise]. cbn [log trace fs].
  eexists. rewrite <- !app_assoc. reflexivity.
Qed.

(** C3.  (1) When the inserts of the first transactions of a pending file
    succeed and the next insert fails, [processtx] stops there: it writes
    back to that file the root without the children already inserted, so that
    the transactions of the new file are the failed one and the ones after
    it, in order, and it raises SystemExit; the trace ends with the failed
    insert and the re-opening of the file.  (2) In [processPending] with
    no collection file, when this happens on the granule file the run
    ends with SystemExit and its trace is that of the granule replay: the
    polygon point file is not read, no statement of it is run, and it is
    left as it was.  (3) When every insert of a file succeeds (and the file
    can be removed), the file is removed. *)
Theorem replay_stops_at_first_failure :
  (forall ttype xmltag fields tfn w root done bad rest qs t1 q,
     tx_shape ttype = Some (xmltag, fields) ->
     fs w !! tfn = Some (File (XmlDoc root)) ->
     findall root xmltag = (done ++ bad :: rest)%list ->
     Forall2 (fun e q => tx_sql ttype fields e = Py.Ret q) done qs ->
     insert_run env (trace w) qs t1 ->
     tx_sql ttype fields bad = Py.Ret q ->
     db_insert_ok env t1 q = false ->
     os_open_w_ok env (t1 ++ [DbInsert q false]) tfn = true ->
     exists w' root',
       processtx env ttype tfn w = (Py.Raise Py.SystemExit, w')
       /\ fs w' = <[tfn := File (XmlDoc root')]> (fs w)
       /\ findall root' xmltag = bad :: rest
       /\ tag root' = tag root /\ attrib root' = attrib root
       /\ trace w' = (t1 ++ [DbInsert q false; FsOpenW tfn true])%list)
  /\ (forall h w root done bad rest qs t1 q,
        processC h = false -> processG h = true ->
        fs w !! gpf h = Some (File (XmlDoc root)) ->
        findall root "granule" = (done ++ bad :: rest)%list ->
        Forall2 (fun e q => tx_sql "G" FIELDS_G e = Py.Ret q) done qs ->
        insert_run env (trace w) qs t1 ->
        tx_sql "G" FIELDS_G bad = Py.Ret q ->
        db_insert_ok env t1 q = false ->
        os_open_w_ok env (t1 ++ [DbInsert q false]) (gpf h) = true ->
        exists w' root',
          processPending env h w = (Py.Raise Py.SystemExit, w')
          /\ fs w' = <[gpf h := File (XmlDoc root')]> (fs w)
          /\ findall root' "granule" = bad :: rest
          /\ trace w'
             = (trace w ++ map (fun s => DbInsert s true) qs
                ++ [DbInsert q false; FsOpenW (gpf h) true])%list
          /\ (ppf h <> gpf h -> fs w' !! ppf h = fs w !! ppf h))
  /\ (forall what ttype xmltag fields tfn w root qs t',
        tx_shape ttype = Some (xmltag, fields) ->
        fs w !! tfn = Some (File (XmlDoc root)) ->
        Forall2 (fun e q => tx_sql ttype fields e = Py.Ret q)
                (findall root xmltag) qs ->
        insert_run env (trace w) qs t' ->
        os_remove_ok env t' tfn = true ->
        exists w',
          process_kind env true what ttype tfn w = (Py.Ret tt, w')
          /\ fs w' !! tfn = None
          /\ (forall p, p <> tfn -> fs w' !! p = fs w !! p)
          /\ trace w' = (t' ++ [FsRemove tfn true])%list).
Proof.
  split; [|split].
  - intros * Hshape Hfile Hsplit Hst Hrun Hq Hfail Hopen.
    destruct (processtx_first_failure _ _ _ _ _ _ _ _ _ _ _ _
                Hshape Hfile Hsplit Hst Hrun Hq Hfail Hopen)
      as (l & root' & Hp & Hf & Ht & Ha).
    eexists _, root'. split; [exact Hp|]. done.
  - intros * HC HG Hfile Hsplit Hst Hrun Hq Hfail Hopen.
    unfold processPending, process_kind. rewrite HC, HG.
    cbv [mbind write ret]. cbn [log trace fs].
    set (w0 := mkWorld _ _ _).
    destruct (processtx_first_failure "G" "granule" FIELDS_G (gpf h) w0 root
                done bad rest qs t1 q eq_refl Hfile Hsplit Hst Hrun Hq Hfail Hopen)
      as (l & root' & Hp & Hf & _).
    rewrite Hp. eexists _, root'. split; [reflexivity|]. cbn [log trace fs].
    split; [done|]. split; [done|]. split.
    + rewrite (insert_run_trace env _ _ _ Hrun). by rewrite <- app_assoc.
    + intros Hne. by rewrite lookup_insert_ne.
  - intros * Hshape Hfile Hst Hrun Hrm.
    destruct (process_kind_success what _ _ _ _ _ _ _ _ Hshape Hfile Hst Hrun Hrm)
      as [l Hl].
    eexists. split; [exact Hl|]. cbn [log trace fs].
    split; [apply lookup_delete_eq|]. split; [|done].
    intros p Hp. by apply lookup_delete_ne.
Qed.

End ReplayFailure.

Section ReplayFailureInstances.
Import Sys Xml PendingTx Spec.
Import Examples2 Examples4 Examples5.

(** Instance of [replay_stops_at_first_failure]: a granule file with one
    transaction against a store that refuses every insert, and against one
    that accepts every insert. *)
Lemma replay_stops_at_first_failure_witness :
  (exists w' root',
     processtx refusing_env "G" "_ptxG.xml" world_granule_pending
     = (Py.Raise Py.SystemExit, w')
     /\ fs w' = <["_ptxG.xml" := File (XmlDoc root')]> (fs world_granule_pending)
     /\ findall root' "granule" = [granule_tx "G1"]
     /\ tag root' = "data" /\ attrib root' = []
     /\ trace w' = [DbInsert granule_tx_sql false; FsOpenW "_ptxG.xml" true])
  /\ (exists w' root',
        processPending refusing_env (handler false true true) world_granule_pending
        = (Py.Raise Py.SystemExit, w')
        /\ fs w' = <["_ptxG.xml" := File (XmlDoc root')]> (fs world_granule_pending)
        /\ findall root' "granule" = [granule_tx "G1"]
        /\ trace w' = [DbInsert granule_tx_sql false; FsOpenW "_ptxG.xml" true]
        /\ ("_ptxP.xml" <> "_ptxG.xml" ->
            fs w' !! "_ptxP.xml" = fs world_granule_pending !! "_ptxP.xml"))
  /\ (exists w',
        process_kind calm_env true "granule" "G" "_ptxG.xml" world_granule_pending
        = (Py.Ret tt, w')
        /\ fs w' !! "_ptxG.xml" = None
        /\ (forall p, p <> "_ptxG.xml" ->
              fs w' !! p = fs world_granule_pending !! p)
        /\ trace w' = [DbInsert granule_tx_sql true; FsRemove "_ptxG.xml" true]).
Proof.
  split; [|split].
  - apply (proj1 (replay_stops_at_first_failure refusing_env)
             "G" "granule" FIELDS_G "_ptxG.xml" world_granule_pending
             (tx_doc [granule_tx "G1"]) [] (granule_tx "G1") [] [] []
             granule_tx_sql);
      first [reflexivity | constructor].
  - apply (proj1 (proj2 (replay_stops_at_first_failure refusing_env))
             (handler false true true) world_granule_pending
             (tx_doc [granule_tx "G1"]) [] (granule_tx "G1") [] [] []
             granule_tx_sql);
      first [reflexivity | constructor].
  - apply (proj2 (proj2 (replay_stops_at_first_failure calm_env))
             "granule" "G" "granule" FIELDS_G "_ptxG.xml" world_granule_pending
             (tx_doc [granule_tx "G1"]) [granule_tx_sql]
             [DbInsert granule_tx_sql true]);
      try reflexivity.
    + repeat constructor.
    + apply run_cons; [reflexivity|apply run_nil].
Defined.

End ReplayFailureInstances.

Section ReplayOrder.
Import Sys Xml PendingTx Spec.
Variable env : Env.

(** The heads of the three types do not overlap: a statement has one type. *)
Lemma insert_heads_exclusive q :
  (String.prefix (insert_head "C") q = true ->
   String.prefix (insert_head "G") q = false
   /\ String.prefix (insert_head "P") q = false)
  /\ (String.prefix (insert_head "G") q = true ->
      String.prefix (insert_head "P") q = false).
Proof.
  split; [intros HC; split|intros HG].
  - destruct (String.prefix (insert_head "G") q) eqn:HG; [|done].
    by destruct (prefix_comparable _ _ _ HC HG).
  - destruct (String.prefix (insert_head "P") q) eqn:HP; [|done].
    by destruct (prefix_comparable _ _ _ HC HP).
  - destruct (String.prefix (insert_head "P") q) eqn:HP; [|done].
    by destruct (prefix_comparable _ _ _ HG HP).
Qed.

Lemma replay_any ttype fields tfn root txs cur w :
  exists t,
    trace (snd (replay env ttype fields tfn root txs cur w)) = (trace w ++ t)%list
    /\ Forall (kind_event ttype tfn) t
    /\ (forall p, p <> tfn ->
          fs (snd (replay env ttype fields tfn root txs cur w)) !! p = fs w !! p)
    /\ (fst (replay env ttype fields tfn root txs cur w) = Py.Ret tt ->
        exists qs, statements ttype fields txs qs
                   /\ t = map (fun q => DbInsert q true) qs
                   /\ fs (snd (replay env ttype fields tfn root txs cur w)) = fs w).
Proof.
  revert cur w. induction txs as [|tx txs IH]; intros cur w.
  - exists []. simpl. rewrite app_nil_r. repeat split; auto.
    intros _. exists []. repeat split. constructor.
  - destruct (tx_sql ttype fields (snd tx)) as [q|e] eqn:Hq.
    2:{ rewrite (replay_step_raise env _ _ _ _ _ _ _ _ _ Hq). exists [].
        simpl. rewrite app_nil_r. repeat split; auto. discriminate. }
    destruct (db_insert_ok env (trace w) q) eqn:Hok.
    + rewrite (replay_step_ok env _ _ _ _ _ _ _ _ _ Hq Hok).
      set (w1 := mkWorld _ _ _).
      destruct (IH (remove_child tx cur) w1) as (t & Ht & Hk & Hfs & Hret).
      exists (DbInsert q true :: t). rewrite Ht. subst w1. cbn [trace fs] in *.
      split; [by rewrite <- app_assoc|]. split.
      { constructor; [|done]. simpl. by apply (tx_sql_head _ fields (snd tx)). }
      split; [done|]. intros Hr. destruct (Hret Hr) as (qs & Hst & -> & Hfs').
      exists (q :: qs). repeat split; [|done]. by constructor.
    + destruct (replay_step_fail env ttype fields tfn root tx txs cur w q Hq Hok)
        as [l ->].
      eexists. cbn [fst snd trace fs]. split; [reflexivity|]. split.
      { repeat constructor. simpl. by apply (tx_sql_head _ fields (snd tx)). }
      split; [|discriminate].
      intros p Hp. destruct (os_open_w_ok env _ tfn); [|done].
      by apply lookup_insert_ne.
Qed.

Lemma process_kind_any flag what ttype xmltag fields tfn w :
  tx_shape ttype = Some (xmltag, fields) ->
  exists t,
    trace (snd (process_kind env flag what ttype tfn w)) = (trace w ++ t)%list
    /\ Forall (kind_event ttype tfn) t
    /\ (forall p, p <> tfn ->
          fs (snd (process_kind env flag what ttype tfn w)) !! p = fs w !! p)
    /\ (flag = false ->
        t = [] /\ fst (process_kind env flag what ttype tfn w) = Py.Ret tt)
    /\ (flag = true ->
        fst (process_kind env flag what ttype tfn w) = Py.Ret tt ->
        completed ttype xmltag fields tfn (fs w) t).
Proof.
  intros Hshape. destruct flag.
  2:{ exists []. simpl. rewrite app_nil_r. repeat split; auto. discriminate. }
  unfold process_kind. cbv [mbind write]. set (w0 := mkWorld _ _ _).
  assert (Htr0 : trace w0 = trace w) by done.
  assert (Hfs0 : fs w0 = fs w) by done.
  clearbody w0. rewrite <- Htr0, <- Hfs0. clear Htr0 Hfs0 w.
  destruct (fs w0 !! tfn) as [[|[root|]]|] eqn:Hfile.
  1,3,4: (unfold processtx; rewrite Hshape;
          cbv [mbind Os.parse get_fs ret write raise]; rewrite Hfile;
          exists []; cbn [fst snd trace fs]; rewrite app_nil_r;
          repeat split; auto; discriminate).
  rewrite (processtx_unfold env _ _ _ _ _ _ Hshape Hfile).
  destruct (replay_any ttype fields tfn root
              (List.filter (fun c => String.eqb (tag (snd c)) xmltag)
                           (numbered (children root)))
              (numbered (children root)) w0) as (t & Ht & Hk & Hfs & Hret).
  destruct (replay env ttype fields tfn root _ _ w0) as [[[]|e] w1];
    cbn [fst snd] in *.
  2:{ exists t. repeat split; auto; discriminate. }
  destruct (Hret eq_refl) as (qs & Hst & -> & Hfs1).
  cbv [Os.remove mbind get_trace get_fs emit set_fs ret].
  rewrite Hfs1, bool_decide_eq_true_2 by (rewrite Hfile; eauto).
  rewrite andb_true_r.
  destruct (os_remove_ok env (trace w1) tfn) eqn:Hrm;
    cbv [negb write raise]; cbn [fst snd trace fs log].
  - eexists. rewrite Ht, <- app_assoc. split; [reflexivity|]. split.
    { apply Forall_app. split; [done|]. by repeat constructor. }
    split; [intros p Hp; by apply lookup_delete_ne|].
    split; [discriminate|]. intros _ _. exists root, qs. split; [done|].
    split; [|done]. unfold findall. rewrite <- filter_numbered.
    clear -Hst. induction Hst; constructor; auto.
  - eexists. rewrite Ht, <- app_assoc. split; [reflexivity|]. split.
    { apply Forall_app. split; [done|]. by repeat constructor. }
    split; [done|]. split; discriminate.
Qed.

(** C7.  Whatever pending files there are, the trace of the replay is the
    trace of the collection file, then that of the granule file, then that
    of the polygon point file; each part only holds inserts of its own type
    and operations on its own file, and is empty when the file is absent.
    When anything of the granule or polygon point file is attempted and
    there is a collection file, the collection file was replayed to
    completion and removed before; when anything of the polygon point file
    is attempted and there is a granule file, the granule file was replayed
    to completion and removed before. *)
Theorem replay_respects_kind_order h w :
  cpf h <> gpf h -> cpf h <> ppf h -> gpf h <> ppf h ->
  exists tC tG tP,
    trace (snd (processPending env h w)) = (trace w ++ tC ++ tG ++ tP)%list
    /\ Forall (kind_event "C" (cpf h)) tC
    /\ Forall (kind_event "G" (gpf h)) tG
    /\ Forall (kind_event "P" (ppf h)) tP
    /\ (processC h = false -> tC = [])
    /\ (processG h = false -> tG = [])
    /\ (processP h = false -> tP = [])
    /\ (tG <> [] \/ tP <> [] -> processC h = true ->
        completed "C" "collection" FIELDS_C (cpf h) (fs w) tC)
    /\ (tP <> [] -> processG h = true ->
        completed "G" "granule" FIELDS_G (gpf h) (fs w) tG).
Proof.
  intros Hcg Hcp Hgp. unfold processPending. cbv [mbind write].
  set (w0 := mkWorld _ _ _).
  assert (Htr0 : trace w0 = trace w) by done.
  assert (Hfs0 : fs w0 = fs w) by done.
  clearbody w0. rewrite <- Htr0, <- Hfs0. clear Htr0 Hfs0 w.
  destruct (process_kind_any (processC h) "collection" "C" "collection" FIELDS_C
              (cpf h) w0 eq_refl) as (tC & HtC & HkC & HfsC & HoffC & HdoneC).
  destruct (process_kind env (processC h) "collection" "C" (cpf h) w0)
    as [[[]|e] w1]; cbn [fst snd] in *.
  2:{ exists tC, [], []. rewrite !app_nil_r. split_and!.
      - done.
      - done.
      - constructor.
      - constructor.
      - intros Hoff. by destruct (HoffC Hoff).
      - done.
      - done.
      - intros [?|?]; done.
      - done. }
  destruct (process_kind_any (processG h) "granule" "G" "granule" FIELDS_G
              (gpf h) w1 eq_refl) as (tG & HtG & HkG & HfsG & HoffG & HdoneG).
  assert (HfileG : fs w1 !! gpf h = fs w0 !! gpf h) by (apply HfsC; congruence).
  destruct (process_kind env (processG h) "granule" "G" (gpf h) w1)
    as [[[]|e] w2]; cbn [fst snd] in *.
  2:{ exists tC, tG, []. rewrite HtG, HtC, !app_nil_r, <- app_assoc. split_and!.
      - done.
      - done.
      - done.
      - constructor.
      - intros Hoff. by destruct (HoffC Hoff).
      - intros Hoff. by destruct (HoffG Hoff).
      - done.
      - intros _ HC. by apply HdoneC.
      - done. }
  destruct (process_kind_any (processP h) "polpyPoint" "P" "polypoint" FIELDS_P
              (ppf h) w2 eq_refl) as (tP & HtP & HkP & HfsP & HoffP & HdoneP).
  exists tC, tG, tP. rewrite HtP, HtG, HtC, <- !app_assoc. split_and!.
  - done.
  - done.
  - done.
  - done.
  - intros Hoff. by destruct (HoffC Hoff).
  - intros Hoff. by destruct (HoffG Hoff).
  - intros Hoff. by destruct (HoffP Hoff).
  - intros _ HC. by apply HdoneC.
  - intros _ HG. destruct (HdoneG HG eq_refl) as (root & qs & Hf & Hst & Ht).
    exists root, qs. rewrite <- HfileG. done.
Qed.

End ReplayOrder.

Section ReplayOrderInstances.
Import Sys Xml PendingTx Spec.
Import Examples2 Examples5.

(** Instance of [replay_respects_kind_order]: the three files of the main
    program, all present. *)
Lemma replay_respects_kind_order_witness :
  exists tC tG tP,
    trace (snd (processPending calm_env (handler true true true) world_all_pending))
    = (trace world_all_pending ++ tC ++ tG ++ tP)%list
    /\ Forall (kind_event "C" "_ptxC.xml") tC
    /\ Forall (kind_event "G" "_ptxG.xml") tG
    /\ Forall (kind_event "P" "_ptxP.xml") tP
    /\ (true = false -> tC = [])
    /\ (true = false -> tG = [])
    /\ (true = false -> tP = [])
    /\ (tG <> [] \/ tP <> [] -> true = true ->
        completed "C" "collection" FIELDS_C "_ptxC.xml" (fs world_all_pending) tC)
    /\ (tP <> [] -> true = true ->
        completed "G" "granule" FIELDS_G "_ptxG.xml" (fs world_all_pending) tG).
Proof.
  apply (replay_respects_kind_order calm_env (handler true true true)
           world_all_pending); discriminate.
Defined.

(** The same replay, evaluated. *)
Example replay_all_pending :
  processPending calm_env (handler true true true) world_all_pending
  = (Py.Ret tt,
     snd (processPending calm_env (handler true true true) world_all_pending))
  /\ trace (snd (processPending calm_env (handler true true true) world_all_pending))
     = [DbInsert collection_tx_sql true; FsRemove "_ptxC.xml" true;
        DbInsert granule_tx_sql true; FsRemove "_ptxG.xml" true;
        DbInsert polypoint_tx_sql true; FsRemove "_ptxP.xml" true]
  /\ fs (snd (processPending calm_env (handler true true true) world_all_pending)) = ∅.
Proof. split; [|split]; vm_compute; reflexivity. Qed.

(** When the collection replay fails, nothing of the other files is
    attempted. *)
Example replay_collection_failure :
  fst (processPending Examples4.refusing_env (handler true true true) world_all_pending)
  = Py.Raise Py.SystemExit
  /\ trace (snd (processPending Examples4.refusing_env (handler true true true)
                   world_all_pending))
     = [DbInsert collection_tx_sql false; FsOpenW "_ptxC.xml" true].
Proof. split; vm_compute; reflexivity. Qed.

End ReplayOrderInstances.

(** ** TransferEngine: the transfer loop *)

Section TransferLoop.
Import Sys Downloader Spec.
Variable env : Env.

(** *** Lists *)








(** *** The status map *)


(** *** The steps keep the invariant and the rounds left *)








(** *** Which terminal status an item gets *)








End TransferLoop.

Section TransferLoopInstances.
Import Sys Downloader Spec.
Import Examples2 Examples6.


(** The same run, evaluated: it ends within five rounds, and the even
    items end with status 1, the odd ones with -1. *)
Example multidownload_twelve :
  exists d' w',
    multidownload uneven_env 5 twelve (world_of ∅) = (Py.Ret d', w')
    /\ map (fun it => granuleStatus d' !! i_egid it) (granuleQueue twelve)
       = [Some 1; Some (-1); Some 1; Some (-1); Some 1; Some (-1);
          Some 1; Some (-1); Some 1; Some (-1); Some 1; Some (-1)]
    /\ length (List.filter (fun e => match e with FsOpenW _ true => true | _ => false end)
                           (trace w')) = 12%nat.
Proof. eexists _, _. split; [vm_compute; reflexivity|]. split; reflexivity. Qed.

Example rounds_left_twelve : rounds_left uneven_env (md_init twelve) = 24%nat.
Proof. reflexivity. Qed.

End TransferLoopInstances.

(** ** Catalog responses *)

Section CatalogResponses.
Import Sys Catalog Xml Client Spec.
Variable env : Env.

(** No granule is read from the empty result. *)
Lemma getGranules_empty c w :
  getGranules env empty_results c w = (Py.Ret (setNumGranules 0 c), w).
Proof. reflexivity. Qed.


End CatalogResponses.

Section CatalogResponsesInstances.
Import Sys Catalog Xml Client Spec.
Import Examples2 Examples7.



(** Against a catalog whose dataset answers cannot be parsed both datasets
    are skipped and the working set stays empty. *)
Example skipped_datasets_leave_working_set :
  exists ero' w',
    getReqData calm_env 1000 two_queries (world_of ∅) = (Py.Ret ero', w')
    /\ collContainer ero' = []
    /\ length (trace w') = 2%nat.
Proof. eexists _, _. split; [vm_compute; reflexivity|]. split; reflexivity. Qed.

(** The three answers that are not recovered, each as the answer to the
    first of two datasets: the run of [getReqData] ends with the exception
    and the second dataset is never queried. *)
Example unrecovered_answers_end_getReqData :
  (exists w',
     getReqData erring_env 1000 two_queries (world_of ∅)
     = (Py.Raise Py.AttributeError, w')
     /\ trace w' = [WsDataset (dataset_url query_MOD04)])
  /\ (exists w',
        getReqData headerless_env 1000 two_queries (world_of ∅)
        = (Py.Raise Py.KeyError, w')
        /\ length (trace w') = 2%nat)
  /\ (exists w',
        getReqData pointed_env 1000 two_queries (world_of ∅)
        = (Py.Raise Py.AttributeError, w')
        /\ length (trace w') = 2%nat).
Proof.
  split; [|split]; eexists; (split; [vm_compute; reflexivity|]);
    vm_compute; reflexivity.
Qed.

End CatalogResponsesInstances.

(** ** Python prelude: [int] reads what [str] writes *)

Section IntOfStr.

Lemma digit_char (d : N) :
  (d < 10)%N ->
  Py.is_digit (pretty_N_char d) = true
  /\ Py.digit_val (pretty_N_char d) = Z.of_N d
  /\ Py.is_space (pretty_N_char d) = false
  /\ pretty_N_char d <> "-"%char /\ pretty_N_char d <> "+"%char.
Proof.
  intros Hd.
  assert (H : (d = 0 \/ d = 1 \/ d = 2 \/ d = 3 \/ d = 4 \/ d = 5 \/ d = 6
               \/ d = 7 \/ d = 8 \/ d = 9)%N) by lia.
  repeat (destruct H as [->|H]; [vm_compute; repeat split; congruence|]).
  subst. vm_compute; repeat split; congruence.
Qed.

(** The digits [pretty_N_go] puts in front of [s]. *)
Lemma pretty_N_go_digits (x : N) :
  forall s, exists d,
    list_ascii_of_string (pretty_N_go x s) = (d ++ list_ascii_of_string s)%list
    /\ (forall acc r, Py.digits_val acc (d ++ r)
                      = Py.digits_val (acc * 10 ^ Z.of_nat (length d) + Z.of_N x) r)
    /\ Forall (fun c => Py.is_space c = false /\ c <> "-"%char /\ c <> "+"%char) d
    /\ ((0 < x)%N -> d <> []).
Proof.
  induction (N.lt_wf_0 x) as [x _ IH]. intros s.
  destruct (decide (0 < x)%N) as [Hx|Hx].
  - rewrite pretty_N_go_step by done.
    assert (Hlt : (x `div` 10 < x)%N) by (apply N.div_lt; lia).
    destruct (IH _ Hlt (String (pretty_N_char (x `mod` 10)) s))
      as (d & Hd & Hval & Hall & _).
    assert (Hm : (x `mod` 10 < 10)%N) by (apply N.mod_lt; lia).
    destruct (digit_char _ Hm) as (Hdig & Hdv & Hsp & Hminus & Hplus).
    exists (d ++ [pretty_N_char (x `mod` 10)])%list. split_and!.
    + rewrite Hd. simpl. by rewrite <- app_assoc.
    + intros acc r. rewrite <- app_assoc. rewrite Hval. simpl.
      rewrite Hdig, Hdv. f_equal. rewrite length_app. simpl.
      rewrite Nat2Z.inj_add, Z.pow_add_r by lia.
      pose proof (N.div_mod x 10 ltac:(lia)) as Hdm.
      assert (Z.of_N x = 10 * Z.of_N (x `div` 10) + Z.of_N (x `mod` 10)) by lia.
      change (10 ^ Z.of_nat 1) with 10. lia.
    + apply Forall_app. split; [done|]. by apply Forall_singleton.
    + intros _. by destruct d.
  - assert (x = 0%N) as -> by lia. rewrite pretty_N_go_0. exists []. split_and!.
    + done.
    + intros acc r. simpl. f_equal. lia.
    + done.
    + lia.
Qed.

(** The decimal digits of a natural number: at least one, neither blank
    nor a sign, and read back as the number. *)
Lemma pretty_N_digits (x : N) :
  exists c d,
    list_ascii_of_string (pretty x) = c :: d
    /\ Forall (fun c => Py.is_space c = false /\ c <> "-"%char /\ c <> "+"%char)
              (c :: d)
    /\ Py.unsigned_val (c :: d) = Some (Z.of_N x).
Proof.
  unfold pretty, pretty_N. destruct (decide (x = 0%N)) as [->|Hx].
  { exists "0"%char, []. split_and!; [done| |done].
    apply Forall_singleton. by vm_compute. }
  destruct (pretty_N_go_digits x "") as (d & Hd & Hval & Hall & Hne).
  simpl in Hd. rewrite app_nil_r in Hd.
  destruct d as [|c d]; [by destruct Hne; [lia|]|].
  exists c, d. split_and!; [done..|].
  unfold Py.unsigned_val. specialize (Hval 0 []). rewrite app_nil_r in Hval.
  rewrite Hval. simpl. f_equal; lia.
Qed.

Lemma lstrip_id (l : list ascii) c :
  head l = Some c -> Py.is_space c = false -> Py.lstrip l = l.
Proof. destruct l; simpl; [done|]. intros [= ->] ->. done. Qed.

Lemma head_rev {A} (l : list A) : head (rev l) = last l.
Proof.
  induction l as [|x l _] using rev_ind; [done|].
  by rewrite rev_unit, last_snoc.
Qed.

Lemma strip_nonblank (l : list ascii) :
  l <> [] -> Forall (fun c => Py.is_space c = false) l -> Py.strip l = l.
Proof.
  intros Hne Hall.
  destruct l as [|c l]; [done|].
  destruct (last (c :: l)) as [c'|] eqn:Hlast; [|by apply last_None in Hlast].
  unfold Py.strip. rewrite (lstrip_id (c :: l) c); [|done|].
  - rewrite (lstrip_id (rev (c :: l)) c'); [by rewrite rev_involutive| |].
    + by rewrite head_rev.
    + apply last_Some_elem_of in Hlast.
      by apply (proj1 (Forall_forall _ _) Hall _ Hlast).
  - by apply Forall_cons in Hall as [? _].
Qed.

(** [int(str(n)) == n]. *)
Lemma int_str_int (n : Z) : Py.int (Py.str_int n) = Py.Ret n.
Proof.
  assert (Hpos : forall x : N, Py.int (pretty x) = Py.Ret (Z.of_N x)).
  { intros x. destruct (pretty_N_digits x) as (c & d & Hd & Hall & Hu).
    unfold Py.int. rewrite Hd, strip_nonblank; [|done|].
    - apply Forall_cons in Hall as [(_ & Hm & Hp) _].
      destruct c as [[] [] [] [] [] [] [] []]; try done; by rewrite Hu.
    - eapply Forall_impl; [exact Hall|]. by intros ? [? _]. }
  unfold Py.str_int. destruct n as [|p|p].
  - done.
  - apply (Hpos (Npos p)).
  - change (pretty (Z.neg p)) with ("-" +:+ pretty (N.pos p)).
    destruct (pretty_N_digits (N.pos p)) as (c & d & Hd & Hall & Hu).
    unfold Py.int.
    change (list_ascii_of_string ("-" +:+ pretty (N.pos p)))
      with ("-"%char :: list_ascii_of_string (pretty (N.pos p))).
    rewrite Hd, strip_nonblank; [|done|].
    + by rewrite Hu.
    + apply Forall_cons. split; [done|].
      eapply Forall_impl; [exact Hall|]. by intros ? [? _].
Qed.

End IntOfStr.

(** ** CatalogModel: the lookups [inCollections] and [inGranules] *)

Section Lookups.
Import Sys Catalog Spec2.

Lemma eqb_ostr_eq a b : eqb_ostr a b = true <-> a = b.
Proof. unfold eqb_ostr. apply bool_decide_eq_true. Qed.

Lemma eqb_ostr_neq a b : eqb_ostr a b = false <-> a <> b.
Proof. unfold eqb_ostr. apply bool_decide_eq_false. Qed.

(** The scan of [inCollections] from counter [k]: no collection has the
    id, or the counter has advanced to the first one that has. *)
Lemma inCollections_from_spec cs cid k :
  (inCollections_from cs cid k = -1 /\ Forall (fun c => collID c <> cid) cs)
  \/ (exists (i : nat) c,
        inCollections_from cs cid k = k + Z.of_nat i
        /\ cs !! i = Some c /\ collID c = cid
        /\ forall (j : nat) c', (j < i)%nat -> cs !! j = Some c' -> collID c' <> cid).
Proof.
  revert k. induction cs as [|c cs IH]; intros k; simpl.
  { left. by split. }
  destruct (eqb_ostr (collID c) cid) eqn:Hc.
  - right. exists O, c. split_and!; [lia|done|by apply eqb_ostr_eq|lia].
  - apply eqb_ostr_neq in Hc.
    destruct (IH (k + 1)) as [[H1 H2]|(i & c' & H1 & H2 & H3 & H4)].
    + left. split; [done|]. by apply Forall_cons.
    + right. exists (S i), c'. split_and!; [lia|done|done|].
      intros [|j] c'' Hj Hl; simpl in Hl; [by injection Hl as <-|].
      apply (H4 j); [lia|done].
Qed.

(** The scan of one granule container from counter [k]. *)
Lemma inGranules_gran_spec gs gid k :
  (inGranules_gran gs gid k = inr (k + Z.of_nat (length gs))
   /\ Forall (fun g => egid g <> gid) gs)
  \/ (exists (i : nat) g,
        inGranules_gran gs gid k = inl (k + Z.of_nat i)
        /\ gs !! i = Some g /\ egid g = gid
        /\ forall (j : nat) g', (j < i)%nat -> gs !! j = Some g' -> egid g' <> gid).
Proof.
  revert k. induction gs as [|g gs IH]; intros k; simpl.
  { left. split; [f_equal; lia|done]. }
  destruct (eqb_ostr (egid g) gid) eqn:Hg.
  - right. exists O, g. split_and!; [f_equal; lia|done|by apply eqb_ostr_eq|lia].
  - apply eqb_ostr_neq in Hg.
    destruct (IH (k + 1)) as [[H1 H2]|(i & g' & H1 & H2 & H3 & H4)].
    + left. split; [rewrite H1; f_equal; lia|]. by apply Forall_cons.
    + right. exists (S i), g'. split_and!; [rewrite H1; f_equal; lia|done|done|].
      intros [|j] g'' Hj Hl; simpl in Hl; [by injection Hl as <-|].
      apply (H4 j); [lia|done].
Qed.

(** The scan of [inGranules] from counter [k], over the granules of the
    collections with the id. *)
Lemma inGranules_from_spec cs cid gid k :
  0 <= k ->
  let gs := flat_map granContainer
              (List.filter (fun c => eqb_ostr (collID c) cid) cs) in
  (inGranules_from cs cid gid k = -1 /\ Forall (fun g => egid g <> gid) gs)
  \/ (exists (i : nat) g,
        inGranules_from cs cid gid k = k + Z.of_nat i
        /\ gs !! i = Some g /\ egid g = gid
        /\ forall (j : nat) g', (j < i)%nat -> gs !! j = Some g' -> egid g' <> gid).
Proof.
  revert k. induction cs as [|c cs IH]; intros k Hk; simpl.
  { left. by split. }
  destruct (eqb_ostr (collID c) cid) eqn:Hc; simpl; [|by apply IH].
  destruct (inGranules_gran_spec (granContainer c) gid k)
    as [[H1 H2]|(i & g & H1 & H2 & H3 & H4)]; rewrite H1.
  - destruct (IH (k + Z.of_nat (length (granContainer c))) ltac:(lia))
      as [[H3 H4]|(i & g & H3 & H4 & H5 & H6)].
    + left. split; [done|]. by apply Forall_app.
    + right. exists (length (granContainer c) + i)%nat, g.
      split_and!; [lia| |done|].
      * rewrite lookup_app_r by lia. rewrite <- H4. f_equal. lia.
      * intros j g' Hj Hl.
        destruct (decide (j < length (granContainer c))%nat) as [Hlt|Hge].
        -- rewrite lookup_app_l in Hl by done.
           apply (proj1 (Forall_forall _ _) H2), list_elem_of_lookup. eauto.
        -- rewrite lookup_app_r in Hl by lia.
           apply (H6 (j - length (granContainer c))%nat); [lia|done].
  - right. exists i, g. split_and!; [done| |done|].
    + apply lookup_app_l_Some. done.
    + intros j g' Hj Hl. apply (H4 j); [done|].
      rewrite lookup_app_l in Hl; [done|].
      apply lookup_lt_Some in H2. lia.
Qed.

(** X1.  [inCollections] returns [-1] exactly when no collection of the
    working set has the id; otherwise it returns the position of the first
    collection that has it. *)
Theorem inCollections_first_match (r : ECHOrequest) (cid : option string) :
  (inCollections r cid = -1
   /\ forall c, c ∈ collContainer r -> collID c <> cid)
  \/ (exists (i : nat) c,
        inCollections r cid = Z.of_nat i
        /\ collContainer r !! i = Some c /\ collID c = cid
        /\ forall (j : nat) c', (j < i)%nat ->
             collContainer r !! j = Some c' -> collID c' <> cid).
Proof.
  unfold inCollections.
  destruct (inCollections_from_spec (collContainer r) cid 0)
    as [[H1 H2]|(i & c & H1 & H2 & H3 & H4)].
  - left. split; [done|]. by apply Forall_forall.
  - right. exists i, c. split_and!; [lia|done..].
Qed.

(** X2.  [inGranules] does not return a position inside one collection:
    its counter runs on through the granules of every collection that has
    the collection id.  It returns [-1] exactly when none of those granules
    has the granule id, and otherwise the position of the first one that
    has it in the concatenation of their containers. *)
Theorem inGranules_counts_across_collections (r : ECHOrequest)
    (cid gid : option string) :
  (inGranules r cid gid = -1
   /\ forall g, g ∈ matching_granules r cid -> egid g <> gid)
  \/ (exists (i : nat) g,
        inGranules r cid gid = Z.of_nat i
        /\ matching_granules r cid !! i = Some g /\ egid g = gid
        /\ forall (j : nat) g', (j < i)%nat ->
             matching_granules r cid !! j = Some g' -> egid g' <> gid).
Proof.
  unfold inGranules, matching_granules.
  destruct (inGranules_from_spec (collContainer r) cid gid 0 ltac:(lia))
    as [[H1 H2]|(i & g & H1 & H2 & H3 & H4)].
  - left. split; [done|]. by apply Forall_forall.
  - right. exists i, g. split_and!; [lia|done..].
Qed.

End Lookups.

(** ** Running the state monad backwards *)

Section MonadInversion.
Import Sys.

Lemma mbind_ret_inv {A B} (c : M A) (k : A -> M B) w r w' :
  mbind c k w = (Py.Ret r, w') ->
  exists a w1, c w = (Py.Ret a, w1) /\ k a w1 = (Py.Ret r, w').
Proof.
  unfold mbind. destruct (c w) as [[a|e] w1]; [|done]. eauto.
Qed.

Lemma pure_ret_inv {A} (x : Py.res A) w a w' :
  pure x w = (Py.Ret a, w') -> x = Py.Ret a /\ w' = w.
Proof. unfold pure. by intros [= -> ->]. Qed.

Lemma ret_inv {A} (x : A) w a w' :
  ret x w = (Py.Ret a, w') -> a = x /\ w' = w.
Proof. unfold ret. by intros [= -> ->]. Qed.

End MonadInversion.

(** ** Lists indexed the Python way *)

Section Indexing.

Lemma getitem_lookup {A} (l : list A) i a :
  Py.getitem l i = Py.Ret a ->
  exists j : nat, l !! j = Some a
    /\ forall x, Py.setitem l i x = Py.Ret (<[j := x]> l).
Proof.
  unfold Py.getitem, Py.setitem.
  destruct (_ || _); [done|].
  destruct (l !! _) as [a'|] eqn:Hl; [|done]. intros [= ->]. eauto.
Qed.

Lemma setitem_insert {A} (l : list A) i x l' :
  Py.setitem l i x = Py.Ret l' ->
  exists j : nat, (j < length l)%nat /\ l' = <[j := x]> l.
Proof.
  unfold Py.setitem.
  destruct (_ || _) eqn:Hb; [done|]. intros [= <-].
  apply orb_false_elim in Hb as [H1 H2].
  eexists. split; [|done]. lia.
Qed.

Lemma getitem_last {A} (l : list A) a :
  Py.getitem (l ++ [a]) (Z.of_nat (length l)) = Py.Ret a.
Proof.
  unfold Py.getitem. rewrite length_app. simpl.
  rewrite !(proj2 (Z.ltb_ge (Z.of_nat (length l)) 0)) by lia.
  rewrite (proj2 (Z.leb_gt _ _)) by lia. simpl.
  rewrite Nat2Z.id, lookup_app_r by lia.
  by rewrite Nat.sub_diag.
Qed.

Lemma setitem_last {A} (l : list A) a x :
  Py.setitem (l ++ [a]) (Z.of_nat (length l)) x = Py.Ret (l ++ [x])%list.
Proof.
  unfold Py.setitem. rewrite length_app. simpl.
  rewrite !(proj2 (Z.ltb_ge (Z.of_nat (length l)) 0)) by lia.
  rewrite (proj2 (Z.leb_gt _ _)) by lia. simpl.
  rewrite Nat2Z.id. f_equal.
  rewrite insert_app_r_alt by lia. by rewrite Nat.sub_diag.
Qed.

Lemma Forall2_insert_r {A} (R : A -> A -> Prop) (l : list A) j x y :
  (forall a, R a a) -> l !! j = Some x -> R x y ->
  Forall2 R l (<[j := y]> l).
Proof.
  intros Hrefl Hl HR.
  rewrite <- (list_insert_id l j x) at 1 by done.
  apply Forall2_insert; [|done].
  apply Forall_Forall2_diag, Forall_forall. auto.
Qed.

End Indexing.

(** ** What a merge keeps *)

Section Kept.
Import Sys Catalog Spec2.

Lemma kept_as_refl {A} (R : A -> A -> Prop) l :
  (forall a, R a a) -> kept_as R l l.
Proof.
  intros Hrefl. exists l, []. split; [by rewrite app_nil_r|].
  apply Forall_Forall2_diag, Forall_forall. auto.
Qed.

Lemma kept_as_trans {A} (R : A -> A -> Prop) l1 l2 l3 :
  (forall a b c, R a b -> R b c -> R a c) ->
  kept_as R l1 l2 -> kept_as R l2 l3 -> kept_as R l1 l3.
Proof.
  intros Htrans (k1 & n1 & -> & H1) (k2 & n2 & -> & H2).
  apply Forall2_app_inv_l in H2 as (k2a & k2b & H2a & H2b & ->).
  exists k2a, (k2b ++ n2)%list. split; [by rewrite app_assoc|].
  by apply (Forall2_trans R R R l1 k1 k2a).
Qed.

Lemma kept_as_same {A} (R : A -> A -> Prop) l l' :
  Forall2 R l l' -> kept_as R l l'.
Proof. intros H. exists l', []. split; [by rewrite app_nil_r|done]. Qed.

Lemma kept_as_length {A} (R : A -> A -> Prop) l l' :
  kept_as R l l' -> (length l <= length l')%nat.
Proof.
  intros (k & n & -> & H). apply Forall2_length in H.
  rewrite length_app. lia.
Qed.

Lemma retried_refl g : retried g g.
Proof. by destruct g. Qed.

Lemma retried_trans g1 g2 g3 : retried g1 g2 -> retried g2 g3 -> retried g1 g3.
Proof.
  unfold retried. intros H1 H2.
  set (n := numDloadTrys g3) in *. set (m := numDloadTrys g2) in *.
  clearbody n m. subst. by destruct g1.
Qed.

Lemma grown_refl c : grown c c.
Proof.
  split; [by destruct c|]. apply kept_as_refl, retried_refl.
Qed.

Lemma grown_trans c1 c2 c3 : grown c1 c2 -> grown c2 c3 -> grown c1 c3.
Proof.
  intros [H1 K1] [H2 K2]. split.
  - set (n := granContainer c3) in *. set (m := granContainer c2) in *.
    clearbody n m. subst. by destruct c1.
  - eapply kept_as_trans; [apply retried_trans|done..].
Qed.

Lemma grown_each_trans cs1 cs2 cs3 :
  Forall2 grown cs1 cs2 -> Forall2 grown cs2 cs3 -> Forall2 grown cs1 cs3.
Proof. apply Forall2_trans, grown_trans. Qed.

Lemma grown_each_refl cs : Forall2 grown cs cs.
Proof. apply Forall_Forall2_diag, Forall_forall. intros. apply grown_refl. Qed.

End Kept.

(** ** PendingDownloadStore: what the merge keeps *)

Section MergeKeeps.
Import Sys Catalog PendingDownload Spec2.
Variable env : Env.

(** One granule record: the collections stay in place, and one of them
    has gained a granule or a granule of it has a new try count. *)
Lemma load_granule_grows collID collIndex r g w r' w' :
  load_granule env collID collIndex r g w = (Py.Ret r', w') ->
  r' = setCollections (collContainer r') (numCollections r) r
  /\ Forall2 grown (collContainer r) (collContainer r').
Proof.
  unfold load_granule. intros H.
  apply mbind_ret_inv in H as ([granID gran] & w1 & Hread & H).
  destruct (inGranules r collID granID =? -1).
  - apply mbind_ret_inv in H as (c & w2 & Hc & H).
    apply pure_ret_inv in Hc as [Hc ->].
    apply mbind_ret_inv in H as (cs & w3 & Hcs & H).
    apply pure_ret_inv in Hcs as [Hcs ->].
    apply ret_inv in H as [-> ->].
    apply getitem_lookup in Hc as (j & Hj & Hset).
    rewrite Hset in Hcs. injection Hcs as <-.
    split; [done|]. simpl.
    apply (Forall2_insert_r grown _ j c); [apply grown_refl|done|].
    split; [by destruct c|]. simpl.
    exists (granContainer c), [gran]. split; [done|].
    apply Forall_Forall2_diag, Forall_forall. intros. apply retried_refl.
  - do 3 (apply mbind_ret_inv in H as (? & ? & _ & H)).
    apply mbind_ret_inv in H as (c & w2 & Hc & H).
    apply pure_ret_inv in Hc as [Hc ->].
    apply mbind_ret_inv in H as (old & w3 & Hold & H).
    apply pure_ret_inv in Hold as [Hold ->].
    apply mbind_ret_inv in H as (gs & w4 & Hgs & H).
    apply pure_ret_inv in Hgs as [Hgs ->].
    apply mbind_ret_inv in H as (cs & w5 & Hcs & H).
    apply pure_ret_inv in Hcs as [Hcs ->].
    apply ret_inv in H as [-> ->].
    apply getitem_lookup in Hc as (j & Hj & Hset).
    rewrite Hset in Hcs. injection Hcs as <-.
    apply getitem_lookup in Hold as (k & Hk & Hsetg).
    rewrite Hsetg in Hgs. injection Hgs as <-.
    split; [done|]. simpl.
    apply (Forall2_insert_r grown _ j c); [apply grown_refl|done|].
    split; [by destruct c|]. simpl.
    apply kept_as_same.
    apply (Forall2_insert_r retried _ k old); [apply retried_refl|done|].
    by destruct old.
Qed.

Lemma granules_loop_grows collID collIndex gs r w r' w' :
  granules_loop env collID collIndex gs r w = (Py.Ret r', w') ->
  r' = setCollections (collContainer r') (numCollections r) r
  /\ Forall2 grown (collContainer r) (collContainer r').
Proof.
  revert r w. induction gs as [|g gs IH]; intros r w; simpl.
  - intros H. apply ret_inv in H as [-> ->].
    split; [by destruct r|apply grown_each_refl].
  - intros H. apply mbind_ret_inv in H as (r1 & w1 & H1 & H).
    apply load_granule_grows in H1 as [E1 G1].
    apply IH in H as [E2 G2]. split.
    + rewrite E2. rewrite E1 at 2. rewrite E1 at 1. done.
    + by apply (grown_each_trans _ (collContainer r1)).
Qed.

(** One collection record: the collections stay in place and at most one
    is added after them, and the counter follows the container. *)
Lemma load_collection_extends r c w r' w' :
  load_collection env r c w = (Py.Ret r', w') ->
  r' = setCollections (collContainer r') (numCollections r') r
  /\ kept_as grown (collContainer r) (collContainer r')
  /\ (counted r -> counted r').
Proof.
  unfold load_collection. intros H.
  apply mbind_ret_inv in H as (cid & w1 & _ & H).
  apply mbind_ret_inv in H as ([r1 idx] & w2 & Hr1 & H).
  assert (Hstep : r1 = setCollections (collContainer r1) (numCollections r1) r
                  /\ kept_as grown (collContainer r) (collContainer r1)
                  /\ (counted r -> counted r1)).
  { destruct (inCollections r cid =? -1).
    - repeat (apply mbind_ret_inv in Hr1 as (? & ? & _ & Hr1)).
      apply ret_inv in Hr1 as [[= -> ->] _]. split_and!; [done| |].
      + simpl. eexists _, _. split; [done|]. apply grown_each_refl.
      + unfold counted. simpl. rewrite length_app. simpl. lia.
    - repeat (apply mbind_ret_inv in Hr1 as (? & ? & _ & Hr1)).
      apply ret_inv in Hr1 as [[= -> ->] _]. split_and!; [by destruct r| |done].
      apply kept_as_refl, grown_refl. }
  destruct Hstep as (E1 & K1 & C1).
  destruct (Xml.find c "granules") as [granRoot|]; [|done].
  apply granules_loop_grows in H as [E2 G2]. split_and!.
  - assert (Hn : numCollections r' = numCollections r1) by by rewrite E2.
    rewrite Hn.
    set (cs' := collContainer r') in *. set (n1 := numCollections r1) in *.
    set (cs1 := collContainer r1) in *. clearbody cs' n1 cs1. subst.
    by destruct r.
  - eapply kept_as_trans; [apply grown_trans|done|by apply kept_as_same].
  - intros Hc. specialize (C1 Hc). unfold counted in *.
    rewrite E2. simpl. rewrite C1. f_equal. by apply Forall2_length in G2.
Qed.

Lemma collections_loop_extends cs r w r' w' :
  collections_loop env cs r w = (Py.Ret r', w') ->
  r' = setCollections (collContainer r') (numCollections r') r
  /\ kept_as grown (collContainer r) (collContainer r')
  /\ (counted r -> counted r').
Proof.
  revert r w. induction cs as [|c cs IH]; intros r w; simpl.
  - intros H. apply ret_inv in H as [-> ->]. split_and!; [by destruct r| |done].
    apply kept_as_refl, grown_refl.
  - intros H. apply mbind_ret_inv in H as (r1 & w1 & H1 & H).
    apply load_collection_extends in H1 as (E1 & K1 & C1).
    apply IH in H as (E2 & K2 & C2). split_and!.
    + set (cs' := collContainer r') in *. set (n' := numCollections r') in *.
      set (cs1 := collContainer r1) in *. set (n1 := numCollections r1) in *.
      clearbody cs' n' cs1 n1. subst. by destruct r.
    + eapply kept_as_trans; [apply grown_trans|done..].
    + auto.
Qed.

(** X3.  The merge of the pending downloads keeps the collection counter in
    step with the container: if [numCollections] is the number of
    collections before [loadPendDwnld], it is so after it. *)
Theorem loadPendDwnld_keeps_count r w r' w' :
  counted r ->
  loadPendDwnld env r w = (Py.Ret r', w') ->
  counted r'.
Proof.
  intros Hc. unfold loadPendDwnld, Os.parse. cbv [mbind get_fs ret].
  destruct (match fs w !! pdlfile r with
            | Some (File (XmlDoc root)) => Some root | _ => None end);
    [|done].
  intros H. apply collections_loop_extends in H as (_ & _ & C). auto.
Qed.

(** X4.  The merge of the pending downloads never drops, moves or rewrites
    what is in the working set: every collection stays at its position
    with its own fields, every granule stays at its position in its
    collection and changes in nothing but its try count, and new
    collections and granules come after the existing ones.  Nothing else
    of the request object changes. *)
Theorem loadPendDwnld_keeps_working_set r w r' w' :
  loadPendDwnld env r w = (Py.Ret r', w') ->
  r' = setCollections (collContainer r') (numCollections r') r
  /\ kept_as grown (collContainer r) (collContainer r').
Proof.
  unfold loadPendDwnld, Os.parse. cbv [mbind get_fs ret].
  destruct (match fs w !! pdlfile r with
            | Some (File (XmlDoc root)) => Some root | _ => None end);
    [|done].
  intros H. apply collections_loop_extends in H as (E & K & _). done.
Qed.

End MergeKeeps.

(** ** The catalog pass: what [getReqData] keeps *)

Section CatalogKeeps.
Import Sys Catalog Client Spec2.
Variable env : Env.

(** One dataset query: the working set is as before, or has one more
    collection at its end. *)
Lemma request_dataset_appends n ero i w ero' w' :
  counted ero ->
  request_dataset env n ero i w = (Py.Ret ero', w') ->
  counted ero'
  /\ ero' = setCollections (collContainer ero') (numCollections ero') ero
  /\ (collContainer ero' = collContainer ero
      \/ exists c, collContainer ero' = (collContainer ero ++ [c])%list).
Proof.
  intros Hc. unfold request_dataset. intros H.
  apply mbind_ret_inv in H as (q & w1 & _ & H).
  apply mbind_ret_inv in H as (collElemRoot & w2 & _ & H).
  destruct (_ || _).
  - do 3 (apply mbind_ret_inv in H as (? & ? & _ & H)).
    apply ret_inv in H as [-> ->]. split_and!; [done|by destruct ero|by left].
  - apply mbind_ret_inv in H as (c & w3 & _ & H).
    apply mbind_ret_inv in H as (this0 & w4 & _ & H).
    apply mbind_ret_inv in H as (granElemRoot & w5 & _ & H).
    apply mbind_ret_inv in H as (this & w6 & _ & H).
    apply mbind_ret_inv in H as (this' & w7 & _ & H).
    apply mbind_ret_inv in H as (cs' & w8 & Hcs & H).
    apply pure_ret_inv in Hcs as [Hcs ->].
    apply ret_inv in H as [-> ->].
    rewrite Hc, setitem_last in Hcs. injection Hcs as <-.
    split_and!.
    + unfold counted in *. simpl. rewrite Hc, length_app. simpl. lia.
    + done.
    + right. by eexists.
Qed.

Lemma request_datasets_append n idx ero w ero' w' :
  counted ero ->
  request_datasets env n idx ero w = (Py.Ret ero', w') ->
  counted ero'
  /\ ero' = setCollections (collContainer ero') (numCollections ero') ero
  /\ collContainer ero `prefix_of` collContainer ero'
  /\ (length (collContainer ero') <= length (collContainer ero) + length idx)%nat.
Proof.
  revert ero w. induction idx as [|i idx IH]; intros ero w Hc; simpl.
  - intros H. apply ret_inv in H as [-> ->].
    split_and!; [done|by destruct ero|done|lia].
  - intros H. apply mbind_ret_inv in H as (ero1 & w1 & H1 & H).
    apply request_dataset_appends in H1 as (C1 & E1 & A1); [|done].
    apply IH in H as (C2 & E2 & P2 & L2); [|done]. split_and!.
    + done.
    + set (cs' := collContainer ero') in *. set (n' := numCollections ero') in *.
      set (cs1 := collContainer ero1) in *. set (n1 := numCollections ero1) in *.
      clearbody cs' n' cs1 n1. subst. by destruct ero.
    + destruct A1 as [A1|[c A1]]; rewrite A1 in P2; [done|].
      etrans; [|exact P2]. by apply prefix_app_r.
    + destruct A1 as [A1|[c A1]]; rewrite A1 in L2; [lia|].
      rewrite length_app in L2. simpl in L2. lia.
Qed.

(** X5.  The catalog pass keeps the collection counter in step with the
    container, only ever adds collections after the ones that are there
    (at most one per dataset query), and changes nothing else of the
    request object. *)
Theorem getReqData_appends_collections n ero w ero' w' :
  counted ero ->
  getReqData env n ero w = (Py.Ret ero', w') ->
  counted ero'
  /\ ero' = setCollections (collContainer ero') (numCollections ero') ero
  /\ collContainer ero `prefix_of` collContainer ero'
  /\ Z.of_nat (length (collContainer ero'))
     <= Z.of_nat (length (collContainer ero)) + Z.max 0 (numDatasetQueries ero).
Proof.
  intros Hc H. unfold getReqData in H.
  apply request_datasets_append in H as (C & E & P & L); [|done].
  split_and!; [done..|].
  unfold Py.range in L. rewrite length_seqZ in L. lia.
Qed.

End CatalogKeeps.

(** ** PendingTransactionStore: an entry that cannot be turned into a
       statement *)

Section ReplayMalformed.
Import Sys Xml PendingTx Spec.
Variable env : Env.

(** An entry without the element of one of the columns: the first missing
    column faults. *)
Lemma read_fields_missing transaction fields nfields n values fStr f :
  f ∈ fields -> find transaction f = None ->
  read_fields transaction fields nfields n values fStr
  = Py.Raise Py.AttributeError.
Proof.
  revert n values fStr. induction fields as [|f' fields IH];
    intros n values fStr Hin Hnone; [by apply elem_of_nil in Hin|].
  simpl. destruct (find transaction f') as [e|] eqn:Hf'; simpl; [|done].
  apply elem_of_cons in Hin as [->|Hin]; [congruence|]. by apply IH.
Qed.

Lemma tx_sql_missing ttype fields transaction f :
  f ∈ fields -> find transaction f = None ->
  tx_sql ttype fields transaction = Py.Raise Py.AttributeError.
Proof.
  intros Hin Hnone. unfold tx_sql.
  by rewrite (read_fields_missing _ _ _ _ _ _ f).
Qed.

(** The loop up to an entry whose statement cannot be built. *)
Lemma replay_until_raise ttype fields tfn root done bad rest cur w qs t1 e :
  statements ttype fields done qs ->
  insert_run env (trace w) qs t1 ->
  tx_sql ttype fields (snd bad) = Py.Raise e ->
  exists l,
    replay env ttype fields tfn root (done ++ bad :: rest) cur w
    = (Py.Raise e, mkWorld (log w ++ l) t1 (fs w)).
Proof.
  intros Hst. revert cur w t1.
  induction Hst as [|tx q txs qs Hq Hst IH]; intros cur w t1 Hrun Hbad.
  - inversion Hrun; subst. exists [].
    rewrite app_nil_r. cbn [app].
    rewrite (replay_step_raise env _ _ _ _ _ _ _ _ _ Hbad). by destruct w.
  - inversion Hrun as [|? ? ? Hok Hrun']; subst. cbn [app].
    rewrite (replay_step_ok env _ _ _ _ _ _ _ _ _ Hq Hok).
    destruct (IH (remove_child tx cur)
                (mkWorld (log w ++ [q ++ "\n"]) (trace w ++ [DbInsert q true]) (fs w))
                t1 Hrun' Hbad) as [l Hl].
    rewrite Hl. cbn [log trace fs]. exists ((q ++ "\n") :: l).
    by rewrite <- app_assoc.
Qed.

(** X6.  When an entry of a pending-transaction file lacks the element of
    one of the columns, the replay of that file raises AttributeError at
    that entry.  The entries before it have been inserted (the trace is
    one successful insert for each of them, in order, and nothing else),
    and the file is left exactly as it was: it still lists the entries
    that are now in the database. *)
Theorem processtx_malformed_entry ttype xmltag fields tfn w root done bad rest
    qs t1 f :
  tx_shape ttype = Some (xmltag, fields) ->
  fs w !! tfn = Some (File (XmlDoc root)) ->
  findall root xmltag = (done ++ bad :: rest)%list ->
  Forall2 (fun e q => tx_sql ttype fields e = Py.Ret q) done qs ->
  insert_run env (trace w) qs t1 ->
  f ∈ fields -> find bad f = None ->
  exists w',
    processtx env ttype tfn w = (Py.Raise Py.AttributeError, w')
    /\ trace w' = (trace w ++ map (fun q => DbInsert q true) qs)%list
    /\ fs w' = fs w.
Proof.
  intros Hshape Hfile Hsplit Hst Hrun Hin Hnone.
  rewrite (processtx_unfold env _ _ _ _ _ _ Hshape Hfile).
  set (cur := numbered (children root)).
  set (P := fun c : nat * element => String.eqb (tag (snd c)) xmltag).
  assert (Hsnd : map snd (List.filter P cur) = (done ++ bad :: rest)%list).
  { unfold P, cur. by rewrite filter_numbered. }
  apply map_split_at in Hsnd as (done' & bad' & rest' & Hf & Hd & Hb & Hr).
  subst done bad rest. rewrite Hf.
  destruct (replay_until_raise ttype fields tfn root done' bad' rest' cur w
              qs t1 Py.AttributeError (statements_map _ _ _ _ Hst) Hrun
              (tx_sql_missing _ _ _ _ Hin Hnone)) as [l Hl].
  rewrite Hl. eexists. split; [done|]. split; [|done].
  cbn [trace]. by apply (insert_run_trace env).
Qed.

End ReplayMalformed.

(** ** PendingTransactionStore: what [savePendTx] writes and how it is
       replayed *)

Section SavedTx.
Import Sys Catalog Xml Host PendingTx PendingTxSave Spec Spec2.
Variable env : Env.

Lemma blank_some s : s <> "" -> blank (Some s) = Some s.
Proof. by destruct s. Qed.

(** The values of an entry that has every column element. *)
Lemma read_fields_present transaction fields nfields n values fStr :
  Forall (fun f => is_Some (find transaction f)) fields ->
  match read_fields transaction fields nfields n values fStr with
  | Py.Ret (vs, _) =>
      vs = (values ++ map (fun f => from_option text None (find transaction f))
                          fields)%list
  | Py.Raise _ => False
  end.
Proof.
  revert n values fStr. induction fields as [|f fields IH];
    intros n values fStr Hall; simpl.
  - by rewrite app_nil_r.
  - apply Forall_cons in Hall as [[e He] Hall]. rewrite He. simpl.
    match goal with
    | |- context [read_fields _ _ _ ?n' ?vs' ?fStr'] =>
        pose proof (IH n' vs' fStr' Hall) as H
    end.
    destruct (read_fields _ _ _ _ _ _) as [[vs fStr']|]; [|done].
    by rewrite H, <- app_assoc.
Qed.

(** A value that is no text cannot be quoted. *)
Lemma write_values_none fields values nvalues n vStr :
  0 <= n -> n + Z.of_nat (length values) <= Z.of_nat (length fields) ->
  None ∈ values ->
  write_values fields values nvalues n vStr = Py.Raise Py.TypeError.
Proof.
  revert n vStr. induction values as [|v values IH]; intros n vStr Hn Hlen Hin.
  { by apply elem_of_nil in Hin. }
  simpl in *.
  destruct (Py.getitem fields n) as [fn|e] eqn:Hfn.
  2:{ exfalso. unfold Py.getitem in Hfn.
      rewrite (proj2 (Z.ltb_ge n 0)) in Hfn by lia.
      rewrite (proj2 (Z.ltb_ge n 0)), (proj2 (Z.leb_gt _ n)) in Hfn by lia.
      simpl in Hfn.
      destruct (fields !! Z.to_nat n) eqn:Hl; [done|].
      apply lookup_ge_None in Hl. lia. }
  simpl. destruct v as [s|].
  - apply elem_of_cons in Hin as [?|Hin]; [done|].
    destruct (_ || _); [destruct (eqb_ostr _ _)|]; simpl; apply IH; (lia || done).
  - destruct (_ || _); [destruct (eqb_ostr None (Some "null")) eqn:E|]; try done.
Qed.

(** An entry with every column element, one of them without text. *)
Lemma tx_sql_no_text ttype fields transaction :
  Forall (fun f => is_Some (find transaction f)) fields ->
  (exists f e, f ∈ fields /\ find transaction f = Some e /\ text e = None) ->
  tx_sql ttype fields transaction = Py.Raise Py.TypeError.
Proof.
  intros Hall (f & e & Hin & Hf & Ht). unfold tx_sql.
  pose proof (read_fields_present transaction fields (Z.of_nat (length fields)) 0 []
                (insert_head ttype) Hall) as Hread.
  destruct (read_fields _ _ _ _ _ _) as [[vs fStr']|]; [|done].
  subst vs. simpl. rewrite write_values_none; [done|lia| |].
  - rewrite length_map. lia.
  - apply list_elem_of_fmap. exists f. rewrite Hf. simpl. done.
Qed.

(** The columns of a saved granule entry. *)
Lemma saved_granule_columns g cid :
  Forall (fun f => is_Some (find (reparsed (Gelement env g cid)) f)) FIELDS_G.
Proof. repeat (apply Forall_cons; split; [by eexists|]). done. Qed.

(** X7.  A granule whose insert is pending while one of its text fields
    (its id, its collection id, its UR, a date, or its local file name,
    which is the empty string until the granule has been planned for
    download) is empty or None is saved by [savePendTx] as an entry that
    cannot be replayed: the element of that column is read back without
    text, and building the statement raises TypeError.  The replay of the
    granule file then stops at that entry in every run: the entries before
    it are inserted again, and the file is left as it was. *)
Theorem saved_granule_without_text_blocks_replay tfn w root done g cid rest qs t1 v :
  fs w !! tfn = Some (File (XmlDoc root)) ->
  findall root "granule"
  = (done ++ reparsed (Gelement env g cid) :: rest)%list ->
  Forall2 (fun e q => tx_sql "G" FIELDS_G e = Py.Ret q) done qs ->
  insert_run env (trace w) qs t1 ->
  v ∈ [egid g; cid; granuleUR g; g_begDateTime g; g_endDateTime g;
       localFileName g] ->
  blank v = None ->
  tx_sql "G" FIELDS_G (reparsed (Gelement env g cid)) = Py.Raise Py.TypeError
  /\ exists w',
       processtx env "G" tfn w = (Py.Raise Py.TypeError, w')
       /\ trace w' = (trace w ++ map (fun q => DbInsert q true) qs)%list
       /\ fs w' = fs w.
Proof.
  intros Hfile Hsplit Hst Hrun Hv Hblank.
  assert (Hbad : tx_sql "G" FIELDS_G (reparsed (Gelement env g cid))
                 = Py.Raise Py.TypeError).
  { apply tx_sql_no_text; [apply saved_granule_columns|].
    assert (Hcol : forall f e,
              f ∈ FIELDS_G ->
              find (reparsed (Gelement env g cid)) f = Some e ->
              text e = None ->
              exists f e, f ∈ FIELDS_G
                /\ find (reparsed (Gelement env g cid)) f = Some e
                /\ text e = None) by eauto.
    assert (Hin : forall f, In f FIELDS_G -> f ∈ FIELDS_G)
      by (intros; by apply list_elem_of_In).
    apply elem_of_cons in Hv as [->|Hv];
      [apply (Hcol "granID" _ (Hin "granID" ltac:(simpl; tauto)) eq_refl Hblank)|].
    apply elem_of_cons in Hv as [->|Hv];
      [apply (Hcol "collID" _ (Hin "collID" ltac:(simpl; tauto)) eq_refl Hblank)|].
    apply elem_of_cons in Hv as [->|Hv];
      [apply (Hcol "granuleUR" _ (Hin "granuleUR" ltac:(simpl; tauto)) eq_refl Hblank)|].
    apply elem_of_cons in Hv as [->|Hv];
      [apply (Hcol "begDateTime" _ (Hin "begDateTime" ltac:(simpl; tauto)) eq_refl Hblank)|].
    apply elem_of_cons in Hv as [->|Hv];
      [apply (Hcol "endDateTime" _ (Hin "endDateTime" ltac:(simpl; tauto)) eq_refl Hblank)|].
    apply elem_of_cons in Hv as [->|Hv];
      [apply (Hcol "localFileName" _ (Hin "localFileName" ltac:(simpl; tauto)) eq_refl Hblank)|].
    by apply elem_of_nil in Hv. }
  split; [done|].
  rewrite (processtx_unfold env "G" "granule" FIELDS_G _ _ _ eq_refl Hfile).
  set (cur := numbered (children root)).
  set (P := fun c : nat * element => String.eqb (tag (snd c)) "granule").
  assert (Hsnd : map snd (List.filter P cur)
                 = (done ++ reparsed (Gelement env g cid) :: rest)%list).
  { unfold P, cur. by rewrite filter_numbered. }
  apply map_split_at in Hsnd as (done' & bad' & rest' & Hf & Hd & Hb & Hr).
  subst done rest. rewrite Hf. rewrite <- Hb in Hbad.
  destruct (replay_until_raise env "G" FIELDS_G tfn root done' bad' rest' cur w
              qs t1 Py.TypeError (statements_map _ _ _ _ Hst) Hrun Hbad)
    as [l Hl].
  rewrite Hl. eexists. split; [done|]. split; [|done].
  cbn [trace]. by apply (insert_run_trace env).
Qed.

End SavedTx.

Section SavedTxStatements.
Import Sys Catalog Xml Host PendingTx PendingTxSave Spec Spec2.
Variable env : Env.

(** X8.  For a polygon point whose insert failed, the entry [savePendTx]
    writes is replayed as the very statement [polypointInsert] ran (when
    the granule id is a non-empty string; the two numbers are written by
    [str], which gives no empty string). *)
Theorem saved_polypoint_replays_failed_statement p gid s :
  gid = Some s -> s <> "" ->
  str_float env (latitude p) <> "" -> str_float env (longitude p) <> "" ->
  tx_sql "P" FIELDS_P (reparsed (Pelement env p gid))
  = Db.polypoint_sql env gid (latitude p) (longitude p)
  /\ Db.polypoint_sql env gid (latitude p) (longitude p)
     = Py.Ret ("insert into polypoints (granID,latitude,longitude) values('"
               ++ s ++ "','" ++ str_float env (latitude p) ++ "','"
               ++ str_float env (longitude p) ++ "');").
Proof.
  intros -> Hs Hlat Hlon. split; [|done].
  unfold tx_sql, Db.polypoint_sql.
  cbn [reparsed Pelement leaf map]. rewrite !blank_some by done.
  simpl. rewrite !string_app_assoc. reflexivity.
Qed.

(** X9.  For a granule whose insert failed, the entry [savePendTx] writes
    is not replayed as the statement [granuleInsert] ran: the replayed
    statement names the column [sizeMB] after [granuleUR], which the
    direct insert does not have. *)
Theorem saved_granule_replays_other_statement g cid q q' :
  tx_sql "G" FIELDS_G (reparsed (Gelement env g cid)) = Py.Ret q ->
  Db.granule_sql env g cid = Py.Ret q' ->
  String.prefix "insert into granules (granID,collID,granuleUR,sizeMB," q = true
  /\ String.prefix "insert into granules (granID,collID,granuleUR,begDateTime," q'
     = true
  /\ q <> q'.
Proof.
  intros Hq Hq'.
  assert (H1 : String.prefix
                 "insert into granules (granID,collID,granuleUR,sizeMB," q = true).
  { unfold tx_sql in Hq.
    destruct (read_fields _ _ _ _ _ _) as [[values fStr]|] eqn:Hread; [|done].
    cbn [Py.bind] in Hq.
    destruct (write_values _ _ _ _ _) as [vStr|]; [|done].
    cbn [Py.bind] in Hq. injection Hq as <-.
    vm_compute in Hread. injection Hread as _ <-. reflexivity. }
  assert (H2 : String.prefix
                 "insert into granules (granID,collID,granuleUR,begDateTime," q'
               = true).
  { revert Hq'. unfold Db.granule_sql.
    destruct (Db.convert_datetime (g_begDateTime g)); simpl; [|done].
    destruct (Db.convert_datetime (g_endDateTime g)); simpl; [|done].
    destruct (egid g); simpl; [|done].
    destruct cid; simpl; [|done].
    destruct (granuleUR g); simpl; [|done].
    destruct (localFileName g); simpl; [|done].
    intros [= <-]. rewrite !string_app_assoc. reflexivity. }
  split; [done|]. split; [done|]. intros ->.
  by destruct (prefix_comparable _ _ _ H1 H2).
Qed.

End SavedTxStatements.

Section SavedTxFiles.
Import Sys Catalog Xml Host PendingTx PendingTxSave Spec Spec2.
Variable env : Env.
Variable host : Host.

Lemma add_children_nil r : add_children r [] = r.
Proof. destruct r. unfold add_children. simpl. by rewrite app_nil_r. Qed.

Lemma add_children_app r a b :
  add_children (add_children r a) b = add_children r (a ++ b).
Proof. unfold add_children. simpl. by rewrite app_assoc. Qed.

Lemma fold_save_point gid ps proot :
  fold_left (save_point env gid) ps proot
  = add_children proot (map (fun p => Pelement env p gid)
                            (List.filter p_dbInsertFailed ps)).
Proof.
  revert proot. induction ps as [|p ps IH]; intros proot; simpl.
  - by rewrite add_children_nil.
  - rewrite IH. unfold save_point. destruct (p_dbInsertFailed p); [|done].
    simpl. unfold makePelement.
    change (append_child proot (Pelement env p gid))
      with (add_children proot [Pelement env p gid]).
    by rewrite add_children_app.
Qed.

Lemma fold_save_granule cid gs groot proot :
  fold_left (save_granule env cid) gs (groot, proot)
  = (add_children groot (map (fun g => Gelement env g cid)
                             (List.filter g_dbInsertFailed gs)),
     add_children proot
       (flat_map (fun g => map (fun p => Pelement env p (egid g))
                               (List.filter p_dbInsertFailed (polyPoints g))) gs)).
Proof.
  revert groot proot. induction gs as [|g gs IH]; intros groot proot; simpl.
  - by rewrite !add_children_nil.
  - unfold save_granule at 2. cbn [fst snd]. rewrite IH, fold_save_point.
    rewrite add_children_app. f_equal.
    destruct (g_dbInsertFailed g); [|done]. simpl. unfold makeGelement.
    change (append_child groot (Gelement env g cid))
      with (add_children groot [Gelement env g cid]).
    by rewrite add_children_app.
Qed.

Lemma fold_save_collection cs croot groot proot :
  fold_left (save_collection env) cs (croot, (groot, proot))
  = (add_children croot (pending_C cs),
     (add_children groot (pending_G env cs),
      add_children proot (pending_P env cs))).
Proof.
  revert croot groot proot. induction cs as [|c cs IH];
    intros croot groot proot; simpl.
  - unfold pending_C, pending_G, pending_P. simpl. by rewrite !add_children_nil.
  - unfold save_collection at 2. cbn [fst snd]. rewrite fold_save_granule, IH.
    unfold pending_C, pending_G, pending_P. simpl.
    rewrite !add_children_app. f_equal.
    destruct (dbInsertFailed c); [|done]. simpl. unfold makeCelement.
    change (append_child croot (Celement c))
      with (add_children croot [Celement c]).
    by rewrite add_children_app.
Qed.

(** Writing one queue to its file, which is absent. *)
Lemma write_queue f txs w :
  fs w !! f = None ->
  (forall t p, os_open_a_ok host t p = true) ->
  (forall t p, os_write_ok host t p = true) ->
  exists w',
    (if len (Elem "data" [] None txs) >? 0
     then writePendingTx host f (Elem "data" [] None txs) else ret tt) w
    = (Py.Ret tt, w')
    /\ fs w' !! f = queue_file txs
    /\ forall p, p <> f -> fs w' !! p = fs w !! p.
Proof.
  intros Hf Hopen Hwrite. destruct txs as [|tx txs].
  - exists w. by rewrite Hf.
  - replace (len _ >? 0) with true by done.
    unfold writePendingTx, open_a, write_appended.
    cbv [mbind write get_trace get_fs emit set_fs ret]. cbn [log trace fs].
    rewrite Hf, Hopen. cbn [log trace fs]. rewrite Hwrite. cbn [log trace fs].
    eexists. split; [reflexivity|]. cbn [fs]. split.
    + by rewrite lookup_insert_eq.
    + intros p Hp. by rewrite !lookup_insert_ne.
Qed.

(** X10.  [savePendTx] captures exactly what failed: when the three queue
    files are absent (and can be written), the collection file holds one
    entry for each collection flagged [dbInsertFailed], the granule file
    one for each flagged granule and the polygon point file one for each
    flagged point, in the order of the working set, as a parser reads
    them back; the file of an empty queue is not created, and no other
    file is touched. *)
Theorem savePendTx_captures_failed_inserts h ero w :
  cpf h <> gpf h -> cpf h <> ppf h -> gpf h <> ppf h ->
  fs w !! cpf h = None -> fs w !! gpf h = None -> fs w !! ppf h = None ->
  (forall t p, os_open_a_ok host t p = true) ->
  (forall t p, os_write_ok host t p = true) ->
  exists w',
    savePendTx env host h ero w = (Py.Ret tt, w')
    /\ fs w' !! cpf h = queue_file (pending_C (collContainer ero))
    /\ fs w' !! gpf h = queue_file (pending_G env (collContainer ero))
    /\ fs w' !! ppf h = queue_file (pending_P env (collContainer ero))
    /\ forall p, p <> cpf h -> p <> gpf h -> p <> ppf h ->
         fs w' !! p = fs w !! p.
Proof.
  intros Hcg Hcp Hgp Hc Hg Hp Hopen Hwrite. unfold savePendTx.
  rewrite fold_save_collection. unfold data_root, add_children. cbn [tag attrib text children app].
  destruct (write_queue (cpf h) (pending_C (collContainer ero)) w Hc Hopen Hwrite)
    as (w1 & R1 & F1 & O1).
  destruct (write_queue (gpf h) (pending_G env (collContainer ero)) w1
              ltac:(by rewrite O1) Hopen Hwrite) as (w2 & R2 & F2 & O2).
  destruct (write_queue (ppf h) (pending_P env (collContainer ero)) w2
              ltac:(by rewrite O2, O1) Hopen Hwrite) as (w3 & R3 & F3 & O3).
  exists w3. unfold mbind. rewrite R1, R2, R3. split_and!.
  - done.
  - by rewrite O3, O2.
  - by rewrite O3.
  - done.
  - intros p H1 H2 H3. by rewrite O3, O2, O1.
Qed.

End SavedTxFiles.

(** ** QueryBuilder: what the loader accepts *)

Section LoaderAccepts.
Import Xml QueryBuilder Spec2.

Lemma fbind_go_inv {A B} (r : flow A) (k : A -> flow B) b :
  fbind r k = Go b -> exists a, r = Go a /\ k a = Go b.
Proof. destruct r; simpl; eauto; done. Qed.

Lemma lift_go_inv {A} (r : Py.res A) a : lift r = Go a -> r = Py.Ret a.
Proof. destruct r; simpl; [by intros [= ->]|done]. Qed.

(** The temporal branches leave the version alone. *)
Lemma static_tcrit_vinfo st tcrit :
  vinfo (fst (static_tcrit st tcrit)) = vinfo (fst st).
Proof.
  destruct st as [l [s e]]. unfold static_tcrit.
  destruct (String.eqb (tag tcrit) "startdatetime");
    destruct (String.eqb (tag tcrit) "enddatetime"); done.
Qed.

Lemma static_criteria_vinfo criteria l l' :
  static_criteria criteria l = Go l' -> vinfo l' = vinfo l.
Proof.
  unfold static_criteria.
  assert (H : forall tcrits st,
            vinfo (fst (fold_left static_tcrit tcrits st)) = vinfo (fst st)).
  { induction tcrits as [|t tcrits IH]; intros st; simpl; [done|].
    by rewrite IH, static_tcrit_vinfo. }
  specialize (H (children criteria) (l, (false, false))).
  destruct (fold_left _ _ _) as [l1 [s e]]. simpl in H.
  destruct (negb _); [done|]. by intros [= <-].
Qed.

Lemma recurring_tcrit_vinfo tcrit st st' :
  recurring_tcrit tcrit st = Go st' -> vinfo (fst st') = vinfo (fst st).
Proof.
  unfold recurring_tcrit. destruct st as [l f]. intros H.
  apply fbind_go_inv in H as ([l1 f1] & H1 & H).
  apply fbind_go_inv in H as ([l2 f2] & H2 & H).
  assert (E1 : vinfo l1 = vinfo l).
  { destruct (String.eqb (tag tcrit) "year"); [|by injection H1 as <- <-].
    revert H1. unfold recurring_year. cbn [fst snd].
    destruct (_ && _); [|by intros [= <- <-]].
    destruct (lift (Py.int _)); simpl; [|done..].
    destruct (lift (Py.int _)); simpl; [|done..].
    destruct (_ >? _); [done|]. by intros [= <- <-]. }
  assert (E2 : vinfo l2 = vinfo l1).
  { destruct (String.eqb (tag tcrit) "start"); [|by injection H2 as <- <-].
    revert H2. unfold recurring_start.
    destruct (_ && _); [|by intros [= <- <-]].
    destruct (lift (Py.int _)); simpl; [|done..].
    destruct (_ || _); [done|].
    destruct (lift (Py.int _)); simpl; [|done..].
    destruct (_ || _); [done|]. by intros [= <- <-]. }
  assert (E3 : vinfo (fst st') = vinfo l2).
  { destruct (String.eqb (tag tcrit) "end"); [|by injection H as <-].
    revert H. unfold recurring_end.
    destruct (_ && _); [|by intros [= <-]].
    destruct (lift (Py.int _)); simpl; [|done..].
    destruct (_ || _); [done|].
    destruct (lift (Py.int _)); simpl; [|done..].
    destruct (_ || _); [done|]. by intros [= <-]. }
  simpl. congruence.
Qed.

Lemma recurring_loop_vinfo tcrits st st' :
  recurring_loop tcrits st = Go st' -> vinfo (fst st') = vinfo (fst st).
Proof.
  revert st. induction tcrits as [|t tcrits IH]; intros st; simpl.
  - by intros [= <-].
  - intros H. apply fbind_go_inv in H as (st1 & H1 & H).
    apply recurring_tcrit_vinfo in H1. apply IH in H. congruence.
Qed.

Lemma recurring_criteria_vinfo criteria l l' :
  recurring_criteria criteria l = Go l' -> vinfo l' = vinfo l.
Proof.
  unfold recurring_criteria. intros H.
  apply fbind_go_inv in H as ([l1 f] & H1 & H).
  apply recurring_loop_vinfo in H1. simpl in H1.
  repeat (apply fbind_go_inv in H as (? & _ & H)).
  destruct (_ >? _); [done|]. destruct (negb _); [done|].
  repeat (apply fbind_go_inv in H as (? & _ & H)).
  destruct x7 as [tsd ted].
  repeat (apply fbind_go_inv in H as (? & _ & H)).
  injection H as <-. done.
Qed.

(** One criteria that the loop gets past. *)
Lemma dataset_criteria_sound c l v b t l' v' b' t' :
  dataset_criteria c (l, (v, b, t)) = Go (l', (v', b', t')) ->
  known_criteria c
  /\ ((tag c = "boundingbox" /\ v' = v /\ b' = true /\ t' = t
       /\ vinfo l' = vinfo l)
      \/ (tag c = "version" /\ v' = true /\ b' = b /\ t' = t
          /\ vinfo l' = get c "v")
      \/ (tag c = "temporal" /\ v' = v /\ b' = b /\ t' = true
          /\ vinfo l' = vinfo l)).
Proof.
  unfold dataset_criteria.
  destruct (String.eqb (tag c) "boundingbox") eqn:Hb.
  { apply String.eqb_eq in Hb.
    destruct (get c "w") eqn:Hw; [|done]. destruct (get c "s") eqn:Hs; [|done].
    destruct (get c "e") eqn:He; [|done]. destruct (get c "n") eqn:Hn; [|done].
    intros [= <- <- <- <-]. split.
    - left. rewrite Hw, Hs, He, Hn. by eauto 10.
    - left. done. }
  destruct (String.eqb (tag c) "version") eqn:Hv.
  { apply String.eqb_eq in Hv. intros [= <- <- <- <-]. split.
    - right. by left.
    - right. left. done. }
  destruct (String.eqb (tag c) "temporal") eqn:Ht; [|done].
  apply String.eqb_eq in Ht.
  destruct (Py.len _ =? 0); [done|].
  assert (Hty : forall ty, get_default c "type" "" = ty -> ty <> "" ->
                           get c "type" = Some ty).
  { unfold get_default. destruct (get c "type"); simpl; congruence. }
  destruct (String.eqb (get_default c "type" "") "static") eqn:Hst.
  { apply String.eqb_eq in Hst. intros H.
    apply fbind_go_inv in H as (l1 & H1 & H). injection H as <- <- <- <-.
    apply static_criteria_vinfo in H1. split.
    - right. right. split; [done|]. left. by apply Hty.
    - right. right. done. }
  destruct (String.eqb (get_default c "type" "") "recurring") eqn:Hrc; [|done].
  apply String.eqb_eq in Hrc. intros H.
  apply fbind_go_inv in H as (l1 & H1 & H). injection H as <- <- <- <-.
  apply recurring_criteria_vinfo in H1. split.
  - right. right. split; [done|]. right. by apply Hty.
  - right. right. done.
Qed.

Lemma criteria_loop_sound cs l v b t l' v' b' t' :
  criteria_loop cs (l, (v, b, t)) = Go (l', (v', b', t')) ->
  Forall known_criteria cs
  /\ (b' = true -> b = true \/ Exists (fun c => tag c = "boundingbox") cs)
  /\ (t' = true -> t = true \/ Exists (fun c => tag c = "temporal") cs)
  /\ (v' = true ->
        (v = true /\ vinfo l' = vinfo l)
        \/ Exists (fun c => tag c = "version" /\ get c "v" = vinfo l') cs).
Proof.
  revert l v b t. induction cs as [|c cs IH]; intros l v b t; simpl.
  - intros [= <- <- <- <-]. split_and!; auto.
  - intros H. apply fbind_go_inv in H as ([l1 [[v1 b1] t1]] & H1 & H).
    apply dataset_criteria_sound in H1 as [K1 S1].
    apply IH in H as (K & Hb & Ht & Hv).
    split_and!.
    + by apply Forall_cons.
    + intros E. destruct (Hb E) as [->|?]; [|right; by apply Exists_cons_tl].
      destruct S1 as [S1|[S1|S1]]; destruct S1 as (Htag & ? & ? & ? & ?); subst.
      * right. by apply Exists_cons_hd.
      * by left.
      * by left.
    + intros E. destruct (Ht E) as [->|?]; [|right; by apply Exists_cons_tl].
      destruct S1 as [S1|[S1|S1]]; destruct S1 as (Htag & ? & ? & ? & ?); subst.
      * by left.
      * by left.
      * right. by apply Exists_cons_hd.
    + intros E. destruct (Hv E) as [[-> Hvi]|?]; [|right; by apply Exists_cons_tl].
      destruct S1 as [S1|[S1|S1]]; destruct S1 as (Htag & ? & ? & ? & Hvi1); subst.
      * left. split; [done|]. congruence.
      * right. apply Exists_cons_hd. split; [done|]. congruence.
      * left. split; [done|]. congruence.
Qed.

Lemma load_dataset_sound d l qs l' qs' :
  load_dataset d (l, qs) = Go (l', qs') ->
  complete_dataset d /\ exists q, qs' = (qs ++ [q])%list.
Proof.
  unfold load_dataset. intros H.
  apply fbind_go_inv in H as ([l1 [[v b] t]] & H1 & H).
  apply criteria_loop_sound in H1 as (K & Hb & Ht & Hv).
  destruct b; [|done]. destruct v; [|done]. destruct t; [|done]. simpl in H.
  apply fbind_go_inv in H as (tst & _ & H).
  apply fbind_go_inv in H as (q & Hq & H). injection H as <- <-.
  apply lift_go_inv in Hq. unfold ECHOdsQuery_init in Hq.
  destruct (get d "shortname") as [sn|] eqn:Hsn; [|done]. simpl in Hq.
  destruct (vinfo l1) as [ver|] eqn:Hver; [|done].
  split; [|by eexists]. split_and!.
  - by eexists.
  - done.
  - by destruct (Hb eq_refl).
  - destruct (Hv eq_refl) as [[? _]|E]; [done|].
    eapply Exists_impl; [exact E|]. intros c [? ->]. split; [done|by eexists].
  - by destruct (Ht eq_refl).
Qed.

Lemma dataset_loop_sound ds l qs l' qs' :
  dataset_loop ds (l, qs) = Go (l', qs') ->
  Forall complete_dataset ds
  /\ length qs' = (length qs + length ds)%nat.
Proof.
  revert l qs. induction ds as [|d ds IH]; intros l qs; simpl.
  - intros [= <- <-]. split; [done|lia].
  - intros H. apply fbind_go_inv in H as ([l1 qs1] & H1 & H).
    apply load_dataset_sound in H1 as (C & q & ->).
    apply IH in H as (Cs & Hlen). split; [by apply Forall_cons|].
    rewrite Hlen, length_app. simpl. lia.
Qed.

Lemma loadDataSetQueries_accepts_complete_datasets_lemma edrRoot qs :
  loadDataSetQueries edrRoot = Go qs ->
  length qs = length (children edrRoot)
  /\ Forall complete_dataset (children edrRoot).
Proof.
  unfold loadDataSetQueries. intros H.
  apply fbind_go_inv in H as ([l qs'] & H1 & H). injection H as <-.
  apply dataset_loop_sound in H1 as [C L]. done.
Qed.

(** X11.  When [loadDataSetQueries] accepts a request, it has built one
    query per child of the root, in order, and every child is a complete
    dataset: it has a [shortname] attribute, nothing but bounding box,
    version and temporal criteria, at least one of each (with a [v]
    attribute on a version criteria), the four sides on every bounding
    box, and the search type [static] or [recurring] on every temporal
    criteria. *)
Theorem loadDataSetQueries_accepts_complete_datasets edrRoot qs :
  loadDataSetQueries edrRoot = Go qs ->
  length qs = length (children edrRoot)
  /\ Forall complete_dataset (children edrRoot).
Proof.
  unfold loadDataSetQueries. intros H.
  apply fbind_go_inv in H as ([l qs'] & H1 & H). injection H as <-.
  apply dataset_loop_sound in H1 as [C L]. done.
Qed.

(** A dataset with a static temporal criteria, whatever its eight
    strings are, and whatever the loop has seen before. *)
Lemma load_static_dataset x l qs :
  exists l' q,
    load_dataset (static_request x) (l, qs) = Go (l', (qs ++ [q])%list)
    /\ getDSqueryStr q = static_query_string x
    /\ getSpatialstr q
       = "&bounding_box=" ++ st_w x ++ "," ++ st_s x ++ "," ++ st_e x ++ "," ++ st_n x
    /\ getTemporalStr q = "&temporal=" ++ st_start x ++ "," ++ st_end x.
Proof.
  unfold load_dataset, static_request, static_dataset.
  simpl. unfold get, get_default. simpl.
  unfold ECHOdsQuery_init, bbox_get. simpl.
  rewrite lookup_insert_ne, lookup_insert_ne, lookup_insert_ne, lookup_insert_eq
    by done.
  simpl.
  rewrite lookup_insert_ne, lookup_insert_ne, lookup_insert_eq by done.
  simpl.
  rewrite lookup_insert_ne, lookup_insert_eq by done.
  simpl.
  rewrite lookup_insert_eq.
  simpl.
  eexists _, _. split; [reflexivity|].
  unfold getDSqueryStr, getSpatialstr, getTemporalStr, static_query_string.
  cbn [snStr vStr bbStr tStr]. rewrite !string_app_assoc. done.
Qed.

Lemma dataset_loop_static xs l qs :
  exists l' qs',
    dataset_loop (map static_request xs) (l, qs) = Go (l', (qs ++ qs')%list)
    /\ map getDSqueryStr qs' = map static_query_string xs.
Proof.
  revert l qs. induction xs as [|x xs IH]; intros l qs; cbn [map dataset_loop].
  - exists l, []. by rewrite app_nil_r.
  - destruct (load_static_dataset x l qs) as (l1 & q & H1 & Hq & _).
    rewrite H1. cbn [fbind].
    destruct (IH l1 (qs ++ [q])%list) as (l' & qs' & H & Hqs).
    exists l', (q :: qs'). rewrite H. split.
    + by rewrite <- app_assoc.
    + simpl. by rewrite Hq, Hqs.
Qed.

(** X12.  A request whose datasets each have a bounding box, a version
    and a static temporal criteria with a start and an end is accepted
    whatever the strings are (no date is checked, and empty strings
    pass), and the catalog is asked, dataset by dataset and in order, for
    [?shortName=..&version=..&bounding_box=w,s,e,n&temporal=start,end]:
    nothing of one dataset shows in the query of another. *)
Theorem static_requests_become_query_strings t a x (xs : list static_spec) :
  exists qs,
    loadDataSetQueries (Elem t a x (map static_request xs)) = Go qs
    /\ map getDSqueryStr qs = map static_query_string xs.
Proof.
  unfold loadDataSetQueries. cbn [children].
  destruct (dataset_loop_static xs initial_locals []) as (l' & qs' & H & Hqs).
  rewrite H. simpl. by exists qs'.
Qed.

(** X13.  A request of one dataset with a bounding box, a version and a
    static temporal criteria, whatever their strings, but without a
    [shortname] attribute, or with a version criteria without a [v]
    attribute, is not turned down with a message: the loader gets past
    its checks and faults with TypeError where the query strings are put
    together. *)
Theorem dataset_without_name_or_version_faults t a x (s : static_spec) :
  loadDataSetQueries
    (Elem t a x [static_dataset [] (Elem "version" [("v", st_version s)] None []) s])
  = Throw Py.TypeError
  /\ loadDataSetQueries
       (Elem t a x [static_dataset [("shortname", st_shortname s)]
                                   (Elem "version" [] None []) s])
     = Throw Py.TypeError.
Proof. split; reflexivity. Qed.

End LoaderAccepts.

(** ** Request validation *)

Section RequestValidation.
Import Sys Catalog Xml Host Request Spec2.
Variable env : Env.
Variable host : Host.

Lemma write_then_none {A} (msg : string) w (x : A) w' :
  (write msg ;; ret (@None A)) w <> (Py.Ret (Some x), w').
Proof. cbv [mbind write ret]. congruence. Qed.

Lemma get_default_some e k v : get_default e k "" = v -> v <> "" -> get e k = Some v.
Proof. unfold get_default. destruct (get e k); simpl; congruence. Qed.

Lemma setDiskSpaceAvail_ok r r' w w' :
  setDiskSpaceAvail host r w = (Py.Ret (true, r'), w') ->
  w' = w
  /\ exists f_bavail f_frsize,
       os_statvfs host (directoryRoot r) = Some (f_bavail, f_frsize)
       /\ r' = setAvail (free_MB f_bavail f_frsize) r.
Proof.
  unfold setDiskSpaceAvail.
  destruct (os_statvfs host (directoryRoot r)) as [[a b]|].
  - intros H. apply ret_inv in H as [E ->]. split; [done|]. exists a, b.
    split; [done|]. injection E as E. exact E.
  - cbv [mbind write ret]. congruence.
Qed.

(** What an accepted request file is like. *)
Lemma validateRequest_accepted xmlConfigFile r w r' edrRoot w' :
  validateRequest env host xmlConfigFile r w = (Py.Ret (Some (r', edrRoot)), w') ->
  fs w !! xmlConfigFile = Some (File (XmlDoc edrRoot))
  /\ children edrRoot <> []
  /\ (dbFlag r' = "True" \/ dbFlag r' = "False")
  /\ get edrRoot "useDB" = Some (dbFlag r')
  /\ get edrRoot (root_attribute (dbFlag r')) = Some (directoryRoot r')
  /\ directoryRoot r' <> ""
  /\ writable_path (fs w) (directoryRoot r')
  /\ 1 <= maxDataFiles r <= 2000
  /\ 1 <= dwnloadLimit r <= 5120
  /\ (exists f_bavail f_frsize,
        os_statvfs host (directoryRoot r') = Some (f_bavail, f_frsize)
        /\ r' = setAvail (free_MB f_bavail f_frsize)
                  (setValidated (dbFlag r') (directoryRoot r') r))
  /\ fs w' = fs w.
Proof.
  unfold validateRequest. intros H.
  apply mbind_ret_inv in H as (? & w1 & Hw1 & H).
  assert (F1 : fs w1 = fs w) by (by injection Hw1 as _ <-). clear Hw1.
  apply mbind_ret_inv in H as (opened & w2 & Hopen & H).
  assert (F2 : fs w2 = fs w1).
  { revert Hopen. unfold Os.open_r. cbv [mbind get_trace get_fs emit ret].
    by intros [= _ <-]. }
  destruct opened; simpl in H; [|by apply write_then_none in H].
  apply mbind_ret_inv in H as (parsed & w3 & Hparse & H).
  assert (P3 : w3 = w2 /\ parsed = match fs w2 !! xmlConfigFile with
                                  | Some (File (XmlDoc root)) => Some root
                                  | _ => None end).
  { revert Hparse. unfold Os.parse. cbv [mbind get_fs ret]. by intros [= <- <-]. }
  destruct P3 as [-> ->]. rewrite F2, F1 in H.
  destruct (fs w !! xmlConfigFile) as [[|[root|]]|] eqn:Hfile;
    try (by apply write_then_none in H).
  destruct (len root =? 0) eqn:Hlen; [by apply write_then_none in H|].
  set (flag := get_default root "useDB" "") in *.
  destruct (negb (String.eqb flag "True") && negb (String.eqb flag "False"))
    eqn:Hflag; [by apply write_then_none in H|].
  set (dir := if String.eqb flag "True" then get_default root "dbRoot" ""
              else get_default root "dataRoot" "") in *.
  destruct (Py.len dir =? 0) eqn:Hdir; [by apply write_then_none in H|].
  apply mbind_ret_inv in H as (there & w4 & Hthere & H).
  assert (T4 : w4 = w2 /\ there = bool_decide (is_Some (fs w2 !! dir))).
  { revert Hthere. unfold Os.access_F. cbv [mbind get_fs ret]. by intros [= <- <-]. }
  destruct T4 as [-> ->]. rewrite F2, F1 in H.
  destruct (bool_decide (is_Some (fs w !! dir))) eqn:Hex; simpl in H;
    [|by apply write_then_none in H].
  apply mbind_ret_inv in H as (writable & w5 & Hwr & H).
  assert (T5 : w5 = w2 /\ writable = match fs w2 !! dir with
                                     | Some (Dir b) => b
                                     | Some (File _) => true
                                     | None => false end).
  { revert Hwr. unfold Os.access_W. cbv [mbind get_fs ret]. by intros [= <- <-]. }
  destruct T5 as [-> ->]. rewrite F2, F1 in H.
  destruct (match fs w !! dir with
            | Some (Dir b) => b | Some (File _) => true | None => false end)
    eqn:Hw; simpl in H; [|by apply write_then_none in H].
  destruct ((maxDataFiles r <? 1) || (maxDataFiles r >? 2000)) eqn:Hmax;
    [by apply write_then_none in H|].
  destruct ((dwnloadLimit r <=? 0) || (dwnloadLimit r >? 5120)) eqn:Hlim;
    [by apply write_then_none in H|].
  apply mbind_ret_inv in H as ([ok r1] & w6 & Hspace & H).
  destruct ok; simpl in H; [|by apply write_then_none in H].
  apply setDiskSpaceAvail_ok in Hspace as (-> & a & b & Hst & ->).
  apply mbind_ret_inv in H as (? & w7 & Hw7 & H).
  apply ret_inv in H as [E ->]. injection E as -> ->.
  assert (F7 : fs w7 = fs w2) by (by injection Hw7 as _ <-).
  assert (Hflag' : flag = "True" \/ flag = "False").
  { apply andb_false_iff in Hflag as [Hf|Hf]; apply negb_false_iff, String.eqb_eq in Hf;
      auto. }
  assert (Hdir' : dir <> "").
  { intros E. rewrite E in Hdir. done. }
  cbn [dbFlag directoryRoot setAvail setValidated] in *.
  split_and!.
  - done.
  - intros E. unfold len in Hlen. rewrite E in Hlen. done.
  - done.
  - apply get_default_some; [done|]. by destruct Hflag' as [->| ->].
  - unfold root_attribute. subst dir.
    destruct (String.eqb flag "True"); by apply get_default_some.
  - done.
  - unfold writable_path. by destruct (fs w !! dir) as [[[]|]|].
  - apply orb_false_elim in Hmax as [? ?]. lia.
  - apply orb_false_elim in Hmax as [? ?]. lia.
  - apply orb_false_elim in Hlim as [? ?]. lia.
  - apply orb_false_elim in Hlim as [? ?]. lia.
  - by exists a, b.
  - by rewrite F7, F2, F1.
Qed.

(** X14.  When [validateRequest] accepts, the request file holds a
    document whose root has children and a [useDB] attribute that is
    [True] or [False]; the directory root is the non-empty [dbRoot]
    attribute in the first case and the [dataRoot] attribute in the other,
    and it is there and writable; the result size is within 1..2000 and
    the download limit within 1..5120; the available space is what
    [statvfs] gave, in MB.  Nothing else of the object is set, and the
    file system is only read. *)
Theorem validateRequest_accepts xmlConfigFile r w r' edrRoot w' :
  validateRequest env host xmlConfigFile r w = (Py.Ret (Some (r', edrRoot)), w') ->
  fs w !! xmlConfigFile = Some (File (XmlDoc edrRoot))
  /\ children edrRoot <> []
  /\ (dbFlag r' = "True" \/ dbFlag r' = "False")
  /\ get edrRoot "useDB" = Some (dbFlag r')
  /\ get edrRoot (root_attribute (dbFlag r')) = Some (directoryRoot r')
  /\ directoryRoot r' <> ""
  /\ writable_path (fs w) (directoryRoot r')
  /\ 1 <= maxDataFiles r <= 2000
  /\ 1 <= dwnloadLimit r <= 5120
  /\ (exists f_bavail f_frsize,
        os_statvfs host (directoryRoot r') = Some (f_bavail, f_frsize)
        /\ r' = setAvail (free_MB f_bavail f_frsize)
                  (setValidated (dbFlag r') (directoryRoot r') r))
  /\ fs w' = fs w.
Proof. apply validateRequest_accepted. Qed.

(** X15.  A request object that [ECHOrequest.__init__] builds holds one
    query per child of the root of the request file, which is what
    [loadDataSetQueries] made of that root, with [numDatasetQueries] the
    number of queries; its working set is empty and [numCollections] is
    0; the two command line limits are in their ranges; and
    [havePendDwnld] is set only if the pending download file is there. *)
Theorem ECHOrequest_init_builds xmlConfigFile maxFiles dwnLoadLimit w r have w' :
  ECHOrequest_init env host xmlConfigFile maxFiles dwnLoadLimit w
  = (Py.Ret (r, have), w') ->
  (exists edrRoot,
     fs w !! xmlConfigFile = Some (File (XmlDoc edrRoot))
     /\ QueryBuilder.loadDataSetQueries edrRoot = QueryBuilder.Go (dataSetQueries r)
     /\ length (dataSetQueries r) = length (children edrRoot))
  /\ numDatasetQueries r = Z.of_nat (length (dataSetQueries r))
  /\ collContainer r = [] /\ numCollections r = 0
  /\ pdlfile r = "pendingDwnld.xml"
  /\ maxDataFiles r = maxFiles /\ 1 <= maxFiles <= 2000
  /\ dwnloadLimit r = dwnLoadLimit /\ 1 <= dwnLoadLimit <= 5120
  /\ (have = true -> is_Some (fs w !! "pendingDwnld.xml")).
Proof.
  unfold ECHOrequest_init. intros H.
  apply mbind_ret_inv in H as (there & w1 & Hthere & H).
  assert (T1 : w1 = w /\ there = bool_decide (is_Some (fs w !! "pendingDwnld.xml"))).
  { revert Hthere. unfold Os.access_F. cbv [mbind get_fs ret].
    by intros [= <- <-]. }
  destruct T1 as [-> ->].
  apply mbind_ret_inv in H as (have' & w2 & Hhave & H).
  assert (T2 : fs w2 = fs w /\ (have' = true -> is_Some (fs w !! "pendingDwnld.xml"))).
  { destruct (bool_decide (is_Some (fs w !! "pendingDwnld.xml"))) eqn:Hex.
    - apply bool_decide_eq_true in Hex. split; [|done].
      revert Hhave. unfold Os.open_r.
      cbv [mbind get_trace get_fs emit ret write]. cbn [log trace fs].
      destruct (_ && _); by intros [= _ <-].
    - apply ret_inv in Hhave as [-> ->]. done. }
  destruct T2 as [F2 Hpend].
  apply mbind_ret_inv in H as (v & w3 & Hv & H).
  destruct v as [[r1 edrRoot]|]; [|done].
  apply validateRequest_accepted in Hv
    as (Hfile & _ & _ & _ & _ & _ & _ & Hmax & Hlim & (a & b & _ & Hr1) & F3).
  cbn [maxDataFiles dwnloadLimit] in Hmax, Hlim.
  apply mbind_ret_inv in H as (qs & w4 & Hqs & H).
  destruct qs as [qs|]; [|done].
  assert (Hload : QueryBuilder.loadDataSetQueries edrRoot = QueryBuilder.Go qs).
  { revert Hqs. unfold load_queries. cbv [mbind write ret raise].
    destruct (QueryBuilder.loadDataSetQueries edrRoot); by intros [= ->]. }
  apply mbind_ret_inv in H as ([ok r2] & w5 & Hspace & H).
  destruct ok; [|done].
  apply setDiskSpaceAvail_ok in Hspace as (-> & a' & b' & _ & ->).
  apply ret_inv in H as [E ->]. injection E as -> ->.
  cbn [numDatasetQueries dataSetQueries collContainer numCollections pdlfile
       maxDataFiles dwnloadLimit setAvail setQueries].
  split_and!; try done; try lia; try (by rewrite Hr1).
  exists edrRoot. rewrite <- F2. split_and!; [done..|].
  by apply loadDataSetQueries_accepts_complete_datasets_lemma in Hload as [? _].
Qed.

End RequestValidation.

(** ** TransferEngine: the storage paths *)

Section StoragePaths.
Import Sys Catalog Downloader Spec2.
Variable env : Env.

Lemma mbind_run {A B} (c : M A) (k : A -> M B) w a w1 :
  c w = (Py.Ret a, w1) -> mbind c k w = k a w1.
Proof. unfold mbind. by intros ->. Qed.








End StoragePaths.

(** ** TransferEngine: what [downloadGranules] leaves on the granules *)

Section Reconciled.
Import Sys Catalog Downloader Spec2.
Variable env : Env.

Lemma placed_refl g : placed g g.
Proof. by destruct g. Qed.

Lemma placed_trans g1 g2 g3 : placed g1 g2 -> placed g2 g3 -> placed g1 g3.
Proof.
  unfold placed. intros H1 H2.
  set (a := localFileName g3) in *. set (b := downloadStatus g3) in *.
  set (c := localFileName g2) in *. set (d := downloadStatus g2) in *.
  clearbody a b c d. subst. by destruct g1.
Qed.

(** Planning one granule changes nothing of it but its local file name. *)
Lemma plan_granule_places ero st g w g' st' w' :
  plan_granule env ero st g w = (Py.Ret (g', st'), w') ->
  g' = setLocalFileName (localFileName g') g.
Proof.
  unfold plan_granule. intros H.
  repeat match goal with
  | H : mbind _ _ _ = (Py.Ret _, _) |- _ =>
      let a := fresh "a" in let w := fresh "w" in let E := fresh "E" in
      apply mbind_ret_inv in H as (a & w & E & H)
  | H : (if ?b then _ else _) _ = (Py.Ret _, _) |- _ => destruct b eqn:?
  | H : (let '(_, _) := ?p in _) _ = (Py.Ret _, _) |- _ => destruct p
  | H : ret _ _ = (Py.Ret _, _) |- _ => apply ret_inv in H as [? ?]
  end;
    match goal with
    | E : (_, _) = (_, _) |- _ => injection E as -> ->
    end; by destruct g.
Qed.

Lemma plan_granules_place ero st gs w gs' st' w' :
  plan_granules env ero st gs w = (Py.Ret (gs', st'), w') ->
  Forall2 (fun g g' => g' = setLocalFileName (localFileName g') g) gs gs'.
Proof.
  revert st w gs' st' w'. induction gs as [|g gs IH]; intros st w gs' st' w'; simpl.
  - intros H. apply ret_inv in H as [[= -> ->] _]. constructor.
  - intros H.
    apply mbind_ret_inv in H as ([g1 st1] & w1 & H1 & H).
    apply mbind_ret_inv in H as ([gs1 st2] & w2 & H2 & H).
    apply ret_inv in H as [[= -> ->] _].
    constructor; [by apply plan_granule_places in H1|by apply IH in H2].
Qed.

Lemma plan_collection_places ero st cc w cc' st' w' :
  plan_collection env ero st cc w = (Py.Ret (cc', st'), w') ->
  cc' = setGranContainer (granContainer cc') cc
  /\ Forall2 (fun g g' => g' = setLocalFileName (localFileName g') g)
             (granContainer cc) (granContainer cc').
Proof.
  unfold plan_collection. intros H.
  assert (Hsame : Forall2 (fun g g' => g' = setLocalFileName (localFileName g') g)
                          (granContainer cc) (granContainer cc)).
  { apply Forall_Forall2_diag, Forall_forall. intros g _. by destruct g. }
  destruct (0 <? _).
  - apply mbind_ret_inv in H as ([ok st1] & w1 & H1 & H).
    destruct ok.
    + apply mbind_ret_inv in H as ([gs st2] & w2 & H2 & H).
      apply ret_inv in H as [[= -> ->] _].
      apply plan_granules_place in H2. split; [by destruct cc|done].
    + apply ret_inv in H as [[= -> ->] _]. split; [by destruct cc|done].
  - apply ret_inv in H as [[= -> ->] _]. split; [by destruct cc|done].
Qed.

Lemma plan_collections_place ero st cs w cs' st' w' :
  plan_collections env ero st cs w = (Py.Ret (cs', st'), w') ->
  Forall2 (fun cc cc' =>
             cc' = setGranContainer (granContainer cc') cc
             /\ Forall2 (fun g g' => g' = setLocalFileName (localFileName g') g)
                        (granContainer cc) (granContainer cc')) cs cs'.
Proof.
  revert st w cs' st' w'. induction cs as [|cc cs IH]; intros st w cs' st' w'; simpl.
  - intros H. apply ret_inv in H as [[= -> ->] _]. constructor.
  - intros H.
    apply mbind_ret_inv in H as ([cc1 st1] & w1 & H1 & H).
    apply mbind_ret_inv in H as ([cs1 st2] & w2 & H2 & H).
    apply ret_inv in H as [[= -> ->] _].
    constructor; [by apply plan_collection_places in H1|by apply IH in H2].
Qed.

(** Reconciling one container: each granule takes the status the map has
    for its id, and the flag is raised by a status below zero. *)
Lemma reconcile_granules_spec st gs failed gs' f :
  reconcile_granules st gs failed = Py.Ret (gs', f) ->
  Forall2 (fun g g' => g' = setDownloadStatus (downloadStatus g') g
                       /\ granuleStatus st !! egid g = Some (downloadStatus g'))
          gs gs'
  /\ f = failed || some_failed gs'.
Proof.
  revert failed gs' f. induction gs as [|g gs IH]; intros failed gs' f; simpl.
  - intros [= <- <-]. split; [constructor|by rewrite orb_false_r].
  - destruct (granuleStatus st !! egid g) as [code|] eqn:Hcode; [|done].
    destruct (reconcile_granules st gs _) as [[rest f1]|] eqn:Hrest; [|done].
    simpl. intros [= <- <-].
    apply IH in Hrest as [Hall ->]. split.
    + constructor; [|done]. split; [by destruct g|done].
    + unfold some_failed. simpl. destruct (code <? 0); [|done].
      by rewrite orb_true_r.
Qed.

Lemma reconcile_spec st cs cs' :
  reconcile st cs = Py.Ret cs' ->
  Forall2 (fun cc cc' =>
             cc' = setFailedStatus (haveFailedDwnlds cc')
                     (setGranContainer (granContainer cc') cc)
             /\ Forall2 (fun g g' =>
                           g' = setDownloadStatus (downloadStatus g') g
                           /\ granuleStatus st !! egid g = Some (downloadStatus g'))
                        (granContainer cc) (granContainer cc')
             /\ haveFailedDwnlds cc'
                = haveFailedDwnlds cc || some_failed (granContainer cc')) cs cs'.
Proof.
  revert cs'. induction cs as [|cc cs IH]; intros cs'; simpl.
  - intros [= <-]. constructor.
  - destruct (reconcile_granules st _ _) as [[gs f]|] eqn:Hg; [|done]. simpl.
    destruct (reconcile st cs) as [rest|] eqn:Hrest; [|done]. simpl.
    intros [= <-]. apply reconcile_granules_spec in Hg as [Hall ->].
    constructor; [|by apply IH].
    split_and!; [by destruct cc|done|done].
Qed.

(** What [downloadGranules] leaves. *)
Lemma downloadGranules_leaves fuel ero st w ero' st' w' :
  downloadGranules env fuel ero st w = (Py.Ret (ero', st'), w') ->
  ero' = setCollections (collContainer ero') (numCollections ero) ero
  /\ Forall2 (fun cc cc' =>
                cc' = setFailedStatus (haveFailedDwnlds cc')
                        (setGranContainer (granContainer cc') cc)
                /\ Forall2 (fun g g' =>
                              placed g g'
                              /\ egid g' = egid g
                              /\ granuleStatus st' !! egid g
                                 = Some (downloadStatus g'))
                           (granContainer cc) (granContainer cc')
                /\ haveFailedDwnlds cc'
                   = haveFailedDwnlds cc || some_failed (granContainer cc'))
             (collContainer ero) (collContainer ero').
Proof.
  unfold downloadGranules. intros H.
  apply mbind_ret_inv in H as ([cs1 st1] & w1 & Hplan & H).
  do 2 (apply mbind_ret_inv in H as (? & ? & _ & H)).
  apply mbind_ret_inv in H as (st2 & w4 & _ & H).
  apply mbind_ret_inv in H as (? & ? & _ & H).
  apply mbind_ret_inv in H as (cs2 & w6 & Hrec & H).
  apply pure_ret_inv in Hrec as [Hrec ->].
  apply ret_inv in H as [[= -> ->] _].
  split; [done|]. cbn [collContainer setCollections].
  apply plan_collections_place in Hplan. apply reconcile_spec in Hrec.
  eapply Forall2_trans; [|exact Hplan|exact Hrec].
  intros c c1 c2 [E1 G1] (E2 & G2 & F2). cbv beta in *. split_and!.
  - set (a := haveFailedDwnlds c2) in *. set (b := granContainer c2) in *.
    set (d := granContainer c1) in *. clearbody a b d. subst. by destruct c.
  - eapply Forall2_trans; [|exact G1|exact G2].
    intros g g1 g2 P1 [P2 S2]. cbv beta in *. split_and!.
    + unfold placed.
      set (a := localFileName g1) in *. set (b := downloadStatus g2) in *.
      clearbody a b. subst. by destruct g.
    + rewrite P2, P1. by destruct g.
    + rewrite <- S2. f_equal. rewrite P1. by destruct g.
  - rewrite F2. f_equal. rewrite E1. done.
Qed.

(** X17.  After [downloadGranules] every collection and every granule is
    where it was; a granule differs from what it was in nothing but its
    local file name and its download status, and its status is the one
    the status map holds for its granule id; a collection is flagged
    [haveFailedDwnlds] exactly when it was flagged before or one of its
    granules has a status below zero.  Nothing else of the request object
    changes. *)
Theorem downloadGranules_reconciles fuel ero st w ero' st' w' :
  downloadGranules env fuel ero st w = (Py.Ret (ero', st'), w') ->
  ero' = setCollections (collContainer ero') (numCollections ero) ero
  /\ Forall2 (fun cc cc' =>
                cc' = setFailedStatus (haveFailedDwnlds cc')
                        (setGranContainer (granContainer cc') cc)
                /\ Forall2 (fun g g' =>
                              placed g g'
                              /\ egid g' = egid g
                              /\ granuleStatus st' !! egid g
                                 = Some (downloadStatus g'))
                           (granContainer cc) (granContainer cc')
                /\ haveFailedDwnlds cc'
                   = haveFailedDwnlds cc || some_failed (granContainer cc'))
             (collContainer ero) (collContainer ero').
Proof. apply downloadGranules_leaves. Qed.

End Reconciled.

(** ** PersistenceGateway: who gets flagged *)

Section UpdateFlags.
Import Sys Catalog Db Spec2.
Variable env : Env.

Lemma no_failed_insert_app t1 t2 :
  no_failed_insert (t1 ++ t2) <-> no_failed_insert t1 /\ no_failed_insert t2.
Proof.
  unfold no_failed_insert. split.
  - intros H. split; intros q Hq; apply (H q), elem_of_app; auto.
  - intros [H1 H2] q Hq. apply elem_of_app in Hq as [Hq|Hq]; [by apply (H1 q)|by apply (H2 q)].
Qed.

Lemma no_failed_insert_ok q ok : no_failed_insert [DbInsert q ok] -> ok = true.
Proof.
  intros H. destruct ok; [done|]. exfalso. apply (H q). by apply list_elem_of_singleton.
Qed.

Lemma makeDBinsert_trace q w ok w' :
  makeDBinsert env q w = (Py.Ret ok, w') ->
  trace w' = (trace w ++ [DbInsert q ok])%list.
Proof.
  unfold makeDBinsert. cbv [mbind get_trace emit write ret]. cbn [log trace fs].
  destruct (db_insert_ok env (trace w) q); by intros [= <- <-].
Qed.

Lemma makeDBquery_trace q w rows w' :
  makeDBquery env q w = (Py.Ret rows, w') ->
  exists r, trace w' = (trace w ++ [DbQuery q r])%list.
Proof.
  unfold makeDBquery. cbv [mbind get_trace emit write ret]. cbn [log trace fs].
  destruct (db_rows env (trace w) q); intros [= <- <-]; by eexists.
Qed.

Lemma write_trace s w x w' : write s w = (Py.Ret x, w') -> trace w' = trace w.
Proof. by intros [= _ <-]. Qed.

Lemma collectionInsert_trace c w ok w' :
  collectionInsert env c w = (Py.Ret ok, w') ->
  exists q, trace w' = (trace w ++ [DbInsert q ok])%list.
Proof.
  unfold collectionInsert. intros H.
  apply mbind_ret_inv in H as (? & w1 & H1 & H). apply write_trace in H1.
  apply mbind_ret_inv in H as (q & w2 & H2 & H). apply pure_ret_inv in H2 as [_ ->].
  apply mbind_ret_inv in H as (ok' & w3 & H3 & H). apply makeDBinsert_trace in H3.
  exists q. destruct ok'; simpl in H;
    apply mbind_ret_inv in H as (? & w4 & H4 & H); apply write_trace in H4;
    apply ret_inv in H as [-> ->]; congruence.
Qed.

Lemma granuleInsert_trace g cid w ok w' :
  granuleInsert env g cid w = (Py.Ret ok, w') ->
  exists q, trace w' = (trace w ++ [DbInsert q ok])%list.
Proof.
  unfold granuleInsert. intros H.
  apply mbind_ret_inv in H as (? & w1 & H1 & H). apply write_trace in H1.
  apply mbind_ret_inv in H as (q & w2 & H2 & H). apply pure_ret_inv in H2 as [_ ->].
  apply mbind_ret_inv in H as (ok' & w3 & H3 & H). apply makeDBinsert_trace in H3.
  exists q. destruct ok'; simpl in H;
    apply mbind_ret_inv in H as (? & w4 & H4 & H); apply write_trace in H4;
    apply ret_inv in H as [-> ->]; congruence.
Qed.

Lemma polypointInsert_trace gid lat lon w ok w' :
  polypointInsert env gid lat lon w = (Py.Ret ok, w') ->
  exists q, trace w' = (trace w ++ [DbInsert q ok])%list.
Proof.
  unfold polypointInsert. intros H.
  apply mbind_ret_inv in H as (? & w1 & H1 & H). apply write_trace in H1.
  apply mbind_ret_inv in H as (q & w2 & H2 & H). apply pure_ret_inv in H2 as [_ ->].
  apply mbind_ret_inv in H as (ok' & w3 & H3 & H). apply makeDBinsert_trace in H3.
  exists q. destruct ok'; simpl in H;
    apply mbind_ret_inv in H as (? & w4 & H4 & H); apply write_trace in H4;
    apply ret_inv in H as [-> ->]; congruence.
Qed.

Lemma update_points_flags gid pps w pps' w' :
  update_points env gid pps w = (Py.Ret pps', w') ->
  exists t, trace w' = (trace w ++ t)%list
    /\ (no_failed_insert t -> pps' = pps).
Proof.
  revert w pps' w'. induction pps as [|pp pps IH]; intros w pps' w'; simpl.
  - intros H. apply ret_inv in H as [-> ->]. exists []. by rewrite app_nil_r.
  - intros H.
    apply mbind_ret_inv in H as (ok & w1 & H1 & H).
    apply polypointInsert_trace in H1 as [q H1].
    apply mbind_ret_inv in H as (rest & w2 & H2 & H).
    apply IH in H2 as (t & Ht & Hrest).
    apply ret_inv in H as [-> ->].
    exists (DbInsert q ok :: t). split.
    + rewrite Ht, H1. by rewrite <- app_assoc.
    + intros Hc. apply (no_failed_insert_app [_] t) in Hc as [Hc1 Hc2].
      apply no_failed_insert_ok in Hc1 as ->. simpl. by rewrite Hrest.
Qed.

Lemma update_granule_flags cid g w g' w' :
  update_granule env cid g w = (Py.Ret g', w') ->
  exists t, trace w' = (trace w ++ t)%list
    /\ (no_failed_insert t -> g' = g).
Proof.
  unfold update_granule. intros H.
  apply mbind_ret_inv in H as ([g1 pp] & w1 & H1 & H).
  assert (S1 : exists t1, trace w1 = (trace w ++ t1)%list
                 /\ (no_failed_insert t1 -> g1 = g)).
  { destruct (downloadStatus g =? 1).
    - apply mbind_ret_inv in H1 as (ok & w0 & Hi & H1).
      apply granuleInsert_trace in Hi as [q Hi].
      exists [DbInsert q ok]. destruct ok; simpl in H1;
        apply ret_inv in H1 as [[= -> ->] ->]; (split; [done|]).
      + done.
      + intros Hc. by apply no_failed_insert_ok in Hc.
    - apply ret_inv in H1 as [[= -> ->] ->]. exists []. by rewrite app_nil_r. }
  destruct S1 as (t1 & T1 & E1).
  destruct (pp && _).
  - apply mbind_ret_inv in H as (pps & w2 & H2 & H).
    apply update_points_flags in H2 as (t2 & T2 & E2).
    apply ret_inv in H as [-> ->].
    exists (t1 ++ t2)%list. split; [by rewrite T2, T1, app_assoc|].
    intros Hc. apply no_failed_insert_app in Hc as [Hc1 Hc2].
    rewrite (E2 Hc2). rewrite (E1 Hc1). by destruct g.
  - apply ret_inv in H as [-> ->]. exists t1. split; [done|]. auto.
Qed.

Lemma update_granules_flags cid gs w gs' w' :
  update_granules env cid gs w = (Py.Ret gs', w') ->
  exists t, trace w' = (trace w ++ t)%list
    /\ (no_failed_insert t -> gs' = gs).
Proof.
  revert w gs' w'. induction gs as [|g gs IH]; intros w gs' w'; simpl.
  - intros H. apply ret_inv in H as [-> ->]. exists []. by rewrite app_nil_r.
  - intros H.
    apply mbind_ret_inv in H as (g1 & w1 & H1 & H).
    apply update_granule_flags in H1 as (t1 & T1 & E1).
    apply mbind_ret_inv in H as (rest & w2 & H2 & H).
    apply IH in H2 as (t2 & T2 & E2).
    apply ret_inv in H as [-> ->].
    exists (t1 ++ t2)%list. split; [by rewrite T2, T1, app_assoc|].
    intros Hc. apply no_failed_insert_app in Hc as [Hc1 Hc2].
    by rewrite (E1 Hc1), (E2 Hc2).
Qed.

Lemma update_collection_flags c w c' w' :
  update_collection env c w = (Py.Ret c', w') ->
  exists t, trace w' = (trace w ++ t)%list
    /\ (no_failed_insert t -> c' = c).
Proof.
  unfold update_collection. intros H.
  apply mbind_ret_inv in H as ([c1 pg] & w1 & H1 & H).
  assert (S1 : exists t1, trace w1 = (trace w ++ t1)%list
                 /\ (no_failed_insert t1 -> c1 = c)).
  { destruct (getNumGranules c >? 0).
    - apply mbind_ret_inv in H1 as (rows & w0 & Hq & H1).
      apply makeDBquery_trace in Hq as [r Hq].
      destruct (no_rows rows).
      + apply mbind_ret_inv in H1 as (ok & w00 & Hi & H1).
        apply collectionInsert_trace in Hi as [q Hi].
        destruct ok; simpl in H1; apply ret_inv in H1 as [[= -> ->] ->];
          eexists [DbQuery _ r; DbInsert q _];
          (split; [rewrite Hi, Hq, <- app_assoc; reflexivity|]).
        * done.
        * intros Hc. apply (no_failed_insert_app [_] [_]) in Hc as [_ Hc].
          by apply no_failed_insert_ok in Hc.
      + apply ret_inv in H1 as [[= -> ->] ->]. by eexists.
    - apply ret_inv in H1 as [[= -> ->] ->]. exists []. by rewrite app_nil_r. }
  destruct S1 as (t1 & T1 & E1).
  destruct pg.
  - apply mbind_ret_inv in H as (gs & w2 & H2 & H).
    apply update_granules_flags in H2 as (t2 & T2 & E2).
    apply ret_inv in H as [-> ->].
    exists (t1 ++ t2)%list. split; [by rewrite T2, T1, app_assoc|].
    intros Hc. apply no_failed_insert_app in Hc as [Hc1 Hc2].
    rewrite (E2 Hc2). rewrite (E1 Hc1). by destruct c.
  - apply ret_inv in H as [-> ->]. exists t1. split; [done|]. auto.
Qed.

Lemma update_collections_flags cs w cs' w' :
  update_collections env cs w = (Py.Ret cs', w') ->
  exists t, trace w' = (trace w ++ t)%list
    /\ (no_failed_insert t -> cs' = cs).
Proof.
  revert w cs' w'. induction cs as [|c cs IH]; intros w cs' w'; simpl.
  - intros H. apply ret_inv in H as [-> ->]. exists []. by rewrite app_nil_r.
  - intros H.
    apply mbind_ret_inv in H as (c1 & w1 & H1 & H).
    apply update_collection_flags in H1 as (t1 & T1 & E1).
    apply mbind_ret_inv in H as (rest & w2 & H2 & H).
    apply IH in H2 as (t2 & T2 & E2).
    apply ret_inv in H as [-> ->].
    exists (t1 ++ t2)%list. split; [by rewrite T2, T1, app_assoc|].
    intros Hc. apply no_failed_insert_app in Hc as [Hc1 Hc2].
    by rewrite (E1 Hc1), (E2 Hc2).
Qed.

(** X18.  The update pass changes the working set only where an insert
    failed: it only adds events to the trace, and if none of them is a
    failed insert, the request object is returned as it was, with no
    collection, granule or polygon point newly flagged. *)
Theorem update_changes_only_after_failed_insert ero w ero' w' :
  update env ero w = (Py.Ret ero', w') ->
  exists t, trace w' = (trace w ++ t)%list
    /\ (no_failed_insert t -> ero' = ero).
Proof.
  unfold update. intros H.
  apply mbind_ret_inv in H as (cs & w1 & H1 & H).
  apply update_collections_flags in H1 as (t & T & E).
  apply ret_inv in H as [-> ->]. exists t. split; [done|].
  intros Hc. rewrite (E Hc). by destruct ero.
Qed.

End UpdateFlags.

(** ** PendingDownloadStore: what [savePending] writes and what the next
       run reads back *)

Section SavedDownloads.
Import Sys Catalog Xml Host PendingSave PendingDownload Spec2.
Variable env : Env.
Variable host : Host.

Lemma str_int_nonempty n : Py.str_int n <> "".
Proof.
  intros E. pose proof (int_str_int n) as H. rewrite E in H. done.
Qed.

(** A granule with polygon points cannot be written. *)
Lemma granule_element_polygon g :
  with_polygon g -> granule_element env g = Py.Raise Py.TypeError.
Proof.
  intros [Hflag Hpts]. unfold granule_element, spatial_element.
  replace (HasPolyPoints g =? 0) with false by (symmetry; by apply Z.eqb_neq).
  destruct (polyPoints g); done.
Qed.

Lemma granule_element_raises g :
  granule_element env g = Py.Raise Py.TypeError
  \/ granule_element env g = Py.Raise Py.IndexError
  \/ exists e, granule_element env g = Py.Ret e.
Proof.
  unfold granule_element, spatial_element.
  destruct (negb (HasPolyPoints g =? 0)).
  - destruct (polyPoints g); simpl; [|by left].
    destruct (accessURLs g) as [|[u m] l]; simpl; [by right; left|].
    right. right. by eexists.
  - simpl. destruct (accessURLs g) as [|[u m] l]; simpl; [by right; left|].
    right. right. by eexists.
Qed.

Lemma granule_elements_polygon gs acc :
  Exists (fun g => failing g = true /\ with_polygon g) gs ->
  granule_elements env gs acc = Py.Raise Py.TypeError
  \/ granule_elements env gs acc = Py.Raise Py.IndexError.
Proof.
  intros Hex. revert acc. induction Hex as [g gs [Hf Hp]|g gs Hex IH]; intros acc; simpl.
  - unfold failing in Hf. rewrite Hf, granule_element_polygon by done. by left.
  - destruct (downloadStatus g <? 0); [|apply IH].
    destruct (granule_element_raises g) as [->|[->|[e ->]]]; simpl; auto.
Qed.

Lemma collection_elements_polygon cs acc :
  Exists (fun c => haveFailedDwnlds c = true
                   /\ Exists (fun g => failing g = true /\ with_polygon g)
                             (granContainer c)) cs ->
  collection_elements env cs acc = Py.Raise Py.TypeError
  \/ collection_elements env cs acc = Py.Raise Py.IndexError.
Proof.
  intros Hex. revert acc. induction Hex as [c cs [Hf Hp]|c cs Hex IH]; intros acc; simpl.
  - rewrite Hf. unfold collection_element.
    destruct (granule_elements_polygon _ [] Hp) as [-> | ->]; simpl; auto.
  - destruct (haveFailedDwnlds c); [|apply IH].
    unfold collection_element.
    destruct (granule_elements env (granContainer c) []) as [grans|e] eqn:Hg; simpl.
    + apply IH.
    + clear IH. revert Hg. generalize (@nil element).
      induction (granContainer c) as [|g gs IHg]; intros acc' Hg; simpl in Hg; [done|].
      destruct (downloadStatus g <? 0); [|by apply (IHg acc')].
      destruct (granule_element_raises g) as [Hr|[Hr|[el Hr]]]; rewrite Hr in Hg;
        simpl in Hg.
      * injection Hg as <-. by left.
      * injection Hg as <-. by right.
      * by apply (IHg (acc' ++ [el])%list).
Qed.

(** X19.  When a granule whose download failed (status below zero, in a
    collection flagged [haveFailedDwnlds]) has polygon points,
    [savePending] raises TypeError (or IndexError, if a granule to save
    before it has no access URL) while it builds the document: the
    polygon points are [ECHOpolypoint] objects, which the loop tries to
    unpack as pairs.  Nothing is written, neither to the pending download
    file nor to the log: the failed downloads of the run are not saved. *)
Theorem savePending_faults_on_polygon_granule ero w c g :
  c ∈ collContainer ero -> haveFailedDwnlds c = true ->
  g ∈ granContainer c -> downloadStatus g < 0 ->
  HasPolyPoints g <> 0 -> polyPoints g <> [] ->
  exists e,
    (e = Py.TypeError \/ e = Py.IndexError)
    /\ savePending env host ero w = (Py.Raise e, w).
Proof.
  intros Hc Hf Hg Hs Hflag Hpts. unfold savePending.
  assert (Hany : existsb haveFailedDwnlds (collContainer ero) = true).
  { apply existsb_exists. exists c. split; [by apply list_elem_of_In|done]. }
  rewrite Hany.
  assert (Hex : Exists (fun c => haveFailedDwnlds c = true
                   /\ Exists (fun g => failing g = true /\ with_polygon g)
                             (granContainer c)) (collContainer ero)).
  { apply Exists_exists. exists c. split_and!; [done..|].
    apply Exists_exists. exists g. split_and!; [done| |done].
    unfold failing. lia. }
  destruct (collection_elements_polygon _ [] Hex) as [E|E];
    cbv [mbind pure]; rewrite E; eauto.
Qed.

(** *** The document of savable downloads *)

Lemma granule_element_savable g :
  savable_granule g -> granule_element env g = Py.Ret (saved_granule env g).
Proof.
  intros [Hflag Hurl]. unfold granule_element, spatial_element, saved_granule, first_url.
  rewrite Hflag. simpl.
  destruct (accessURLs g) as [|[u m] l]; [done|]. reflexivity.
Qed.

Lemma granule_elements_savable gs acc :
  Forall savable_granule (List.filter failing gs) ->
  granule_elements env gs acc
  = Py.Ret (acc ++ map (saved_granule env) (List.filter failing gs))%list.
Proof.
  revert acc. induction gs as [|g gs IH]; intros acc Hall; simpl.
  { by rewrite app_nil_r. }
  simpl in Hall. unfold failing in *.
  destruct (downloadStatus g <? 0).
  - apply Forall_cons in Hall as [Hg Hall].
    rewrite granule_element_savable by done. simpl.
    rewrite IH by done. by rewrite <- app_assoc.
  - by apply IH.
Qed.

Lemma collection_element_savable c :
  Forall savable_granule (List.filter failing (granContainer c)) ->
  collection_element env c = Py.Ret (saved_collection env c).
Proof.
  intros Hall. unfold collection_element.
  by rewrite granule_elements_savable.
Qed.

Lemma collection_elements_savable cs acc :
  Forall (fun c => Forall savable_granule (List.filter failing (granContainer c)))
         (List.filter haveFailedDwnlds cs) ->
  collection_elements env cs acc
  = Py.Ret (acc ++ map (saved_collection env) (List.filter haveFailedDwnlds cs))%list.
Proof.
  revert acc. induction cs as [|c cs IH]; intros acc Hall; simpl.
  { by rewrite app_nil_r. }
  simpl in Hall. destruct (haveFailedDwnlds c).
  - apply Forall_cons in Hall as [Hc Hall].
    rewrite collection_element_savable by done. simpl.
    rewrite IH by done. by rewrite <- app_assoc.
  - by apply IH.
Qed.

(** [savePending] on savable downloads, when the file can be opened and
    written. *)
Lemma savePending_writes ero w :
  existsb haveFailedDwnlds (collContainer ero) = true ->
  Forall (fun c => Forall savable_granule (List.filter failing (granContainer c)))
         (List.filter haveFailedDwnlds (collContainer ero)) ->
  (forall t, os_open_w_ok env t (pdlfile ero) = true) ->
  (forall t, os_write_ok host t (pdlfile ero) = true) ->
  exists w1,
    savePending env host ero w = (Py.Ret tt, w1)
    /\ fs w1 = <[pdlfile ero :=
                   File (XmlDoc (reparsed (saved_downloads env (collContainer ero))))]>
                 (fs w).
Proof.
  intros Hany Hall Hopen Hwrite. unfold savePending. rewrite Hany.
  unfold Os.open_w, write_truncated, Os.write_xml.
  cbv [mbind pure write get_trace get_fs emit set_fs ret].
  rewrite collection_elements_savable by done. cbn [log trace fs].
  rewrite Hopen. cbn [log trace fs negb]. rewrite Hwrite. cbn [log trace fs negb].
  eexists. split; [reflexivity|]. cbn [fs].
  by rewrite insert_insert_eq.
Qed.

(** *** Reading the document back *)

Section ReadBack.
Variable rt : float -> float.
Hypothesis Hstr : forall x, str_float env x <> "".
Hypothesis Hrt : forall x, float_of_str env (str_float env x) = Some (rt x).

Lemma py_float_saved x :
  py_float env (blank (Some (str_float env x))) = Py.Ret (rt x).
Proof. rewrite blank_some by apply Hstr. simpl. by rewrite Hrt. Qed.

Lemma int_of_saved n :
  Py.int_of (blank (Some (Py.str_int n))) = Py.Ret n.
Proof. rewrite blank_some by apply str_int_nonempty. apply int_str_int. Qed.

Lemma read_saved_granule g :
  read_granule env (reparsed (saved_granule env g))
  = Py.Ret (blank (egid g), restored_granule rt g).
Proof.
  unfold read_granule, child_float, child_text, saved_granule, leaf.
  cbn [reparsed map find children List.find tag String.eqb Ascii.eqb Bool.eqb
       text_of Py.attr_of Py.bind text].
  rewrite int_of_saved, !py_float_saved. cbn [Py.bind].
  unfold restored_granule.
  by replace (numDloadTrys g + 1 + 1) with (numDloadTrys g + 2) by lia.
Qed.

Lemma inCollections_from_absent cs cid k :
  Forall (fun c => collID c <> cid) cs -> inCollections_from cs cid k = -1.
Proof.
  revert k. induction cs as [|c cs IH]; intros k Hall; simpl; [done|].
  apply Forall_cons in Hall as [Hc Hall].
  rewrite (proj2 (eqb_ostr_neq _ _) Hc). by apply IH.
Qed.

Lemma inGranules_from_absent cs cid gid :
  Forall (fun g => egid g <> gid)
         (flat_map granContainer
            (List.filter (fun c => eqb_ostr (collID c) cid) cs)) ->
  inGranules_from cs cid gid 0 = -1.
Proof.
  intros Hall.
  destruct (inGranules_from_spec cs cid gid 0 ltac:(lia))
    as [[H _]|(i & g & _ & Hl & Hg & _)]; [done|].
  apply list_elem_of_lookup_2 in Hl.
  by destruct (proj1 (Forall_forall _ _) Hall g Hl).
Qed.

Lemma filter_none {A} (f : A -> bool) (l : list A) :
  Forall (fun x => f x = false) l -> List.filter f l = [].
Proof.
  induction 1 as [|x l Hx _ IH]; simpl; [done|]. by rewrite Hx.
Qed.

Lemma filter_all {A} (f : A -> bool) (l : list A) :
  Forall (fun x => f x = true) l -> List.filter f l = l.
Proof.
  induction 1 as [|x l Hx _ IH]; simpl; [done|]. by rewrite Hx, IH.
Qed.

(** One saved granule joins the collection at the end of the working
    set. *)
Lemma load_saved_granule pre cur g r w :
  collContainer r = (pre ++ [cur])%list ->
  Forall (fun c => collID c <> collID cur) pre ->
  Forall (fun g' => egid g' <> blank (egid g)) (granContainer cur) ->
  load_granule env (collID cur) (Z.of_nat (length pre)) r
    (reparsed (saved_granule env g)) w
  = (Py.Ret (setCollections
               (pre ++ [setGranContainer
                          (granContainer cur ++ [restored_granule rt g]) cur])
               (numCollections r) r), w).
Proof.
  intros Hr Hpre Hcur. unfold load_granule.
  rewrite read_saved_granule. cbv [mbind pure ret].
  unfold inGranules. rewrite Hr, inGranules_from_absent.
  - simpl. by rewrite getitem_last, setitem_last.
  - rewrite List.filter_app, filter_none.
    + simpl. rewrite (proj2 (eqb_ostr_eq _ _) eq_refl). simpl.
      by rewrite app_nil_r.
    + eapply Forall_impl; [exact Hpre|]. intros c Hc. by apply eqb_ostr_neq.
Qed.

Lemma load_saved_granules gs : forall pre cur r w,
  collContainer r = (pre ++ [cur])%list ->
  Forall (fun c => collID c <> collID cur) pre ->
  NoDup (map egid (granContainer cur) ++ map (fun g => blank (egid g)) gs) ->
  granules_loop env (collID cur) (Z.of_nat (length pre))
    (map reparsed (map (saved_granule env) gs)) r w
  = (Py.Ret (setCollections
               (pre ++ [setGranContainer
                          (granContainer cur ++ map (restored_granule rt) gs) cur])
               (numCollections r) r), w).
Proof.
  induction gs as [|g gs IH]; intros pre cur r w Hr Hpre Hnd.
  - simpl. rewrite app_nil_r. unfold ret. do 2 f_equal.
    replace (setGranContainer (granContainer cur) cur) with cur by (by destruct cur).
    rewrite <- Hr. by destruct r.
  - assert (Hfresh : Forall (fun g' => egid g' <> blank (egid g)) (granContainer cur)).
    { apply NoDup_app in Hnd as (_ & Hdis & _).
      apply Forall_forall. intros g' Hg' E.
      apply (Hdis (egid g')); [by apply list_elem_of_fmap_2|].
      rewrite E. simpl. left. }
    cbn [map granules_loop].
    rewrite (mbind_run _ _ _ _ _ (load_saved_granule pre cur g r w Hr Hpre Hfresh)).
    set (cur' := setGranContainer _ cur).
    rewrite (IH pre cur').
    + subst cur'. cbn [granContainer setGranContainer].
      by rewrite <- app_assoc.
    + done.
    + done.
    + subst cur'. cbn [granContainer setGranContainer].
      rewrite map_app. simpl. by rewrite <- app_assoc.
Qed.

(** One saved collection joins the working set at the end. *)
Lemma load_saved_collection c r w :
  counted r ->
  Forall (fun c' => collID c' <> blank (collID c)) (collContainer r) ->
  NoDup (map (fun g => blank (egid g)) (List.filter failing (granContainer c))) ->
  load_collection env r (reparsed (saved_collection env c)) w
  = (Py.Ret (setCollections (collContainer r ++ [restored_collection rt c])
               (numCollections r + 1) r), w).
Proof.
  intros Hn Hfresh Hnd. unfold load_collection, child_text, saved_collection, leaf.
  cbn [reparsed map find children List.find tag String.eqb Ascii.eqb Bool.eqb
       text_of Py.attr_of Py.bind text].
  cbv [mbind pure ret]. unfold inCollections.
  rewrite inCollections_from_absent by done. simpl.
  set (cur := ECHOcollection_init _ _ _ _ _ _ _).
  set (r' := setCollections _ _ r).
  replace (numCollections r + 1 - 1) with (Z.of_nat (length (collContainer r)))
    by (unfold counted in Hn; lia).
  change (blank (collID c)) with (collID cur).
  rewrite (load_saved_granules _ (collContainer r) cur r' w); [done|done|done|].
  by simpl.
Qed.

Lemma load_saved_collections cs : forall r w,
  counted r ->
  NoDup (map collID (collContainer r) ++ map (fun c => blank (collID c)) cs) ->
  Forall (fun c => NoDup (map (fun g => blank (egid g))
                            (List.filter failing (granContainer c)))) cs ->
  collections_loop env (map reparsed (map (saved_collection env) cs)) r w
  = (Py.Ret (setCollections
               (collContainer r ++ map (restored_collection rt) cs)
               (numCollections r + Z.of_nat (length cs)) r), w).
Proof.
  induction cs as [|c cs IH]; intros r w Hn Hnd Hall.
  - simpl. rewrite app_nil_r, Z.add_0_r. unfold ret. do 2 f_equal. by destruct r.
  - apply Forall_cons in Hall as [Hc Hall].
    assert (Hfresh : Forall (fun c' => collID c' <> blank (collID c)) (collContainer r)).
    { apply NoDup_app in Hnd as (_ & Hdis & _).
      apply Forall_forall. intros c' Hc' E.
      apply (Hdis (collID c')); [by apply list_elem_of_fmap_2|].
      rewrite E. simpl. left. }
    cbn [map collections_loop].
    rewrite (mbind_run _ _ _ _ _ (load_saved_collection c r w Hn Hfresh Hc)).
    rewrite IH.
    + cbn [collContainer numCollections setCollections].
      rewrite <- app_assoc. simpl length. do 2 f_equal.
      unfold setCollections. cbn. f_equal. lia.
    + unfold counted in *. cbn [collContainer numCollections setCollections].
      rewrite length_app. simpl. lia.
    + cbn [collContainer setCollections]. rewrite map_app. simpl.
      by rewrite <- app_assoc.
    + done.
Qed.

Lemma findall_saved cs :
  findall (reparsed (saved_downloads env cs)) "collection"
  = map reparsed (map (saved_collection env) (List.filter haveFailedDwnlds cs)).
Proof.
  unfold findall, saved_downloads. cbn [reparsed children].
  apply filter_all. rewrite Forall_map, Forall_map. by apply Forall_true.
Qed.

End ReadBack.

(** X20.  What [savePending] saves, [loadPendDwnld] restores.  Let at
    least one collection be flagged [haveFailedDwnlds], let no granule to
    save have polygon points and each have an access URL, let the ids of
    the collections to save, and the ids of the granules to save within
    each, be distinct, and let the pending download file be opened and
    written without error.  Then [savePending] returns, and from the file
    it leaves (whatever else changed in between) [loadPendDwnld] fills an
    empty working set with one collection for each flagged one, in
    order, holding its granules of status below zero, in order: the texts
    as they were (an empty one as None), the size and the bounds through
    [str] and [float], the first access URL with mime type
    ["NoMimeType"], the try count two higher, and status, flags and the
    granule counter of the collection reset. *)
Theorem savePending_then_loadPendDwnld rt ero r w :
  (forall x, str_float env x <> "") ->
  (forall x, float_of_str env (str_float env x) = Some (rt x)) ->
  (forall t, os_open_w_ok env t (pdlfile ero) = true) ->
  (forall t, os_write_ok host t (pdlfile ero) = true) ->
  existsb haveFailedDwnlds (collContainer ero) = true ->
  savable (collContainer ero) ->
  collContainer r = [] -> numCollections r = 0 -> pdlfile r = pdlfile ero ->
  exists w1,
    savePending env host ero w = (Py.Ret tt, w1)
    /\ forall w2, fs w2 !! pdlfile ero = fs w1 !! pdlfile ero ->
         let saved := List.filter haveFailedDwnlds (collContainer ero) in
         loadPendDwnld env r w2
         = (Py.Ret (setCollections (map (restored_collection rt) saved)
                      (Z.of_nat (length saved)) r), w2).
Proof.
  intros Hstr Hrt Hopen Hwrite Hany [Hsav Hnd] Hr Hn Hf.
  destruct (savePending_writes ero w Hany) as (w1 & Hsave & Hfs); [|done|done|].
  { eapply Forall_impl; [exact Hsav|]. by intros c [? _]. }
  exists w1. split; [done|]. intros w2 Hw2 saved.
  unfold loadPendDwnld, Os.parse. cbv [mbind get_fs ret].
  rewrite Hf, Hw2, Hfs, lookup_insert_eq.
  rewrite (findall_saved (collContainer ero)).
  fold saved.
  rewrite (load_saved_collections rt Hstr Hrt saved r w2).
  - by rewrite Hr, Hn.
  - unfold counted. by rewrite Hr, Hn.
  - by rewrite Hr.
  - eapply Forall_impl; [exact Hsav|]. by intros c [_ ?].
Qed.

End SavedDownloads.

(** ** Instances of the properties above on concrete runs *)

Section Instances.
Import Sys Catalog Xml Host Spec Spec2.
Import Examples2 Examples8.

(** Instance of [loadPendDwnld_keeps_count]: the merge of the pending
    document into the working set of one collection. *)
Lemma loadPendDwnld_keeps_count_witness :
  exists r' w',
    PendingDownload.loadPendDwnld calm_env working_set world_with_pending
    = (Py.Ret r', w')
    /\ counted working_set /\ counted r'.
Proof.
  eexists _, _. split; [vm_compute; reflexivity|]. split; [reflexivity|].
  eapply (loadPendDwnld_keeps_count calm_env working_set world_with_pending);
    vm_compute; reflexivity.
Defined.

(** Instance of [loadPendDwnld_keeps_working_set], on the same run. *)
Lemma loadPendDwnld_keeps_working_set_witness :
  exists r' w',
    PendingDownload.loadPendDwnld calm_env working_set world_with_pending
    = (Py.Ret r', w')
    /\ r' = setCollections (collContainer r') (numCollections r') working_set
    /\ kept_as grown (collContainer working_set) (collContainer r').
Proof.
  eexists _, _. split; [vm_compute; reflexivity|].
  eapply (loadPendDwnld_keeps_working_set calm_env working_set world_with_pending);
    vm_compute; reflexivity.
Defined.

(** Instance of [getReqData_appends_collections]: two queries against a
    catalog that knows one collection. *)
Lemma getReqData_appends_collections_witness :
  exists ero' w',
    Client.getReqData Examples7.crowded_env 1000 Examples7.two_queries (world_of ∅)
    = (Py.Ret ero', w')
    /\ counted Examples7.two_queries
    /\ counted ero'
    /\ ero' = setCollections (collContainer ero') (numCollections ero')
                Examples7.two_queries
    /\ collContainer Examples7.two_queries `prefix_of` collContainer ero'
    /\ Z.of_nat (length (collContainer ero'))
       <= Z.of_nat (length (collContainer Examples7.two_queries))
          + Z.max 0 (numDatasetQueries Examples7.two_queries).
Proof.
  eexists _, _. split; [vm_compute; reflexivity|]. split; [reflexivity|].
  eapply (getReqData_appends_collections Examples7.crowded_env 1000
            Examples7.two_queries (world_of ∅)); vm_compute; reflexivity.
Defined.

(** Instance of [processtx_malformed_entry]: the second entry of the
    granule file has no [collID] element. *)
Lemma processtx_malformed_entry_witness :
  exists w',
    PendingTx.processtx calm_env "G" "_ptxG.xml" world_malformed_queue
    = (Py.Raise Py.AttributeError, w')
    /\ trace w' = [DbInsert Examples5.granule_tx_sql true]
    /\ fs w' = fs world_malformed_queue.
Proof.
  apply (processtx_malformed_entry calm_env "G" "granule" PendingTx.FIELDS_G
           "_ptxG.xml" world_malformed_queue
           (Examples5.tx_doc [Examples5.granule_tx "G1"; granule_tx_without_collection])
           [Examples5.granule_tx "G1"] granule_tx_without_collection []
           [Examples5.granule_tx_sql] [DbInsert Examples5.granule_tx_sql true]
           "collID"); try reflexivity.
  - repeat constructor.
  - apply run_cons; [reflexivity|apply run_nil].
  - repeat constructor.
Defined.

(** Instance of [saved_granule_without_text_blocks_replay]: a granule
    that was never planned for download has the empty string as its local
    file name. *)
Lemma saved_granule_without_text_blocks_replay_witness :
  PendingTx.tx_sql "G" PendingTx.FIELDS_G unplanned_tx = Py.Raise Py.TypeError
  /\ exists w',
       PendingTx.processtx calm_env "G" "_ptxG.xml" world_unplanned_queue
       = (Py.Raise Py.TypeError, w')
       /\ trace w' = []
       /\ fs w' = fs world_unplanned_queue.
Proof.
  apply (saved_granule_without_text_blocks_replay calm_env "_ptxG.xml"
           world_unplanned_queue (Examples5.tx_doc [unplanned_tx]) []
           (fresh_granule "G1") (Some "C1") [] [] [] (Some ""));
    try reflexivity.
  - constructor.
  - apply run_nil.
  - repeat constructor.
Defined.

(** Instance of [saved_polypoint_replays_failed_statement]. *)
Lemma saved_polypoint_replays_failed_statement_witness :
  PendingTx.tx_sql "P" PendingTx.FIELDS_P
    (reparsed (PendingTxSave.Pelement calm_env
                 (ECHOpolypoint_init (float_of_int 1) (float_of_int 2)) (Some "G1")))
  = Py.Ret "insert into polypoints (granID,latitude,longitude) values('G1','0.0','0.0');".
Proof.
  destruct (saved_polypoint_replays_failed_statement calm_env
              (ECHOpolypoint_init (float_of_int 1) (float_of_int 2))
              (Some "G1") "G1" eq_refl) as [H1 H2]; [done..|].
  rewrite H1. exact H2.
Defined.

(** Instance of [saved_granule_replays_other_statement]: a granule whose
    transfer failed. *)
Lemma saved_granule_replays_other_statement_witness :
  exists q q',
    PendingTx.tx_sql "G" PendingTx.FIELDS_G
      (reparsed (PendingTxSave.Gelement calm_env
                   (Examples3.transferred "G2" (-1) Examples3.file_b) (Some "C1")))
    = Py.Ret q
    /\ Db.granule_sql calm_env (Examples3.transferred "G2" (-1) Examples3.file_b)
         (Some "C1") = Py.Ret q'
    /\ q <> q'.
Proof.
  eexists _, _. split; [vm_compute; reflexivity|]. split; [reflexivity|].
  eapply (saved_granule_replays_other_statement calm_env
            (Examples3.transferred "G2" (-1) Examples3.file_b) (Some "C1"));
    vm_compute; reflexivity.
Defined.

(** Instance of [savePendTx_captures_failed_inserts]: every insert of the
    working set failed and no queue file is there. *)
Lemma savePendTx_captures_failed_inserts_witness :
  exists w',
    PendingTxSave.savePendTx calm_env calm_host
      (Examples5.handler false false false) refused_set (world_of ∅)
    = (Py.Ret tt, w')
    /\ fs w' !! "_ptxC.xml" = queue_file (pending_C (collContainer refused_set))
    /\ fs w' !! "_ptxG.xml"
       = queue_file (pending_G calm_env (collContainer refused_set))
    /\ fs w' !! "_ptxP.xml"
       = queue_file (pending_P calm_env (collContainer refused_set))
    /\ forall p, p <> "_ptxC.xml" -> p <> "_ptxG.xml" -> p <> "_ptxP.xml" ->
         fs w' !! p = fs (world_of ∅) !! p.
Proof.
  apply (savePendTx_captures_failed_inserts calm_env calm_host
           (Examples5.handler false false false) refused_set (world_of ∅));
    first [done | reflexivity].
Defined.

(** Instance of [loadDataSetQueries_accepts_complete_datasets]. *)
Lemma loadDataSetQueries_accepts_complete_datasets_witness :
  exists qs,
    QueryBuilder.loadDataSetQueries Examples.request_complete = QueryBuilder.Go qs
    /\ length qs = length (children Examples.request_complete)
    /\ Forall complete_dataset (children Examples.request_complete).
Proof.
  eexists. split; [vm_compute; reflexivity|].
  eapply (loadDataSetQueries_accepts_complete_datasets Examples.request_complete);
    vm_compute; reflexivity.
Defined.

(** Instance of [validateRequest_accepts]: a request without database
    whose data directory is there. *)
Lemma validateRequest_accepts_witness :
  exists r' w',
    Request.validateRequest calm_env calm_host "request.xml" unvalidated
      world_with_request
    = (Py.Ret (Some (r', request_file)), w')
    /\ dbFlag r' = "False" /\ directoryRoot r' = "/data"
    /\ writable_path (fs world_with_request) (directoryRoot r')
    /\ fs w' = fs world_with_request.
Proof.
  eexists _, _. split; [vm_compute; reflexivity|].
  edestruct (validateRequest_accepts calm_env calm_host "request.xml" unvalidated
               world_with_request)
    as (_ & _ & _ & _ & _ & _ & Hw & _ & _ & _ & Hfs); [vm_compute; reflexivity|].
  split; [reflexivity|]. split; [reflexivity|]. split; [exact Hw|exact Hfs].
Defined.

(** Instance of [ECHOrequest_init_builds], on the same file. *)
Lemma ECHOrequest_init_builds_witness :
  exists r w',
    Request.ECHOrequest_init calm_env calm_host "request.xml" 1000 3072
      world_with_request
    = (Py.Ret (r, false), w')
    /\ QueryBuilder.loadDataSetQueries request_file
       = QueryBuilder.Go (dataSetQueries r)
    /\ numDatasetQueries r = 1
    /\ collContainer r = [] /\ numCollections r = 0.
Proof.
  eexists _, _. split; [vm_compute; reflexivity|].
  edestruct (ECHOrequest_init_builds calm_env calm_host "request.xml" 1000 3072
               world_with_request)
    as ((root & Hfile & Hq & _) & Hn & Hc & Hnc & _); [vm_compute; reflexivity|].
  injection Hfile as <-.
  split; [exact Hq|]. split; [exact Hn|]. split; [exact Hc|exact Hnc].
Defined.

(** Instance of [downloadGranules_reconciles]: one granule is planned and
    fetched. *)
Lemma downloadGranules_reconciles_witness :
  exists ero' st' w',
    Downloader.downloadGranules calm_env 10 working_set new_downloader
      (world_of {[ "/data" := Dir true ]})
    = (Py.Ret (ero', st'), w')
    /\ ero' = setCollections (collContainer ero') (numCollections working_set)
                working_set
    /\ Forall2 (fun cc cc' =>
                  cc' = setFailedStatus (haveFailedDwnlds cc')
                          (setGranContainer (granContainer cc') cc)
                  /\ Forall2 (fun g g' =>
                                placed g g'
                                /\ egid g' = egid g
                                /\ Downloader.granuleStatus st' !! egid g
                                   = Some (downloadStatus g'))
                             (granContainer cc) (granContainer cc')
                  /\ haveFailedDwnlds cc'
                     = haveFailedDwnlds cc || some_failed (granContainer cc'))
               (collContainer working_set) (collContainer ero').
Proof.
  eexists _, _, _. split; [vm_compute; reflexivity|].
  eapply (downloadGranules_reconciles calm_env 10 working_set new_downloader
            (world_of {[ "/data" := Dir true ]})); vm_compute; reflexivity.
Defined.

(** Instance of [update_changes_only_after_failed_insert]: every insert
    of the pass succeeds. *)
Lemma update_changes_only_after_failed_insert_witness :
  exists ero' w',
    Db.update calm_env (request_of [Examples4.collection_with_polygon] fzero 3072)
      (world_of ∅)
    = (Py.Ret ero', w')
    /\ exists t, trace w' = (trace (world_of ∅) ++ t)%list
         /\ (no_failed_insert t
             -> ero' = request_of [Examples4.collection_with_polygon] fzero 3072).
Proof.
  eexists _, _. split; [vm_compute; reflexivity|].
  eapply (update_changes_only_after_failed_insert calm_env
            (request_of [Examples4.collection_with_polygon] fzero 3072)
            (world_of ∅)); vm_compute; reflexivity.
Defined.

(** Instance of [savePending_faults_on_polygon_granule]. *)
Lemma savePending_faults_on_polygon_granule_witness :
  exists e,
    (e = Py.TypeError \/ e = Py.IndexError)
    /\ PendingSave.savePending calm_env calm_host failed_polygon_set (world_of ∅)
       = (Py.Raise e, world_of ∅).
Proof.
  apply (savePending_faults_on_polygon_granule calm_env calm_host
           failed_polygon_set (world_of ∅)
           (setFailedStatus true (collection_C1 [failed_polygon_granule]))
           failed_polygon_granule); first [reflexivity | done | constructor].
Defined.

(** Instance of [savePending_then_loadPendDwnld]: the failed transfer of
    G2 is saved, and restored into the empty working set of the next
    run. *)
Lemma savePending_then_loadPendDwnld_witness :
  exists w1,
    PendingSave.savePending calm_env calm_host failed_set (world_of ∅)
    = (Py.Ret tt, w1)
    /\ PendingDownload.loadPendDwnld calm_env unvalidated w1
       = (Py.Ret (setCollections
                    (map (restored_collection (fun _ => fzero))
                         (List.filter haveFailedDwnlds (collContainer failed_set)))
                    1 unvalidated), w1).
Proof.
  destruct (savePending_then_loadPendDwnld calm_env calm_host (fun _ => fzero)
              failed_set unvalidated (world_of ∅)) as (w1 & Hsave & Hload);
    try done.
  - split; simpl.
    + constructor; [|constructor]. split; simpl.
      * constructor; [|constructor]. by split.
      * apply NoDup_singleton.
    + apply NoDup_singleton.
  - exists w1. split; [exact Hsave|]. exact (Hload w1 eq_refl).
Defined.

End Instances.
